(** * demox-site/mcp-server: credential lifecycle, call dispatch and deploy input

    A shallow embedding of the TypeScript sources
      - auth/OAuthManager.ts  (credential store and browser login flow),
      - api/DemoxClient.ts    (backend calls, deploy input resolution),
      - cli.ts                (the tool-call handler of the MCP server),
    followed by the properties of the specification, each settled on the
    embedding.

    Conventions.
    - A JavaScript string is the [string] of its UTF-8 bytes.  Prefix, suffix
      and substring tests agree on both encodings for well-formed text; the
      only place where the unit of length matters ([str.length]) goes
      through [JsString.length], which counts UTF-16 code units.
    - A JavaScript number that holds a count or a time stamp is a [Z]
      (all such values stay far inside the exactly represented range).
      [Math.random] and [Number.prototype.toString(36)] are computed on
      binary64 floats.
    - async code is run to completion in program order: one logical thread,
      every [await] is a sequencing point.  The computation type [M] threads
      the world (file system, clock, network peers, the listener, the trace
      of observable events) and carries thrown errors. *)

From Stdlib Require Import ZArith NArith Arith Bool List String Ascii Lia.
From Stdlib Require Import Floats Uint63 DecimalString.
Import ListNotations.
Set Warnings "-register-all".
Local Open Scope string_scope.
Local Open Scope Z_scope.

(** ** JavaScript strings *)

Module JsString.

Definition startsWith (s p : string) : bool := String.prefix p s.

Fixpoint includes (s sub : string) : bool :=
  String.prefix sub s ||
  match s with
  | EmptyString => false
  | String _ t => includes t sub
  end.

Definition endsWith (s suf : string) : bool :=
  let n := String.length s in
  let m := String.length suf in
  (m <=? n)%nat && String.eqb (String.substring (n - m) m s) suf.

Definition lower_ascii (c : ascii) : ascii :=
  let n := nat_of_ascii c in
  if ((65 <=? n) && (n <=? 90))%nat then ascii_of_nat (n + 32) else c.

(** [toLowerCase] on the ASCII letters.  No character outside ASCII
    lowers to one of the characters of [.zip], the only text the
    program looks for in a lowered string. *)
Fixpoint toLowerCase (s : string) : string :=
  match s with
  | EmptyString => EmptyString
  | String c t => String (lower_ascii c) (toLowerCase t)
  end.

(** UTF-16 code units contributed by one UTF-8 byte: a continuation byte
    (10xxxxxx) adds nothing, the lead byte of a four-byte sequence
    (11110xxx) stands for a surrogate pair. *)
Definition units_of_byte (c : ascii) : nat :=
  let n := nat_of_ascii c in
  if ((128 <=? n) && (n <? 192))%nat then 0%nat
  else if (240 <=? n)%nat then 2%nat
  else 1%nat.

Fixpoint length (s : string) : nat :=
  match s with
  | EmptyString => 0%nat
  | String c t => (units_of_byte c + length t)%nat
  end.

(** [s.substring(a, b)] for [0 <= a <= b] on a string of ASCII text. *)
Definition substring (a b : nat) (s : string) : string :=
  String.substring a (b - a) s.

Fixpoint repeat (s : string) (n : nat) : string :=
  match n with
  | O => ""
  | S k => s ++ repeat s k
  end.

Fixpoint join (sep : string) (l : list string) : string :=
  match l with
  | [] => ""
  | [x] => x
  | x :: rest => x ++ sep ++ join sep rest
  end.

(** [String(n)] for an integer. *)
Definition of_N (n : N) : string := NilZero.string_of_uint (N.to_uint n).

Definition of_Z (z : Z) : string :=
  if z <? 0 then "-" ++ of_N (Z.to_N (- z)) else of_N (Z.to_N z).

(** [s.replace(pat, "")]: the first occurrence of [pat] is removed. *)
Fixpoint remove_first (fuel : nat) (pat s : string) : string :=
  match fuel with
  | O => s
  | S k =>
    if String.prefix pat s
    then String.substring (String.length pat)
                          (String.length s - String.length pat) s
    else match s with
         | EmptyString => EmptyString
         | String c t => String c (remove_first k pat t)
         end
  end.

Definition replace_first_by_empty (pat s : string) : string :=
  remove_first (S (String.length s)) pat s.

(** The last element of [s.split(/\/|\\/)]: the text after the last
    slash or backslash. *)
Fixpoint last_segment_from (acc s : string) : string :=
  match s with
  | EmptyString => acc
  | String c t =>
    if (Ascii.eqb c "/" || Ascii.eqb c "\")%bool
    then last_segment_from t t
    else last_segment_from acc t
  end.

Definition last_segment (s : string) : string := last_segment_from s s.

End JsString.

(** ** [atob] and [btoa]

    [atob] is the forgiving base64 decoder of the WHATWG Infra standard;
    the bytes of the decoded binary string are kept as numbers.  [None]
    stands for the thrown [InvalidCharacterError]. *)

Module Base64.

Definition is_whitespace (c : ascii) : bool :=
  let n := nat_of_ascii c in
  ((n =? 9) || (n =? 10) || (n =? 12) || (n =? 13) || (n =? 32))%nat.

Definition sextet (c : ascii) : option N :=
  let n := N_of_ascii c in
  (if (65 <=? n) && (n <=? 90) then Some (n - 65)
   else if (97 <=? n) && (n <=? 122) then Some (n - 71)
   else if (48 <=? n) && (n <=? 57) then Some (n + 4)
   else if n =? 43 then Some 62
   else if n =? 47 then Some 63
   else None)%N.

Definition alphabet (v : N) : ascii :=
  (if v <? 26 then ascii_of_N (v + 65)
   else if v <? 52 then ascii_of_N (v + 71)
   else if v <? 62 then ascii_of_N (v - 4)
   else if v =? 62 then "+"%char
   else "/"%char)%N.

Fixpoint sextets (l : list ascii) : option (list N) :=
  match l with
  | [] => Some []
  | c :: t =>
    match sextet c, sextets t with
    | Some v, Some vs => Some (v :: vs)
    | _, _ => None
    end
  end.

(** Remove one or two trailing [=] (the list is given reversed). *)
Definition strip_padding_rev (r : list ascii) : list ascii :=
  match r with
  | "="%char :: "="%char :: t => t
  | "="%char :: t => t
  | _ => r
  end.

Fixpoint decode_groups (fuel : nat) (vs : list N) : list N :=
  match fuel with
  | O => []
  | S k =>
    (match vs with
     | a :: b :: c :: d :: rest =>
       let n := a * 262144 + b * 4096 + c * 64 + d in
       n / 65536 :: (n / 256) mod 256 :: n mod 256 :: decode_groups k rest
     | [a; b; c] =>
       let n := (a * 4096 + b * 64 + c) / 4 in
       [n / 256; n mod 256]
     | [a; b] => [(a * 64 + b) / 16]
     | _ => []
     end)%N
  end.

Definition atob (s : string) : option (list N) :=
  let data := filter (fun c => negb (is_whitespace c)) (list_ascii_of_string s) in
  let data :=
    if (List.length data mod 4 =? 0)%nat
    then rev (strip_padding_rev (rev data))
    else data in
  if (List.length data mod 4 =? 1)%nat then None
  else match sextets data with
       | None => None
       | Some vs => Some (decode_groups (S (List.length vs)) vs)
       end.

Fixpoint encode_groups (fuel : nat) (bs : list N) : list ascii :=
  match fuel with
  | O => []
  | S k =>
    (match bs with
     | a :: b :: c :: rest =>
       let n := a * 65536 + b * 256 + c in
       alphabet (n / 262144) :: alphabet ((n / 4096) mod 64)
         :: alphabet ((n / 64) mod 64) :: alphabet (n mod 64)
         :: encode_groups k rest
     | [a; b] =>
       let n := (a * 256 + b) * 4 in
       [alphabet (n / 4096); alphabet ((n / 64) mod 64); alphabet (n mod 64); "="%char]
     | [a] =>
       let n := a * 16 in
       [alphabet (n / 64); alphabet (n mod 64); "="%char; "="%char]
     | [] => []
     end)%N
  end.

Definition btoa (bs : list N) : string :=
  string_of_list_ascii (encode_groups (S (List.length bs)) bs).

End Base64.

(** ** [Math.random().toString(36)]

    The rendering of a double in radix 36 as the engine of Node computes it
    (the digit loop of V8's [DoubleToRadixCString]), for the values
    [0 <= value < 1] that [Math.random] returns.  The fractional digits are
    produced until the precision of the double is reached, so their number
    depends on the value. *)

Module Radix36.

Local Open Scope float_scope.

Definition of_nat (n : nat) : float :=
  PrimFloat.of_uint63 (Uint63.of_Z (Z.of_nat n)).

(** [static_cast<int>(f)] for [0 <= f < 36]. *)
Definition trunc (f : float) : nat :=
  List.length (filter (fun k => of_nat k <=? f) (seq 1 35)).

(** Carry-over into the digits already written (most recent first);
    [true] when the carry reaches the integer part. *)
Fixpoint round_up (written : list nat) : list nat * bool :=
  match written with
  | [] => ([], true)
  | d :: rest =>
    if (d + 1 <? 36)%nat then ((d + 1)%nat :: rest, false) else round_up rest
  end.

Fixpoint fraction_digits (fuel : nat) (fraction delta : float)
         (written : list nat) : list nat * bool :=
  match fuel with
  | O => (written, false)
  | S k =>
    let fraction := fraction * 36 in
    let delta := delta * 36 in
    let digit := trunc fraction in
    let written := digit :: written in
    let fraction := fraction - of_nat digit in
    if ((0.5 <? fraction) || ((fraction =? 0.5) && Nat.odd digit))%bool
       && (1 <? fraction + delta)
    then round_up written
    else if delta <=? fraction
         then fraction_digits k fraction delta written
         else (written, false)
  end.

Definition digit_char (d : nat) : ascii :=
  if (d <? 10)%nat then ascii_of_nat (d + 48) else ascii_of_nat (d + 87).

Definition max (a b : float) : float := if a <? b then b else a.

(** The buffer of the engine holds 1100 fractional characters. *)
Definition toString36 (value : float) : string :=
  let fraction := value in
  let delta := 0.5 * (PrimFloat.next_up value - value) in
  let delta := max (PrimFloat.next_up 0) delta in
  let '(written, carry) :=
    if delta <=? fraction
    then fraction_digits 1100 fraction delta []
    else ([], false) in
  let integer := if carry then "1"%string else "0"%string in
  match written with
  | [] => integer
  | _ => (integer ++ "." ++ string_of_list_ascii (map digit_char (rev written)))%string
  end.

(** A value of [Math.random]: the multiple [m mod 2^53] of [2^-53]. *)
Definition random_value (m : N) : float :=
  Z.ldexp (PrimFloat.of_uint63 (Uint63.of_Z (Z.of_N (m mod 9007199254740992))))
          (-53)%Z.

End Radix36.

(** ** [URLSearchParams.prototype.toString]: form-urlencoded text *)

Module UrlEncode.

Definition hex_digit (n : nat) : ascii :=
  if (n <? 10)%nat then ascii_of_nat (n + 48) else ascii_of_nat (n + 55).

Definition keep (c : ascii) : bool :=
  let n := nat_of_ascii c in
  (((48 <=? n) && (n <=? 57)) || ((65 <=? n) && (n <=? 90))
   || ((97 <=? n) && (n <=? 122))
   || (n =? 42) || (n =? 45) || (n =? 46) || (n =? 95))%nat.

Fixpoint encode (s : string) : string :=
  match s with
  | EmptyString => EmptyString
  | String c t =>
    if keep c then String c (encode t)
    else if Ascii.eqb c " " then String "+" (encode t)
    else let n := nat_of_ascii c in
         String "%" (String (hex_digit (n / 16)) (String (hex_digit (n mod 16)) (encode t)))
  end.

Definition pair (kv : string * string) : string :=
  encode (fst kv) ++ "=" ++ encode (snd kv).

Definition toString (params : list (string * string)) : string :=
  JsString.join "&" (map pair params).

End UrlEncode.

(** ** JSON values, as [response.json()] yields them *)

Inductive Json : Type :=
| JNull
| JBool (b : bool)
| JNum (n : Z)
| JStr (s : string)
| JArr (items : list Json)
| JObj (fields : list (string * Json)).

Module Js.

(** A value read from a property: [None] is [undefined]. *)
Definition Value := option Json.

Definition truthy (v : Value) : bool :=
  match v with
  | None => false
  | Some JNull => false
  | Some (JBool b) => b
  | Some (JNum n) => negb (n =? 0)
  | Some (JStr s) => negb (String.eqb s "")
  | Some (JArr _) => true
  | Some (JObj _) => true
  end.

(** The value a parsed object holds for a key: the last binding wins. *)
Fixpoint lookup (k : string) (fields : list (string * Json)) : Value :=
  match fields with
  | [] => None
  | (k', v) :: rest =>
    match lookup k rest with
    | Some w => Some w
    | None => if String.eqb k k' then Some v else None
    end
  end.

(** [v.k] for a value [v] that is neither [null] nor [undefined] and a
    key that no prototype defines. *)
Definition get (v : Json) (k : string) : Value :=
  match v with
  | JObj fields => lookup k fields
  | _ => None
  end.

(** [String(v)], as a template literal applies it. *)
Fixpoint toString (v : Json) : string :=
  match v with
  | JNull => "null"
  | JBool true => "true"
  | JBool false => "false"
  | JNum n => JsString.of_Z n
  | JStr s => s
  | JArr items =>
    JsString.join ","
      (map (fun i => match i with JNull => "" | _ => toString i end) items)
  | JObj _ => "[object Object]"
  end.

Definition show (v : Value) : string :=
  match v with
  | None => "undefined"
  | Some j => toString j
  end.

End Js.

(** ** Errors, computations, the world *)

Record JsError : Type := MkError { message : string }.

Inductive result (A : Type) : Type :=
| Ok (a : A)
| Throw (e : JsError).
Arguments Ok {A} a.
Arguments Throw {A} e.

(** The persisted credential record ([TokenData]). *)
Record TokenData : Type := {
  accessToken : string;
  refreshToken : string;
  expiresAt : Z;
  scopes : list string;
  userId : string;
  clientId : string
}.

(** What the file at the token path holds.  The outcome of [JSON.parse] on
    its text is part of the description of the file: text that does not
    parse comes with the error the parser throws, text that parses is
    given by the record it parses to. *)
Inductive FileText : Type :=
| NotJson (text : string) (syntaxError : JsError)
| JsonRecord (t : TokenData).

Inductive FileState : Type :=
| NoFile
| Unreadable (ioError : JsError)
| Readable (content : FileText).

(** The query parameters of a request to the local listener, as
    [url.searchParams.get] returns them ([None] is [null]). *)
Record Request : Type := {
  q_access_token : option string;
  q_refresh_token : option string;
  q_user_id : option string;
  q_state : option string;
  q_error : option string
}.

(** What the outside does during one [authorize()] run: whether the browser
    could be opened, the first request that reaches the listener with the
    time it arrives after the listener started (ms), and by how much the
    timers fire late (ms; a timer never fires early). *)
Record Login : Type := {
  browserOpens : bool;
  callback : option (N * Request);
  timerLag : N
}.

(** A response of [fetch]. *)
Record Response : Type := {
  ok : bool;
  status : N;
  statusText : string;
  bodyText : string;
  bodyJson : result Json;
  bodyBytes : N
}.

Inductive FetchOutcome : Type :=
| FetchFails (e : JsError)
| FetchResponds (r : Response).

Record PathStat : Type := {
  isFile : bool;
  isDirectory : bool;
  size : Z
}.

Inductive Level : Type := DEBUG | INFO | WARN | ERROR.

Inductive Page : Type :=
| LoginCancelledPage (reason : string)
| LoginSucceededPage
| PlainText (text : string).

Inductive Event : Type :=
| EvLog (level : Level) (args : list string)
| EvConsoleError (line : string)
| EvOpenBrowser (url : string)
| EvAuthorize
| EvListen (port : N)
| EvRespond (statusCode : N) (page : Page)
| EvClose
| EvWriteToken (t : TokenData)
| EvUnlinkToken
| EvFetch (url : string) (bearer : option string) (functionName : option string) (data : Json)
| EvZip (dir : string) (target : string)
| EvUpload (localPath : string) (cloudPath : string).

Record DemoxClientObj : Type := { cloudFunctionUrl : string }.

Record World : Type := {
  tokenFile : FileState;
  writeFault : option JsError;
  unlinkFault : option JsError;
  now : Z;
  randoms : list N;
  logins : list Login;
  listening : bool;
  currentToken : option TokenData;
  demoxClient : option DemoxClientObj;
  replies : list FetchOutcome;
  paths : list (string * PathStat);
  zips : list (result Z);
  uploads : list (result string);
  events : list Event
}.

Record Config : Type := {
  cfg_clientId : string;
  cfg_authUrl : string;
  cfg_cloudFunctionUrl : string;
  cfg_serverEnv : string;
  cfg_tokenPath : string;
  cfg_tmpdir : string
}.

Definition M (A : Type) : Type := World -> result A * World.

Definition ret {A} (a : A) : M A := fun w => (Ok a, w).

Definition throw {A} (e : JsError) : M A := fun w => (Throw e, w).

Definition bind {A B} (m : M A) (k : A -> M B) : M B :=
  fun w =>
    match m w with
    | (Ok a, w') => k a w'
    | (Throw e, w') => (Throw e, w')
    end.

(** [try { m } catch (e) { h e }] *)
Definition try_catch {A} (m : M A) (h : JsError -> M A) : M A :=
  fun w =>
    match m w with
    | (Ok a, w') => (Ok a, w')
    | (Throw e, w') => h e w'
    end.

Declare Scope js_scope.
Delimit Scope js_scope with js.
Notation "x <- m ;; k" := (bind m (fun x => k))
  (at level 61, m at next level, right associativity) : js_scope.
Notation "m ;; k" := (bind m (fun _ => k))
  (at level 61, right associativity) : js_scope.
Local Open Scope js_scope.

Definition NewError (msg : string) : JsError := MkError msg.

Definition set_tokenFile (v : FileState) (w : World) : World :=
  Build_World v (writeFault w) (unlinkFault w) (now w) (randoms w) (logins w) (listening w) (currentToken w) (demoxClient w) (replies w) (paths w) (zips w) (uploads w) (events w).

Definition set_now (v : Z) (w : World) : World :=
  Build_World (tokenFile w) (writeFault w) (unlinkFault w) v (randoms w) (logins w) (listening w) (currentToken w) (demoxClient w) (replies w) (paths w) (zips w) (uploads w) (events w).

Definition set_randoms (v : list N) (w : World) : World :=
  Build_World (tokenFile w) (writeFault w) (unlinkFault w) (now w) v (logins w) (listening w) (currentToken w) (demoxClient w) (replies w) (paths w) (zips w) (uploads w) (events w).

Definition set_logins (v : list Login) (w : World) : World :=
  Build_World (tokenFile w) (writeFault w) (unlinkFault w) (now w) (randoms w) v (listening w) (currentToken w) (demoxClient w) (replies w) (paths w) (zips w) (uploads w) (events w).

Definition set_listening (v : bool) (w : World) : World :=
  Build_World (tokenFile w) (writeFault w) (unlinkFault w) (now w) (randoms w) (logins w) v (currentToken w) (demoxClient w) (replies w) (paths w) (zips w) (uploads w) (events w).

Definition set_currentToken (v : option TokenData) (w : World) : World :=
  Build_World (tokenFile w) (writeFault w) (unlinkFault w) (now w) (randoms w) (logins w) (listening w) v (demoxClient w) (replies w) (paths w) (zips w) (uploads w) (events w).

Definition set_demoxClient (v : option DemoxClientObj) (w : World) : World :=
  Build_World (tokenFile w) (writeFault w) (unlinkFault w) (now w) (randoms w) (logins w) (listening w) (currentToken w) v (replies w) (paths w) (zips w) (uploads w) (events w).

Definition set_replies (v : list FetchOutcome) (w : World) : World :=
  Build_World (tokenFile w) (writeFault w) (unlinkFault w) (now w) (randoms w) (logins w) (listening w) (currentToken w) (demoxClient w) v (paths w) (zips w) (uploads w) (events w).

Definition set_paths (v : list (string * PathStat)) (w : World) : World :=
  Build_World (tokenFile w) (writeFault w) (unlinkFault w) (now w) (randoms w) (logins w) (listening w) (currentToken w) (demoxClient w) (replies w) v (zips w) (uploads w) (events w).

Definition set_zips (v : list (result Z)) (w : World) : World :=
  Build_World (tokenFile w) (writeFault w) (unlinkFault w) (now w) (randoms w) (logins w) (listening w) (currentToken w) (demoxClient w) (replies w) (paths w) v (uploads w) (events w).

Definition set_uploads (v : list (result string)) (w : World) : World :=
  Build_World (tokenFile w) (writeFault w) (unlinkFault w) (now w) (randoms w) (logins w) (listening w) (currentToken w) (demoxClient w) (replies w) (paths w) (zips w) v (events w).

Definition set_events (v : list Event) (w : World) : World :=
  Build_World (tokenFile w) (writeFault w) (unlinkFault w) (now w) (randoms w) (logins w) (listening w) (currentToken w) (demoxClient w) (replies w) (paths w) (zips w) (uploads w) v.

Definition emit (e : Event) : M unit :=
  fun w => (Ok tt, set_events (events w ++ [e]) w).

Definition log (l : Level) (args : list string) : M unit := emit (EvLog l args).

Definition Date_now : M Z := fun w => (Ok (now w), w).

Definition update (f : World -> World) : M unit := fun w => (Ok tt, f w).

(** Time passes only while the program waits. *)
Definition sleep (ms : Z) : M unit := fun w => (Ok tt, set_now (now w + ms) w).

Definition nl : string := String (ascii_of_nat 10) "".

(** JavaScript truthiness of a [string | null], and [a || b] on it. *)
Definition truthy_str (o : option string) : bool :=
  match o with
  | Some s => negb (String.eqb s "")
  | None => false
  end.

Definition str_or (o : option string) (d : string) : string :=
  match o with
  | Some s => if String.eqb s "" then d else s
  | None => d
  end.

(** ** auth/OAuthManager.ts *)

Module OAuthManager.
Section Methods.

Variable config : Config.

Definition fullScopes : list string :=
  ["website:deploy"; "website:list"; "website:delete"; "website:update"].

(** *** The credential file *)

Definition existsSync_tokenPath : M bool :=
  fun w => (Ok (match tokenFile w with NoFile => false | _ => true end), w).

Definition readFile_tokenPath : M FileText :=
  fun w =>
    match tokenFile w with
    | Readable c => (Ok c, w)
    | Unreadable e => (Throw e, w)
    | NoFile =>
      (Throw (NewError ("ENOENT: no such file or directory, open '"
                        ++ cfg_tokenPath config ++ "'")), w)
    end.

Definition JSON_parse (content : FileText) : M TokenData :=
  match content with
  | NotJson _ e => throw e
  | JsonRecord t => ret t
  end.

(** [existsSync(dir)], [fs.mkdir] and [fs.writeFile]: the file now holds
    the serialized record, unless the file system refuses. *)
Definition writeFile_tokenPath (tokenData : TokenData) : M unit :=
  fun w =>
    match writeFault w with
    | Some e => (Throw e, w)
    | None =>
      emit (EvWriteToken tokenData) (set_tokenFile (Readable (JsonRecord tokenData)) w)
    end.

Definition unlink_tokenPath : M unit :=
  fun w =>
    match unlinkFault w with
    | Some e => (Throw e, w)
    | None => emit EvUnlinkToken (set_tokenFile NoFile w)
    end.

Definition loadToken : M (option TokenData) :=
  try_catch
    (present <- existsSync_tokenPath ;;
     if negb present then ret None
     else
       content <- readFile_tokenPath ;;
       tokenData <- JSON_parse content ;;
       log DEBUG ["成功加载本地 Token"] ;;
       ret (Some tokenData))
    (fun error =>
       log ERROR ["加载本地 Token 失败:"; message error] ;;
       ret None).

Definition saveToken (tokenData : TokenData) : M unit :=
  try_catch
    (writeFile_tokenPath tokenData ;;
     update (set_currentToken (Some tokenData)) ;;
     log DEBUG ["Token 已保存到本地"])
    (fun error =>
       log ERROR ["保存 Token 失败:"; message error] ;;
       throw error).

Definition isTokenExpired (tokenData : TokenData) : M bool :=
  now <- Date_now ;;
  let expiresAt := expiresAt tokenData in
  ret (now >=? expiresAt - 5 * 60 * 1000).

Definition revokeToken : M unit :=
  try_catch
    (present <- existsSync_tokenPath ;;
     (if present
      then unlink_tokenPath ;; log INFO ["已删除本地 Token"]
      else ret tt) ;;
     update (set_currentToken None))
    (fun error =>
       log ERROR ["删除 Token 失败:"; message error] ;;
       throw error).

Definition getCurrentToken : M (option TokenData) :=
  fun w => (Ok (currentToken w), w).

(** *** The anti-forgery state *)

Definition Math_random : M float :=
  fun w =>
    match randoms w with
    | m :: rest => (Ok (Radix36.random_value m), set_randoms rest w)
    | [] => (Ok (Radix36.random_value 0), w)
    end.

Definition generateRandomState : M string :=
  a <- Math_random ;;
  b <- Math_random ;;
  ret (JsString.substring 2 15 (Radix36.toString36 a)
       ++ JsString.substring 2 15 (Radix36.toString36 b)).

(** *** The local listener *)

Definition server_listen (port : N) : M unit :=
  update (set_listening true) ;; emit (EvListen port) ;;
  log DEBUG ["本地服务器已启动，监听端口 39897"].

Definition server_close : M unit :=
  update (set_listening false) ;; emit EvClose.

Definition respond (statusCode : N) (page : Page) : M unit :=
  emit (EvRespond statusCode page).

(** The request handler of [startLocalServer].  Its value is the way it
    settles the promise: [Ok] for [resolve], [Throw] for [reject]. *)
Definition onRequest (expectedState : string) (req : Request)
  : M (result TokenData) :=
  let accessToken := q_access_token req in
  let refreshToken := q_refresh_token req in
  let userId := q_user_id req in
  let state := q_state req in
  let error := q_error req in
  if truthy_str error then
    respond 200 (LoginCancelledPage (str_or error "")) ;;
    server_close ;;
    ret (Throw (NewError ("OAuth 授权失败: " ++ str_or error "")))
  else if truthy_str accessToken && truthy_str state then
    if negb (String.eqb (str_or state "") expectedState) then
      respond 400 (PlainText "State 不匹配") ;;
      server_close ;;
      ret (Throw (NewError "OAuth state 不匹配，可能存在安全风险"))
    else
      respond 200 LoginSucceededPage ;;
      server_close ;;
      now <- Date_now ;;
      ret (Ok {| accessToken := str_or accessToken "";
                 refreshToken := str_or refreshToken (str_or accessToken "");
                 expiresAt := now + 30 * 24 * 60 * 60 * 1000;
                 scopes := fullScopes;
                 userId := str_or userId "";
                 clientId := cfg_clientId config |})
  else
    respond 400 (PlainText "缺少必要的参数") ;;
    server_close ;;
    ret (Throw (NewError "缺少必要的 OAuth 参数")).

(** The callback of the [setTimeout] inside [startLocalServer]. *)
Definition onServerTimeout : M (result TokenData) :=
  server_close ;;
  ret (Throw (NewError "登录超时（5 分钟）")).

(** The callback of the [setTimeout] inside [createTimeout]. *)
Definition onCreateTimeout : M (result TokenData) :=
  ret (Throw (NewError "操作超时")).

(** A promise settles once: later calls of [resolve] or [reject] do
    nothing. *)
Definition settle {A} (r : result A) (p : option (result A)) : option (result A) :=
  match p with
  | Some _ => p
  | None => Some r
  end.

Definition await {A} (p : option (result A)) : M A :=
  match p with
  | Some (Ok a) => ret a
  | Some (Throw e) => throw e
  | None => throw (NewError "unsettled")
  end.

(** [await Promise.race([this.startLocalServer(state),
    this.createTimeout(300000)])].

    [startLocalServer] creates the server, starts listening and arms its
    own 300000 ms timer; [createTimeout] then arms a second timer of the
    same delay.  A request that arrives before the timers are due runs
    the handler; otherwise the two timers fire, in the order they were
    armed.  The race takes the first settlement.  Timers are never
    cleared: after a request has settled the race they still fire, into
    a settled promise and a closed server. *)
Definition raceServerTimeout (env : Login) (expectedState : string) : M TokenData :=
  server_listen 39897 ;;
  let timers :=
    sleep (300000 + Z.of_N (timerLag env)) ;;
    r1 <- onServerTimeout ;;
    r2 <- onCreateTimeout ;;
    ret (settle r2 (settle r1 None)) in
  first <-
    match callback env with
    | Some (dt, req) =>
      if (dt <? 300000)%N
      then sleep (Z.of_N dt) ;;
           r <- onRequest expectedState req ;;
           ret (settle r None)
      else timers
    | None => timers
    end ;;
  await first.

Definition next_login : M Login :=
  fun w =>
    match logins w with
    | env :: rest => (Ok env, set_logins rest w)
    | [] => (Ok {| browserOpens := false; callback := None; timerLag := 0 |}, w)
    end.

Definition console_error (line : string) : M unit := emit (EvConsoleError line).

(** The [try] statement of [authorize]: wait for the callback, save the
    record, return its access token; a failure is logged and thrown
    again. *)
Definition authorize_try (env : Login) (state : string) : M string :=
  try_catch
    (tokenData <- raceServerTimeout env state ;;
     saveToken tokenData ;;
     log INFO ["✅ 登录成功！"] ;;
     console_error ("Token 已保存到: " ++ cfg_tokenPath config ++ nl) ;;
     ret (accessToken tokenData))
    (fun error =>
       log ERROR ["登录失败:"; message error] ;;
       throw error).

Definition authorize : M string :=
  emit EvAuthorize ;;
  log INFO ["正在启动登录流程..."] ;;
  state <- generateRandomState ;;
  let params :=
    [("client_id", cfg_clientId config);
     ("redirect_uri", "http://localhost:39897/callback");
     ("response_type", "code");
     ("state", state);
     ("scope", "website:deploy website:list website:delete website:update")] in
  let authUrl := cfg_authUrl config ++ "?" ++ UrlEncode.toString params in
  console_error (nl ++ JsString.repeat "=" 70) ;;
  console_error "🔐 请在浏览器中访问以下 URL 完成登录：" ;;
  console_error (JsString.repeat "=" 70) ;;
  console_error (nl ++ authUrl ++ nl) ;;
  console_error (JsString.repeat "=" 70) ;;
  console_error "💡 提示：复制上面的 URL 到浏览器中打开" ;;
  console_error ("⏳ 等待您在浏览器中完成登录..." ++ nl) ;;
  env <- next_login ;;
  (if browserOpens env
   then emit (EvOpenBrowser authUrl)
   else log DEBUG ["无法自动打开浏览器，请手动访问上述 URL"]) ;;
  authorize_try env state.

Definition ensureAuthenticated : M string :=
  tokenData <- loadToken ;;
  let login :=
    log INFO ["Token 不存在或已过期，需要登录"] ;;
    authorize in
  match tokenData with
  | Some tokenData =>
    expired <- isTokenExpired tokenData ;;
    if negb expired then
      update (set_currentToken (Some tokenData)) ;;
      log DEBUG ["使用本地缓存的 Token"] ;;
      now <- Date_now ;;
      let daysLeft := (expiresAt tokenData - now) / (1000 * 60 * 60 * 24) in
      (if daysLeft <=? 3
       then log WARN ["Token 将在 " ++ JsString.of_Z daysLeft ++ " 天后过期，建议重新登录"]
       else ret tt) ;;
      ret (accessToken tokenData)
    else login
  | None => login
  end.

End Methods.
End OAuthManager.

(** ** api/DemoxClient.ts *)

Record DeployParams : Type := {
  zipFile : string;
  websiteId : option string;
  fileName : string
}.

Module DemoxClient.
Section Methods.

Variable config : Config.

Definition construct (accessToken : string) : DemoxClientObj :=
  {| cloudFunctionUrl := cfg_cloudFunctionUrl config |}.

(** [fetch]: the request is observed, the next peer reply is consumed. *)
Definition fetch (url : string) (bearer functionName : option string)
           (data : Json) : M Response :=
  emit (EvFetch url bearer functionName data) ;;
  fun w =>
    match replies w with
    | FetchResponds r :: rest => (Ok r, set_replies rest w)
    | FetchFails e :: rest => (Throw e, set_replies rest w)
    | [] => (Throw (NewError "fetch failed"), w)
    end.

Definition response_json (r : Response) : M Json :=
  match bodyJson r with
  | Ok j => ret j
  | Throw e => throw e
  end.

(** [v.k]: reading a property of [null] throws a [TypeError]. *)
Definition member (v : Json) (k : string) : M Js.Value :=
  match v with
  | JNull =>
    throw (NewError ("Cannot read properties of null (reading '" ++ k ++ "')"))
  | _ => ret (Js.get v k)
  end.

Definition callFunction (this : DemoxClientObj) (name : string)
           (data : Json) (accessToken : string) : M Json :=
  try_catch
    (log DEBUG ["调用云函数: " ++ name] ;;
     log DEBUG ["API URL: " ++ cloudFunctionUrl this] ;;
     response <- fetch (cloudFunctionUrl this) (Some accessToken) (Some name) data ;;
     (if negb (ok response)
      then throw (NewError ("HTTP " ++ JsString.of_N (status response) ++ ": "
                            ++ bodyText response))
      else ret tt) ;;
     responseData <- response_json response ;;
     if Js.truthy (Some responseData) && Js.truthy (Js.get responseData "error")
     then
       let error := Js.get responseData "error" in
       let field k := match error with Some e => Js.get e k | None => None end in
       throw (NewError ("[" ++ Js.show (field "code") ++ "] "
                        ++ Js.show (field "message")
                        ++ (if Js.truthy (field "suggestion")
                            then nl ++ "建议：" ++ Js.show (field "suggestion")
                            else "")))
     else ret responseData)
    (fun error =>
       log ERROR ["云函数调用失败 (" ++ name ++ "):"; message error] ;;
       throw error).

(** *** Deploy: resolving the input *)

Definition isBase64 (str : string) : bool :=
  match Base64.atob str with
  | Some bytes => String.eqb (Base64.btoa bytes) str
  | None =>
    negb (JsString.includes str "/") && negb (JsString.includes str "\")
    && (100 <? JsString.length str)%nat
  end.

Fixpoint lookup_path (p : string) (l : list (string * PathStat)) : option PathStat :=
  match l with
  | [] => None
  | (q, st) :: rest => if String.eqb p q then Some st else lookup_path p rest
  end.

Definition getPathStat (filePath : string) : M PathStat :=
  fun w =>
    match lookup_path filePath (paths w) with
    | None => (Throw (NewError ("路径不存在: " ++ filePath)), w)
    | Some st => (Ok st, w)
    end.

Definition getFileSize (filePath : string) : M Z :=
  stat <- getPathStat filePath ;;
  ret (size stat).

Definition writeTemp (path : string) (bytes : Z) : M unit :=
  fun w =>
    (Ok tt,
     set_paths ((path, {| isFile := true; isDirectory := false; size := bytes |})
                :: paths w) w).

Definition zipDirectoryToFile (dirPath : string) : M string :=
  try_catch
    (archive <- (fun w =>
                   match zips w with
                   | r :: rest => (r, set_zips rest w)
                   | [] => (Throw (NewError "ENOENT"), w)
                   end) ;;
     now <- Date_now ;;
     let tempFile := cfg_tmpdir config ++ "/demox-deploy-" ++ JsString.of_Z now ++ ".zip" in
     emit (EvZip dirPath tempFile) ;;
     writeTemp tempFile archive ;;
     log DEBUG ["目录打包成功: " ++ dirPath ++ " -> " ++ tempFile] ;;
     ret tempFile)
    (fun error => throw (NewError ("打包目录失败: " ++ message error))).

Definition downloadZipFileToBuffer (url : string) : M Z :=
  try_catch
    (response <- fetch url None None JNull ;;
     (if negb (ok response)
      then throw (NewError ("下载失败: " ++ statusText response))
      else ret tt) ;;
     let buffer := Z.of_N (bodyBytes response) in
     log DEBUG ["ZIP 文件下载成功，大小: " ++ JsString.of_Z buffer ++ " 字节"] ;;
     ret buffer)
    (fun error =>
       log ERROR ["下载 ZIP 文件失败:"; message error] ;;
       throw error).

Definition saveBufferToTempFile (buffer : Z) : M string :=
  now <- Date_now ;;
  let tempFile := cfg_tmpdir config ++ "/demox-download-" ++ JsString.of_Z now ++ ".zip" in
  writeTemp tempFile buffer ;;
  log DEBUG ["Buffer 已保存到临时文件: " ++ tempFile] ;;
  ret tempFile.

Fixpoint basename_from (acc s : string) : string :=
  match s with
  | EmptyString => acc
  | String c t => if Ascii.eqb c "/" then basename_from t t else basename_from acc t
  end.

Definition basename (p : string) : string := basename_from p p.

Definition uploadToCloudBaseStorage (filePath accessToken : string) : M string :=
  now <- Date_now ;;
  let cloudPath := "mcp-uploads/" ++ JsString.of_Z now ++ "-" ++ basename filePath in
  log INFO ["正在上传文件到 CloudBase Storage: " ++ cloudPath] ;;
  emit (EvUpload filePath cloudPath) ;;
  outcome <- (fun w =>
                match uploads w with
                | r :: rest => (Ok r, set_uploads rest w)
                | [] => (Ok (Throw (NewError "network error")), w)
                end) ;;
  match outcome with
  | Ok fileID =>
    log INFO ["文件上传成功: " ++ fileID] ;;
    ret fileID
  | Throw error =>
    log ERROR ["上传文件到 CloudBase Storage 失败:"; message error] ;;
    throw (NewError ("上传文件失败: " ++ message error))
  end.

(** [(fileSize / 1024 / 1024).toFixed(2)] for a size in bytes: the
    quotient is exact, [toFixed] rounds it to the nearest hundredth, the
    larger one on a tie. *)
Definition megabytes (fileSize : Z) : string :=
  let h := (fileSize * 200 + 1048576) / 2097152 in
  let cents := h mod 100 in
  JsString.of_Z (h / 100) ++ "."
    ++ (if cents <? 10 then "0" else "") ++ JsString.of_Z cents.

Definition deployWebsite (this : DemoxClientObj) (params : DeployParams)
           (accessToken : string) : M Json :=
  log INFO ["正在部署网站: " ++ fileName params] ;;
  localFilePath <-
    (if JsString.startsWith (zipFile params) "http://"
        || JsString.startsWith (zipFile params) "https://"
     then
       (if negb (JsString.endsWith (JsString.toLowerCase (zipFile params)) ".zip")
        then throw (NewError "只支持 ZIP 文件，URL 必须以 .zip 结尾")
        else ret tt) ;;
       log DEBUG ["检测到 ZIP URL，正在下载..."] ;;
       buffer <- downloadZipFileToBuffer (zipFile params) ;;
       saveBufferToTempFile buffer
     else if isBase64 (zipFile params)
             && negb (JsString.startsWith (zipFile params) "/")
             && negb (JsString.startsWith (zipFile params) ".")
     then throw (NewError "不支持直接传入 Base64 内容，请提供 ZIP 文件路径或 URL")
     else
       log DEBUG ["检测到本地路径: " ++ zipFile params] ;;
       stat <- getPathStat (zipFile params) ;;
       if isDirectory stat then
         log DEBUG ["检测到目录: " ++ zipFile params ++ "，正在打包..."] ;;
         zipDirectoryToFile (zipFile params)
       else if JsString.endsWith (JsString.toLowerCase (zipFile params)) ".zip" then
         ret (zipFile params)
       else throw (NewError "不支持的文件类型，仅支持 .zip 文件或目录")) ;;
  (if String.eqb localFilePath ""
   then throw (NewError "无法处理输入文件")
   else ret tt) ;;
  fileSize <- getFileSize localFilePath ;;
  log INFO ["文件大小: " ++ megabytes fileSize ++ "MB"] ;;
  let maxFileSize := 500 * 1024 * 1024 in
  (if fileSize >? maxFileSize
   then throw (NewError ("文件过大 (" ++ megabytes fileSize ++ "MB)，当前最大支持 500MB"))
   else ret tt) ;;
  log INFO ["正在上传文件到 CloudBase Storage..."] ;;
  fileId <- uploadToCloudBaseStorage localFilePath accessToken ;;
  result <- callFunction this "deploy-website"
              (JObj ([("action", JStr "upload_and_deploy"); ("fileId", JStr fileId)]
                     ++ match websiteId params with
                        | Some id => [("websiteId", JStr id)]
                        | None => []
                        end
                     ++ [("fileName", JStr (fileName params))]))
              accessToken ;;
  url <- member result "url" ;;
  log INFO ["网站部署成功: " ++ Js.show url] ;;
  ret result.

(** *** List, get, delete *)

(** [a || b] on values. *)
Definition or_else (v : Js.Value) (fallback : Json) : Json :=
  match v with
  | Some j => if Js.truthy v then j else fallback
  | None => fallback
  end.

Definition listWebsites (this : DemoxClientObj) (accessToken : string) : M Json :=
  log DEBUG ["获取网站列表"] ;;
  result <- callFunction this "deploy-website" (JObj [("action", JStr "list")])
              accessToken ;;
  files <- member result "files" ;;
  ret (or_else files (JArr [])).

Definition deleteWebsite (this : DemoxClientObj) (websiteId accessToken : string)
  : M unit :=
  log INFO ["正在删除网站: " ++ websiteId] ;;
  callFunction this "deploy-website"
    (JObj [("action", JStr "delete"); ("websiteId", JStr websiteId)]) accessToken ;;
  log INFO ["网站已删除"].

Definition getWebsite (this : DemoxClientObj) (websiteId accessToken : string)
  : M Json :=
  log DEBUG ["获取网站详情: " ++ websiteId] ;;
  result <- callFunction this "deploy-website"
              (JObj [("action", JStr "get"); ("websiteId", JStr websiteId)])
              accessToken ;;
  website <- member result "website" ;;
  ret (or_else website JNull).

Definition verifyToken (this : DemoxClientObj) (accessToken : string) : M bool :=
  try_catch
    (callFunction this "oauth-token-manager"
       (JObj [("action", JStr "verify_token"); ("accessToken", JStr accessToken)])
       accessToken ;;
     ret true)
    (fun error =>
       log ERROR ["Token 验证失败:"; message error] ;;
       ret false).

End Methods.
End DemoxClient.

(** ** cli.ts: the tool-call handler of the MCP server *)

(** The arguments of a tool call, by the input schemas of the tools. *)
Record ToolArgs : Type := {
  arg_zipFile : option string;
  arg_websiteId : option string;
  arg_fileName : option string
}.

(** [{ content: [{ type: "text", text }], isError }]; a result without
    [isError] has it [false]. *)
Record ToolResult : Type := {
  text : string;
  isError : bool
}.

Module Server.
Section Handlers.

Variable config : Config.

(** [new Date(v).toLocaleString("zh-CN")], a function of the host. *)
Variable toLocaleString : Js.Value -> string.

Definition theClient : M DemoxClientObj :=
  fun w =>
    match demoxClient w with
    | Some c => (Ok c, w)
    | None => (Throw (NewError "Cannot read properties of null"), w)
    end.

Definition textResult (t : string) : ToolResult := {| text := t; isError := false |}.

Definition handleDeploy (args : ToolArgs) (accessToken : string) : M ToolResult :=
  (if negb (truthy_str (arg_zipFile args))
   then throw (NewError "缺少必需参数: zipFile")
   else ret tt) ;;
  let zipFile := str_or (arg_zipFile args) "" in
  let fileName :=
    if truthy_str (arg_fileName args) then str_or (arg_fileName args) ""
    else if JsString.includes zipFile "/" || JsString.includes zipFile "\"
         then let lastPart := JsString.last_segment zipFile in
              let stem := JsString.replace_first_by_empty ".zip" lastPart in
              if String.eqb stem "" then "unnamed" else stem
         else "unnamed" in
  log INFO ["开始部署网站: " ++ fileName] ;;
  try_catch
    (client <- theClient ;;
     result <- DemoxClient.deployWebsite config client
                 {| zipFile := zipFile; websiteId := arg_websiteId args;
                    fileName := fileName |}
                 accessToken ;;
     id <- DemoxClient.member result "websiteId" ;;
     url <- DemoxClient.member result "url" ;;
     path <- DemoxClient.member result "path" ;;
     ret (textResult
            ("✅ 网站部署成功！" ++ nl ++ nl
             ++ "**网站名称**: " ++ fileName ++ nl
             ++ "**网站 ID**: " ++ Js.show id ++ nl
             ++ "**访问地址**: " ++ Js.show url ++ nl
             ++ "**部署路径**: " ++ Js.show path ++ nl ++ nl
             ++ "您现在可以访问上述地址查看您的网站了。")))
    (fun error =>
       log ERROR ["部署失败:"; message error] ;;
       throw error).

(** One entry of the list, for the site at position [index]. *)
Definition listEntry (index : nat) (site : Json) : M string :=
  createdAt <- DemoxClient.member site "createdAt" ;;
  let date := toLocaleString createdAt in
  ret (JsString.of_N (N.of_nat (index + 1)) ++ ". **" ++ Js.show (Js.get site "fileName")
       ++ "**" ++ nl
       ++ "   - ID: `" ++ Js.show (Js.get site "websiteId") ++ "`" ++ nl
       ++ "   - URL: " ++ Js.show (Js.get site "url") ++ nl
       ++ "   - 创建时间: " ++ date ++ nl).

Fixpoint listEntries (index : nat) (sites : list Json) : M (list string) :=
  match sites with
  | [] => ret []
  | site :: rest =>
    e <- listEntry index site ;;
    es <- listEntries (S index) rest ;;
    ret (e :: es)
  end.

Definition noWebsites : ToolResult :=
  textResult ("您还没有部署任何网站。" ++ nl ++ nl
              ++ "使用 deploy_website 工具来创建您的第一个网站吧！").

Definition handleList (accessToken : string) : M ToolResult :=
  log INFO ["获取网站列表"] ;;
  client <- theClient ;;
  websites <- DemoxClient.listWebsites client accessToken ;;
  match websites with
  | JArr [] => ret noWebsites
  | JArr sites =>
    entries <- listEntries 0 sites ;;
    let listText := JsString.join nl entries in
    ret (textResult
           ("📋 您的网站列表（共 " ++ JsString.of_N (N.of_nat (List.length sites))
            ++ " 个）" ++ nl ++ nl ++ listText))
  | JObj fields =>
    match Js.lookup "length" fields with
    | Some (JNum 0) => ret noWebsites
    | _ => throw (NewError "websites.map is not a function")
    end
  | _ => throw (NewError "websites.map is not a function")
  end.

Definition handleGet (args : ToolArgs) (accessToken : string) : M ToolResult :=
  (if negb (truthy_str (arg_websiteId args))
   then throw (NewError "缺少必需参数: websiteId")
   else ret tt) ;;
  let websiteId := str_or (arg_websiteId args) "" in
  log INFO ["获取网站详情: " ++ websiteId] ;;
  client <- theClient ;;
  website <- DemoxClient.getWebsite client websiteId accessToken ;;
  if negb (Js.truthy (Some website))
  then ret (textResult ("未找到网站: " ++ websiteId))
  else
    let createdDate := toLocaleString (Js.get website "createdAt") in
    let updatedDate := toLocaleString (Js.get website "updatedAt") in
    ret (textResult
           ("**网站详情**" ++ nl ++ nl
            ++ "**名称**: " ++ Js.show (Js.get website "fileName") ++ nl
            ++ "**ID**: `" ++ Js.show (Js.get website "websiteId") ++ "`" ++ nl
            ++ "**URL**: " ++ Js.show (Js.get website "url") ++ nl
            ++ "**路径**: " ++ Js.show (Js.get website "path") ++ nl
            ++ "**创建时间**: " ++ createdDate ++ nl
            ++ "**更新时间**: " ++ updatedDate)).

Definition handleDelete (args : ToolArgs) (accessToken : string) : M ToolResult :=
  (if negb (truthy_str (arg_websiteId args))
   then throw (NewError "缺少必需参数: websiteId")
   else ret tt) ;;
  let websiteId := str_or (arg_websiteId args) "" in
  log INFO ["删除网站: " ++ websiteId] ;;
  client <- theClient ;;
  DemoxClient.deleteWebsite client websiteId accessToken ;;
  ret (textResult
         ("✅ 网站已删除" ++ nl ++ nl
          ++ "**网站 ID**: " ++ websiteId ++ nl ++ nl
          ++ "⚠️ 注意：此操作不可撤销，网站的所有文件已被永久删除。")).

(** The [switch (name)] of the handler: the operation of a tool call. *)
Definition operation (name : string) (args : ToolArgs) (accessToken : string)
  : M ToolResult :=
  if String.eqb name "deploy_website" then handleDeploy args accessToken
  else if String.eqb name "list_websites" then handleList accessToken
  else if String.eqb name "get_website" then handleGet args accessToken
  else if String.eqb name "delete_website" then handleDelete args accessToken
  else throw (NewError ("未知工具: " ++ name)).

Definition isAuthError (error : JsError) : bool :=
  JsString.includes (message error) "Token"
  || JsString.includes (message error) "认证"
  || JsString.includes (message error) "登录"
  || JsString.includes (message error) "UNAUTHORIZED"
  || JsString.includes (message error) "401".

(** How the handler hands an error to its caller. *)
Definition errorResult (error : JsError) : ToolResult :=
  {| text := "❌ 错误: " ++ message error; isError := true |}.

Definition autoLoginFailed (loginError : JsError) : ToolResult :=
  {| text := "❌ **自动登录失败**" ++ nl ++ nl
             ++ "错误信息: " ++ message loginError ++ nl ++ nl
             ++ "请尝试手动运行以下命令完成登录：" ++ nl ++ nl
             ++ "```bash" ++ nl ++ "demox-mcp login" ++ nl ++ "```" ++ nl ++ nl
             ++ "登录完成后，请重新调用此工具。";
     isError := true |}.

(** [if (!this.demoxClient) this.demoxClient = new DemoxClient(accessToken)] *)
Definition initClient (accessToken : string) : M unit :=
  fun w =>
    match demoxClient w with
    | None =>
      (Ok tt, set_demoxClient (Some (DemoxClient.construct config accessToken)) w)
    | Some _ => (Ok tt, w)
    end.

(** The handler registered for [CallToolRequestSchema]. *)
Definition callTool (name : string) (args : ToolArgs) : M ToolResult :=
  try_catch
    (accessToken <- OAuthManager.ensureAuthenticated config ;;
     initClient accessToken ;;
     operation name args accessToken)
    (fun error =>
       log ERROR ["工具调用失败 (" ++ name ++ "):"; message error] ;;
       if isAuthError error then
         log INFO ["检测到认证错误，自动触发登录流程..."] ;;
         try_catch
           (newAccessToken <- OAuthManager.authorize config ;;
            update (set_demoxClient (Some (DemoxClient.construct config newAccessToken))) ;;
            log INFO ["登录成功，正在重试工具调用..."] ;;
            operation name args newAccessToken)
           (fun loginError =>
              log ERROR ["自动登录失败:"; message loginError] ;;
              ret (autoLoginFailed loginError))
       else ret (errorResult error)).

End Handlers.
End Server.

(** ** Observations on a run *)

(** The world an action leaves behind. *)
Definition after {A} (m : M A) (w : World) : World := snd (m w).

Definition isAuthorizeEvent (e : Event) : bool :=
  match e with
  | EvAuthorize => true
  | _ => false
  end.

(** How many times [authorize()] has been entered. *)
Definition authorizeCalls (w : World) : nat :=
  List.length (filter isAuthorizeEvent (events w)).

(** The records written to the credential file, oldest first. *)
Fixpoint writesOf (evs : list Event) : list TokenData :=
  match evs with
  | [] => []
  | EvWriteToken t :: rest => t :: writesOf rest
  | _ :: rest => writesOf rest
  end.

Definition tokenWrites (w : World) : list TokenData := writesOf (events w).

(** The pages sent to the browser, oldest first. *)
Fixpoint pagesOf (evs : list Event) : list (N * Page) :=
  match evs with
  | [] => []
  | EvRespond c p :: rest => (c, p) :: pagesOf rest
  | _ :: rest => pagesOf rest
  end.

Definition pagesSent (w : World) : list (N * Page) := pagesOf (events w).

(** What the outside does during the next [authorize()] run. *)
Definition nextLogin (w : World) : Login :=
  match logins w with
  | env :: _ => env
  | [] => {| browserOpens := false; callback := None; timerLag := 0 |}
  end.

(** The state token the next [authorize()] run generates. *)
Definition nextState (w : World) : string :=
  match OAuthManager.generateRandomState w with
  | (Ok s, _) => s
  | (Throw _, _) => ""
  end.

(** The record that a granted callback yields at the time [at_]. *)
Definition grantedRecord (cfg : Config) (req : Request) (at_ : Z) : TokenData :=
  {| accessToken := str_or (q_access_token req) "";
     refreshToken := str_or (q_refresh_token req) (str_or (q_access_token req) "");
     expiresAt := at_ + 30 * 24 * 60 * 60 * 1000;
     scopes := OAuthManager.fullScopes;
     userId := str_or (q_user_id req) "";
     clientId := cfg_clientId cfg |}.

(** The text of the error that [callFunction] makes of an error envelope. *)
Definition envelopeText (error : Js.Value) : string :=
  let field k := match error with Some e => Js.get e k | None => None end in
  "[" ++ Js.show (field "code") ++ "] " ++ Js.show (field "message")
  ++ (if Js.truthy (field "suggestion")
      then nl ++ "建议：" ++ Js.show (field "suggestion")
      else "").




(** An action leaves an observation of the world as it was. *)
Definition keeps {X A} (f : World -> X) (m : M A) : Prop :=
  forall w, f (after m w) = f w.

(** ** The stages of a deployment *)

(** What [deployWebsite] does once the input is resolved to a local file:
    the size check, the upload and the backend call. *)
Definition deploy_resolved (this : DemoxClientObj)
           (params : DeployParams) (accessToken localFilePath : string) : M Json :=
  (if String.eqb localFilePath ""
   then throw (NewError "无法处理输入文件")
   else ret tt) ;;
  fileSize <- DemoxClient.getFileSize localFilePath ;;
  log INFO ["文件大小: " ++ DemoxClient.megabytes fileSize ++ "MB"] ;;
  let maxFileSize := 500 * 1024 * 1024 in
  (if fileSize >? maxFileSize
   then throw (NewError ("文件过大 (" ++ DemoxClient.megabytes fileSize
                         ++ "MB)，当前最大支持 500MB"))
   else ret tt) ;;
  log INFO ["正在上传文件到 CloudBase Storage..."] ;;
  fileId <- DemoxClient.uploadToCloudBaseStorage localFilePath accessToken ;;
  result <- DemoxClient.callFunction this "deploy-website"
              (JObj ([("action", JStr "upload_and_deploy"); ("fileId", JStr fileId)]
                     ++ match websiteId params with
                        | Some id => [("websiteId", JStr id)]
                        | None => []
                        end
                     ++ [("fileName", JStr (fileName params))]))
              accessToken ;;
  url <- DemoxClient.member result "url" ;;
  log INFO ["网站部署成功: " ++ Js.show url] ;;
  ret result.

(** The test that sends an input to the local-path branch. *)
Definition takenForBase64 (s : string) : bool :=
  DemoxClient.isBase64 s
  && negb (JsString.startsWith s "/") && negb (JsString.startsWith s ".").

Definition isUrl (s : string) : bool :=
  JsString.startsWith s "http://" || JsString.startsWith s "https://".

(** The request a deployment sends to the backend. *)
Definition deployRequest (params : DeployParams) (fileId : string) : Json :=
  JObj ([("action", JStr "upload_and_deploy"); ("fileId", JStr fileId)]
          ++ match websiteId params with
             | Some id => [("websiteId", JStr id)]
             | None => []
             end
          ++ [("fileName", JStr (fileName params))]).

(** The trace of a deployment from the size check on, when everything
    succeeds. *)
Definition uploadTrace (this : DemoxClientObj) (params : DeployParams)
           (accessToken localFilePath : string) (bytes now : Z)
           (fileId : string) (reply : Json) : list Event :=
  let cloudPath := "mcp-uploads/" ++ JsString.of_Z now ++ "-"
                   ++ DemoxClient.basename localFilePath in
  [EvLog INFO ["文件大小: " ++ DemoxClient.megabytes bytes ++ "MB"];
   EvLog INFO ["正在上传文件到 CloudBase Storage..."];
   EvLog INFO ["正在上传文件到 CloudBase Storage: " ++ cloudPath];
   EvUpload localFilePath cloudPath;
   EvLog INFO ["文件上传成功: " ++ fileId];
   EvLog DEBUG ["调用云函数: " ++ "deploy-website"];
   EvLog DEBUG ["API URL: " ++ cloudFunctionUrl this];
   EvFetch (cloudFunctionUrl this) (Some accessToken) (Some "deploy-website")
           (deployRequest params fileId);
   EvLog INFO ["网站部署成功: " ++ Js.show (Js.get reply "url")]].

(** A regular file of [bytes] bytes, as [writeTemp] leaves it. *)
Definition tempFileOf (bytes : Z) : PathStat :=
  {| isFile := true; isDirectory := false; size := bytes |}.

(** * The command line tool ([src/cli.ts])

    A command runs to the [process.exit] it reaches and yields the exit
    code.  The commands below are the ones whose output goes through the
    logger. *)

Module Cli.
Section Commands.

Variable config : Config.

Definition login : M N :=
  log INFO ["正在启动登录流程..."] ;;
  try_catch
    (accessToken <- OAuthManager.authorize config ;;
     log INFO ["✅ 登录成功！"] ;;
     log INFO ["Token 已保存到: " ++ cfg_tokenPath config] ;;
     ret 0%N)
    (fun error =>
       log ERROR ["❌ 登录失败:"; message error] ;;
       ret 1%N).

Definition logout : M N :=
  present <- OAuthManager.existsSync_tokenPath ;;
  if negb present then
    log INFO ["未找到本地 Token"] ;;
    ret 0%N
  else
    try_catch
      (OAuthManager.unlink_tokenPath ;;
       log INFO ["✅ 已登出"] ;;
       log INFO ["Token 已删除: " ++ cfg_tokenPath config] ;;
       ret 0%N)
      (fun error =>
         log ERROR ["❌ 登出失败:"; message error] ;;
         ret 1%N).

Definition status : M N :=
  present <- OAuthManager.existsSync_tokenPath ;;
  if negb present then
    log INFO ["未登录"] ;;
    log INFO ["请运行: demox-mcp login"] ;;
    ret 0%N
  else
    try_catch
      (content <- OAuthManager.readFile_tokenPath config ;;
       tokenData <- OAuthManager.JSON_parse content ;;
       now <- Date_now ;;
       let daysLeft := (expiresAt tokenData - now) / (1000 * 60 * 60 * 24) in
       log INFO ["✅ 已登录"] ;;
       log INFO ["用户 ID: " ++ userId tokenData] ;;
       log INFO ["客户端 ID: " ++ clientId tokenData] ;;
       log INFO ["权限范围: " ++ JsString.join ", " (scopes tokenData)] ;;
       (if daysLeft >? 0 then
          log INFO ["Token 有效期: " ++ JsString.of_Z daysLeft ++ " 天"]
        else if daysLeft =? 0 then
          log WARN ["⚠️  Token 将在今天过期"]
        else
          log WARN ["⚠️  Token 已过期，请重新登录"]) ;;
       log INFO ["保存位置: " ++ cfg_tokenPath config] ;;
       ret 0%N)
      (fun error =>
         log ERROR ["❌ 读取状态失败:"; message error] ;;
         ret 1%N).

Definition delete (websiteId : string) : M N :=
  try_catch
    (accessToken <- OAuthManager.ensureAuthenticated config ;;
     let client := DemoxClient.construct config accessToken in
     log INFO ["正在删除网站: " ++ websiteId] ;;
     DemoxClient.deleteWebsite client websiteId accessToken ;;
     log INFO ["✅ 网站已删除"] ;;
     ret 0%N)
    (fun error =>
       log ERROR ["❌ 删除失败:"; message error] ;;
       ret 1%N).

Definition clean (all : bool) : M N :=
  present <- OAuthManager.existsSync_tokenPath ;;
  cleaned <-
    (if present then
       try_catch
         (OAuthManager.unlink_tokenPath ;;
          log INFO ["✅ 已删除 Token"] ;;
          ret true)
         (fun error =>
            log ERROR ["❌ 删除 Token 失败:"; message error] ;;
            ret false)
     else ret false) ;;
  (if all then log INFO ["清理所有缓存..."] else ret tt) ;;
  (if negb cleaned then log INFO ["没有需要清理的内容"] else ret tt) ;;
  ret 0%N.

End Commands.
End Cli.

(** The line of [status] on the time the record has left. *)
Definition validity (daysLeft : Z) : Event :=
  if daysLeft >? 0 then EvLog INFO ["Token 有效期: " ++ JsString.of_Z daysLeft ++ " 天"]
  else if daysLeft =? 0 then EvLog WARN ["⚠️  Token 将在今天过期"]
  else EvLog WARN ["⚠️  Token 已过期，请重新登录"].

(** What [status] prints for the record [t] at the time [at_]. *)
Definition statusReport (cfg : Config) (t : TokenData) (at_ : Z) : list Event :=
  [EvLog INFO ["✅ 已登录"];
   EvLog INFO ["用户 ID: " ++ userId t];
   EvLog INFO ["客户端 ID: " ++ clientId t];
   EvLog INFO ["权限范围: " ++ JsString.join ", " (scopes t)];
   validity ((expiresAt t - at_) / (1000 * 60 * 60 * 24));
   EvLog INFO ["保存位置: " ++ cfg_tokenPath cfg]].

(** The entry of the list for the site at position [index], counted from
    zero: its number is [index + 1]. *)
Definition entryText (fmt : Js.Value -> string) (index : nat) (site : Json) : string :=
  JsString.of_N (N.of_nat (index + 1)) ++ ". **" ++ Js.show (Js.get site "fileName")
  ++ "**" ++ nl
  ++ "   - ID: `" ++ Js.show (Js.get site "websiteId") ++ "`" ++ nl
  ++ "   - URL: " ++ Js.show (Js.get site "url") ++ nl
  ++ "   - 创建时间: " ++ fmt (Js.get site "createdAt") ++ nl.

(** The entries of the sites, in their order, numbered from [first + 1]. *)
Definition entryTexts (fmt : Js.Value -> string) (first : nat) (sites : list Json)
  : list string :=
  map (fun p => entryText fmt (fst p) (snd p))
      (combine (seq first (List.length sites)) sites).
(** ** Sample hosts and worlds

    Concrete inputs on which the embedding is run: a configuration, a
    quiet world, and variations of it. *)

Module Sample.

Definition config : Config :=
  {| cfg_clientId := "demox-mcp-client";
     cfg_authUrl := "https://demox.site/#/oauth/authorize";
     cfg_cloudFunctionUrl := "https://api.demox.site/mcp-api";
     cfg_serverEnv := "demox-prod";
     cfg_tokenPath := "/home/dev/.demox/token.json";
     cfg_tmpdir := "/tmp" |}.

Definition toLocaleString (v : Js.Value) : string := Js.show v.

(** 2023-11-14T22:13:20Z *)
Definition t0 : Z := 1700000000000.

Definition day : Z := 24 * 60 * 60 * 1000.

Definition quiet : World :=
  {| tokenFile := NoFile; writeFault := None; unlinkFault := None;
     now := t0; randoms := []; logins := []; listening := false;
     currentToken := None; demoxClient := None; replies := [];
     paths := []; zips := []; uploads := []; events := [] |}.

Definition record (expires : Z) : TokenData :=
  {| accessToken := "cached-token"; refreshToken := "cached-refresh";
     expiresAt := expires; scopes := OAuthManager.fullScopes;
     userId := "user-1"; clientId := "demox-mcp-client" |}.

(** A record that expires in twenty days is on file. *)
Definition withFreshRecord : World :=
  set_tokenFile (Readable (JsonRecord (record (t0 + 20 * day)))) quiet.

(** The token path holds text that is not JSON. *)
Definition withCorruptFile : World :=
  set_tokenFile
    (Readable (NotJson "{ accessToken: "
                       (NewError "Unexpected token a in JSON at position 2")))
    quiet.

(** The token path exists and cannot be read. *)
Definition withUnreadableFile : World :=
  set_tokenFile
    (Unreadable (NewError "EACCES: permission denied, open '/home/dev/.demox/token.json'"))
    quiet.

(** [Math.random()] returns 0.5 twice: the state token is [ii]. *)
Definition halves : list N := [4503599627370496%N; 4503599627370496%N].

(** The browser comes back after four seconds with the request [req];
    the state token of the attempt is [ii]. *)
Definition loginWith (req : Request) (w : World) : World :=
  set_logins [{| browserOpens := true; callback := Some (4000%N, req); timerLag := 0 |}]
             (set_randoms halves w).

(** A callback with a token and a state that is not the one sent. *)
Definition forged : Request :=
  {| q_access_token := Some "stolen-token"; q_refresh_token := None;
     q_user_id := None; q_state := Some "forged"; q_error := None |}.

(** The same callback, carrying an [error] parameter as well. *)
Definition forgedWithError : Request :=
  {| q_access_token := Some "stolen-token"; q_refresh_token := None;
     q_user_id := None; q_state := Some "forged"; q_error := Some "access_denied" |}.

(** The callback of a completed login. *)
Definition granted : Request :=
  {| q_access_token := Some "fresh-token"; q_refresh_token := Some "fresh-refresh";
     q_user_id := Some "user-1"; q_state := Some "ii"; q_error := None |}.

Definition httpError (code : N) (body : string) : FetchOutcome :=
  FetchResponds {| ok := false; status := code; statusText := "";
                   bodyText := body;
                   bodyJson := Throw (NewError "Unexpected token in JSON");
                   bodyBytes := 0 |}.

Definition httpJson (j : Json) : FetchOutcome :=
  FetchResponds {| ok := true; status := 200; statusText := "OK";
                   bodyText := ""; bodyJson := Ok j; bodyBytes := 0 |}.

(** The backend's error envelope. *)
Definition envelope (code msg : string) : Json :=
  JObj [("error", JObj [("code", JStr code); ("message", JStr msg)])].

Definition deleteSite : ToolArgs :=
  {| arg_zipFile := None; arg_websiteId := Some "site-1"; arg_fileName := None |}.


(** A usable record is on file; the backend answers [first], then
    [second]; a login, if one is started, is granted after four
    seconds. *)
Definition serving (first second : FetchOutcome) : World :=
  set_replies [first; second] (loginWith granted withFreshRecord).

(** *** A [delete_website] call that meets an expired session

    The backend answers 401 to the first attempt; the login is granted;
    the second answer goes to the retry.  The worlds between the steps of
    the handler are named, to be stated in the properties. *)

Definition expired (second : FetchOutcome) : World :=
  serving (httpError 401 "Unauthorized") second.

Definition afterEnsure (second : FetchOutcome) : World :=
  snd (OAuthManager.ensureAuthenticated config (expired second)).




Definition deleted : FetchOutcome := httpJson (JObj [("success", JBool true)]).

Definition notFound : FetchOutcome := httpJson (envelope "NOT_FOUND" "website not found").




Definition withUnlinkFault (e : JsError) (w : World) : World :=
  {| tokenFile := tokenFile w; writeFault := writeFault w; unlinkFault := Some e;
     now := now w; randoms := randoms w; logins := logins w;
     listening := listening w; currentToken := currentToken w;
     demoxClient := demoxClient w; replies := replies w; paths := paths w;
     zips := zips w; uploads := uploads w; events := events w |}.

Definition grantedLogin : Login :=
  {| browserOpens := true; callback := Some (4000%N, granted); timerLag := 0 |}.

(** A request without any of the parameters (the browser asking for an
    icon, say). *)
Definition bare : Request :=
  {| q_access_token := None; q_refresh_token := None; q_user_id := None;
     q_state := None; q_error := None |}.

(** The callback of a completed login that carries an [error] as well. *)
Definition grantedWithError : Request :=
  {| q_access_token := Some "fresh-token"; q_refresh_token := Some "fresh-refresh";
     q_user_id := Some "user-1"; q_state := Some "ii"; q_error := Some "access_denied" |}.

Definition loginOf (req : Request) : Login :=
  {| browserOpens := true; callback := Some (4000%N, req); timerLag := 0 |}.

(** A record that expires in two days and one second is on file. *)
Definition withRecordOfTwoDays : World :=
  set_tokenFile (Readable (JsonRecord (record (t0 + 2 * day + 1000)))) quiet.

(** An ok reply that carries an error envelope with a suggestion. *)
Definition quotaReply : Response :=
  {| ok := true; status := 200; statusText := "OK"; bodyText := "";
     bodyJson := Ok (JObj [("error",
                            JObj [("code", JStr "QUOTA_EXCEEDED");
                                  ("message", JStr "too many websites");
                                  ("suggestion", JStr "delete one first")])]);
     bodyBytes := 0 |}.

(** *** Deploying a directory *)

Definition client : DemoxClientObj := DemoxClient.construct config "cached-token".

Definition directory : PathStat :=
  {| isFile := false; isDirectory := true; size := 4096 |}.

Definition deployed : FetchOutcome :=
  httpJson (JObj [("url", JStr "https://demox.site/w/site-1");
                  ("websiteId", JStr "site-1"); ("path", JStr "/w/site-1")]).

(** A directory exists under the name [name]; archiving, upload and the
    backend would all succeed. *)
Definition withDirectory (name : string) : World :=
  set_paths [(name, directory)]
    (set_zips [Ok 20480]
       (set_uploads [Ok "cloud://demox/mcp-uploads/site.zip"]
          (set_replies [deployed] quiet))).

Definition deployOf (name : string) : DeployParams :=
  {| zipFile := name; websiteId := None; fileName := "site" |}.

(** *** Listing *)

Definition site1 : Json :=
  JObj [("websiteId", JStr "site-1"); ("fileName", JStr "site");
        ("url", JStr "https://demox.site/w/site-1");
        ("createdAt", JStr "2023-11-14T22:13:20Z")].

Definition answering (reply : FetchOutcome) : World := set_replies [reply] quiet.

(** A regular file of [bytes] bytes exists under the name [name]. *)
Definition withFile (name : string) (bytes : Z) : World :=
  set_paths [(name, tempFileOf bytes)] quiet.

Definition deployedSite : Json :=
  JObj [("url", JStr "https://demox.site/w/site-1");
        ("websiteId", JStr "site-1"); ("path", JStr "/w/site-1")].

Definition okReply (j : Json) : Response :=
  {| ok := true; status := 200; statusText := "OK";
     bodyText := ""; bodyJson := Ok j; bodyBytes := 0 |}.

Definition missing : Response :=
  {| ok := false; status := 404; statusText := "Not Found";
     bodyText := "Not Found"; bodyJson := Throw (NewError "Unexpected token N in JSON");
     bodyBytes := 9 |}.

(** The world after the command line [delete] has met the 401. *)
Definition afterCliDelete : World :=
  snd (DemoxClient.deleteWebsite client "site-1" "cached-token"
         (after (log INFO ["正在删除网站: " ++ "site-1"]) (afterEnsure deleted))).

(** The server has its client, and the backend answers [reply]. *)
Definition asked (reply : FetchOutcome) : World :=
  set_demoxClient (Some client) (answering reply).

Definition site2 : Json :=
  JObj [("websiteId", JStr "site-2"); ("fileName", JStr "blog");
        ("url", JStr "https://demox.site/w/site-2");
        ("createdAt", JStr "2023-11-15T08:00:00Z")].

Definition twoSites : Json :=
  JObj [("files", JArr [site1; site2]); ("count", JNum 2)].

End Sample.
(** * Properties *)

(** ** Frame reasoning: what an action leaves alone *)

Section Frames.

Context {X : Type} (f : World -> X).

Lemma keeps_ret {A} (a : A) : keeps f (ret a).
Proof. intro w. reflexivity. Qed.

Lemma keeps_throw {A} (e : JsError) : keeps f (@throw A e).
Proof. intro w. reflexivity. Qed.

Lemma keeps_bind {A B} (m : M A) (k : A -> M B) :
  keeps f m -> (forall a, keeps f (k a)) -> keeps f (bind m k).
Proof.
  intros Hm Hk w. unfold after, bind.
  specialize (Hm w). unfold after in Hm.
  destruct (m w) as [[a | e] w1]; simpl in *.
  - rewrite <- Hm. apply Hk.
  - exact Hm.
Qed.

Lemma keeps_try_catch {A} (m : M A) (h : JsError -> M A) :
  keeps f m -> (forall e, keeps f (h e)) -> keeps f (try_catch m h).
Proof.
  intros Hm Hh w. unfold after, try_catch.
  specialize (Hm w). unfold after in Hm.
  destruct (m w) as [[a | e] w1]; simpl in *.
  - exact Hm.
  - rewrite <- Hm. apply Hh.
Qed.

Lemma keeps_Date_now : keeps f Date_now.
Proof. intro w. reflexivity. Qed.

(** An observation that does not read the trace is blind to [emit]. *)
Lemma keeps_emit_blind (e : Event) :
  (forall ev w, f (set_events ev w) = f w) -> keeps f (emit e).
Proof. intros H w. apply H. Qed.

Lemma keeps_log_blind (l : Level) (args : list string) :
  (forall ev w, f (set_events ev w) = f w) -> keeps f (log l args).
Proof. apply keeps_emit_blind. Qed.

End Frames.

Lemma authorizeCalls_emit (e : Event) (w : World) :
  authorizeCalls (after (emit e) w)
  = (authorizeCalls w + (if isAuthorizeEvent e then 1 else 0))%nat.
Proof.
  unfold authorizeCalls, after, emit; simpl.
  rewrite filter_app, length_app; simpl.
  destruct (isAuthorizeEvent e); reflexivity.
Qed.

Lemma keeps_calls_emit (e : Event) :
  isAuthorizeEvent e = false -> keeps authorizeCalls (emit e).
Proof.
  intros He w. rewrite authorizeCalls_emit, He. lia.
Qed.

Lemma keeps_calls_log (l : Level) (args : list string) :
  keeps authorizeCalls (log l args).
Proof. apply keeps_calls_emit. reflexivity. Qed.

Lemma writesOf_app (a b : list Event) : writesOf (a ++ b) = (writesOf a ++ writesOf b)%list.
Proof.
  induction a as [| e a IH]; simpl; [reflexivity |].
  destruct e; simpl; rewrite ?IH; reflexivity.
Qed.

Lemma pagesOf_app (a b : list Event) : pagesOf (a ++ b) = (pagesOf a ++ pagesOf b)%list.
Proof.
  induction a as [| e a IH]; simpl; [reflexivity |].
  destruct e; simpl; rewrite ?IH; reflexivity.
Qed.

Lemma keeps_writes_emit (e : Event) :
  writesOf [e] = [] -> keeps tokenWrites (emit e).
Proof.
  intros He w. unfold tokenWrites, after, emit; simpl.
  rewrite writesOf_app, He. apply app_nil_r.
Qed.

(** A leaf action is one that reads or replaces fields of the world
    directly; what it keeps is read off its definition. *)
Ltac keeps_leaf :=
  let w := fresh "w" in
  intro w; unfold after; simpl;
  repeat match goal with
         | |- context [match ?x with _ => _ end] => destruct x; simpl
         end;
  reflexivity.

Ltac keeps_step :=
  first
    [ apply keeps_ret
    | apply keeps_throw
    | apply keeps_Date_now
    | apply keeps_calls_log
    | apply keeps_calls_emit; reflexivity
    | apply keeps_writes_emit; reflexivity
    | apply keeps_log_blind; intros; reflexivity
    | apply keeps_emit_blind; intros; reflexivity
    | apply keeps_bind; [ | intro ]
    | apply keeps_try_catch; [ | intro ]
    | match goal with
      | |- keeps _ (if ?b then _ else _) => destruct b
      | |- keeps _ (match ?x with _ => _ end) => destruct x
      end ].

Ltac keeps_auto := repeat keeps_step; try solve [keeps_leaf].

(** ** The credential store and the login flow leave the login count alone,
       apart from the entry into [authorize] itself *)

Lemma keeps_calls_loadToken cfg : keeps authorizeCalls (OAuthManager.loadToken cfg).
Proof.
  unfold OAuthManager.loadToken, OAuthManager.existsSync_tokenPath,
    OAuthManager.readFile_tokenPath, OAuthManager.JSON_parse.
  keeps_auto.
Qed.

Lemma keeps_calls_saveToken t : keeps authorizeCalls (OAuthManager.saveToken t).
Proof.
  unfold OAuthManager.saveToken, OAuthManager.writeFile_tokenPath, update.
  keeps_auto.
  intro w; unfold after; destruct (writeFault w); simpl; [reflexivity |].
  unfold authorizeCalls; simpl.
  rewrite filter_app, length_app; simpl. lia.
Qed.

Lemma keeps_calls_generateRandomState :
  keeps authorizeCalls OAuthManager.generateRandomState.
Proof.
  unfold OAuthManager.generateRandomState, OAuthManager.Math_random.
  keeps_auto.
Qed.

Lemma keeps_calls_server_close : keeps authorizeCalls OAuthManager.server_close.
Proof. unfold OAuthManager.server_close, update. keeps_auto. Qed.

Lemma keeps_calls_onRequest cfg st req :
  keeps authorizeCalls (OAuthManager.onRequest cfg st req).
Proof.
  unfold OAuthManager.onRequest, OAuthManager.respond.
  pose proof keeps_calls_server_close.
  repeat first [ assumption | keeps_step ].
Qed.

Lemma keeps_calls_race cfg env st :
  keeps authorizeCalls (OAuthManager.raceServerTimeout cfg env st).
Proof.
  unfold OAuthManager.raceServerTimeout, OAuthManager.server_listen,
    OAuthManager.onServerTimeout, OAuthManager.onCreateTimeout,
    OAuthManager.await, update, sleep.
  pose proof keeps_calls_server_close.
  pose proof (keeps_calls_onRequest cfg).
  repeat first [ assumption | solve [auto] | keeps_step | solve [keeps_leaf] ].
Qed.

(** Every run of [authorize] enters it once. *)
Lemma authorize_calls cfg w :
  authorizeCalls (after (OAuthManager.authorize cfg) w) = S (authorizeCalls w).
Proof.
  unfold OAuthManager.authorize.
  set (rest := fun _ : unit => _).
  assert (Hrest : keeps authorizeCalls (rest tt)).
  { subst rest. cbv beta.
    unfold OAuthManager.authorize_try, OAuthManager.console_error,
      OAuthManager.next_login.
    pose proof keeps_calls_generateRandomState.
    pose proof (keeps_calls_race cfg).
    pose proof keeps_calls_saveToken.
    repeat first [ assumption | solve [auto] | keeps_step | solve [keeps_leaf] ]. }
  unfold after, bind at 1. unfold emit at 1. cbv beta iota.
  change (authorizeCalls (after (rest tt) (after (emit EvAuthorize) w))
          = S (authorizeCalls w)).
  rewrite Hrest, authorizeCalls_emit. simpl. lia.
Qed.

(** ** Running a sequence step by step *)

Lemma bind_ok {A B} (m : M A) (k : A -> M B) w a w1 :
  m w = (Ok a, w1) -> bind m k w = k a w1.
Proof. intro H. unfold bind. rewrite H. reflexivity. Qed.

Lemma bind_throw {A B} (m : M A) (k : A -> M B) w e w1 :
  m w = (Throw e, w1) -> bind m k w = (Throw e, w1).
Proof. intro H. unfold bind. rewrite H. reflexivity. Qed.


Lemma try_throw {A} (m : M A) (h : JsError -> M A) w e w1 :
  m w = (Throw e, w1) -> try_catch m h w = h e w1.
Proof. intro H. unfold try_catch. rewrite H. reflexivity. Qed.

Lemma after_of {A} (m : M A) w r w1 : m w = (r, w1) -> after m w = w1.
Proof. intro H. unfold after. rewrite H. reflexivity. Qed.

Lemma isTokenExpired_eq t w :
  OAuthManager.isTokenExpired t w = (Ok (now w >=? expiresAt t - 5 * 60 * 1000), w).
Proof. reflexivity. Qed.

(** ** The credential store *)

(** What [loadToken] does, by what the token path holds. *)
Lemma loadToken_eq cfg w :
  OAuthManager.loadToken cfg w =
  match tokenFile w with
  | NoFile => (Ok None, w)
  | Unreadable e =>
    (Ok None, after (log ERROR ["加载本地 Token 失败:"; message e]) w)
  | Readable (NotJson _ e) =>
    (Ok None, after (log ERROR ["加载本地 Token 失败:"; message e]) w)
  | Readable (JsonRecord t) =>
    (Ok (Some t), after (log DEBUG ["成功加载本地 Token"]) w)
  end.
Proof.
  unfold OAuthManager.loadToken, OAuthManager.existsSync_tokenPath,
    OAuthManager.readFile_tokenPath, try_catch, bind.
  destruct (tokenFile w) as [| e | [txt e | t]] eqn:E;
    simpl; rewrite ?E; reflexivity.
Qed.

Lemma loadToken_returns cfg w :
  exists stored, fst (OAuthManager.loadToken cfg w) = Ok stored.
Proof.
  rewrite loadToken_eq.
  destruct (tokenFile w) as [| e | [txt e | t]]; eexists; reflexivity.
Qed.

Lemma loadToken_now cfg : keeps now (OAuthManager.loadToken cfg).
Proof.
  intro w. unfold after. rewrite loadToken_eq.
  destruct (tokenFile w) as [| e | [txt e | t]]; reflexivity.
Qed.

(** ** C1: reuse of the cached token *)

Lemma ensureAuthenticated_fresh cfg w t w1 :
  OAuthManager.loadToken cfg w = (Ok (Some t), w1) ->
  expiresAt t - now w > 5 * 60 * 1000 ->
  fst (OAuthManager.ensureAuthenticated cfg w) = Ok (accessToken t)
  /\ authorizeCalls (after (OAuthManager.ensureAuthenticated cfg) w) = authorizeCalls w.
Proof.
  intros Hload Hfresh.
  assert (Hnow : now w1 = now w).
  { rewrite <- (after_of _ _ _ _ Hload). apply loadToken_now. }
  assert (Hcalls : authorizeCalls w1 = authorizeCalls w).
  { rewrite <- (after_of _ _ _ _ Hload). apply keeps_calls_loadToken. }
  assert (Hcmp : (now w1 >=? expiresAt t - 5 * 60 * 1000) = false).
  { rewrite Hnow, Z.geb_leb. apply Z.leb_gt. lia. }
  unfold after, OAuthManager.ensureAuthenticated.
  rewrite (bind_ok _ _ _ _ _ Hload).
  rewrite (bind_ok _ _ _ _ _ (isTokenExpired_eq t w1)), Hcmp.
  cbv [negb]. rewrite <- Hcalls.
  set (tail := bind (update _) _).
  split.
  - subst tail. unfold bind, update, log, emit, Date_now, ret; simpl.
    destruct (_ <=? 3); reflexivity.
  - assert (Hk : keeps authorizeCalls tail)
      by (subst tail; unfold update; keeps_auto).
    apply Hk.
Qed.

Lemma ensureAuthenticated_stale cfg w t w1 :
  OAuthManager.loadToken cfg w = (Ok (Some t), w1) ->
  expiresAt t - now w <= 5 * 60 * 1000 ->
  OAuthManager.ensureAuthenticated cfg w
  = OAuthManager.authorize cfg
      (after (log INFO ["Token 不存在或已过期，需要登录"]) w1).
Proof.
  intros Hload Hstale.
  assert (Hnow : now w1 = now w).
  { rewrite <- (after_of _ _ _ _ Hload). apply loadToken_now. }
  assert (Hcmp : (now w1 >=? expiresAt t - 5 * 60 * 1000) = true).
  { rewrite Hnow, Z.geb_leb. apply Z.leb_le. lia. }
  unfold OAuthManager.ensureAuthenticated.
  rewrite (bind_ok _ _ _ _ _ Hload).
  rewrite (bind_ok _ _ _ _ _ (isTokenExpired_eq t w1)), Hcmp.
  reflexivity.
Qed.

Lemma ensureAuthenticated_absent cfg w w1 :
  OAuthManager.loadToken cfg w = (Ok None, w1) ->
  OAuthManager.ensureAuthenticated cfg w
  = OAuthManager.authorize cfg
      (after (log INFO ["Token 不存在或已过期，需要登录"]) w1).
Proof.
  intros Hload.
  unfold OAuthManager.ensureAuthenticated.
  rewrite (bind_ok _ _ _ _ _ Hload). reflexivity.
Qed.

Lemma login_after_load_calls cfg w stored w1 :
  OAuthManager.loadToken cfg w = (Ok stored, w1) ->
  authorizeCalls
    (after (OAuthManager.authorize cfg)
           (after (log INFO ["Token 不存在或已过期，需要登录"]) w1))
  = S (authorizeCalls w).
Proof.
  intros Hload.
  rewrite authorize_calls, keeps_calls_log.
  rewrite <- (after_of _ _ _ _ Hload). f_equal. apply keeps_calls_loadToken.
Qed.

(** C1.  For every credential record loaded from the store,
    [ensureAuthenticated] returns the cached access token without entering
    [authorize()] exactly when [expiresAt - now] exceeds five minutes; when
    [expiresAt - now] is at most five minutes, and when the store yields no
    record, it runs [authorize()] and returns what that returns. *)
Theorem ensureAuthenticated_reuses_iff_fresh cfg w stored w1 :
  OAuthManager.loadToken cfg w = (Ok stored, w1) ->
  let run := OAuthManager.ensureAuthenticated cfg w in
  let login :=
    OAuthManager.authorize cfg
      (after (log INFO ["Token 不存在或已过期，需要登录"]) w1) in
  match stored with
  | Some t =>
    ((fst run = Ok (accessToken t) /\ authorizeCalls (snd run) = authorizeCalls w)
     <-> expiresAt t - now w > 5 * 60 * 1000)
    /\ (expiresAt t - now w <= 5 * 60 * 1000 ->
        run = login /\ authorizeCalls (snd run) = S (authorizeCalls w))
  | None =>
    run = login /\ authorizeCalls (snd run) = S (authorizeCalls w)
  end.
Proof.
  intros Hload run login.
  destruct stored as [t |].
  - split.
    + split.
      * intros [_ Hcalls].
        destruct (Z_gt_le_dec (expiresAt t - now w) (5 * 60 * 1000)) as [Hf | Hs];
          [exact Hf | exfalso].
        subst run. rewrite (ensureAuthenticated_stale _ _ _ _ Hload Hs) in Hcalls.
        pose proof (login_after_load_calls _ _ _ _ Hload) as Hl.
        unfold after in Hl at 1. lia.
      * intro Hf. exact (ensureAuthenticated_fresh _ _ _ _ Hload Hf).
    + intro Hs. subst run login.
      rewrite (ensureAuthenticated_stale _ _ _ _ Hload Hs).
      split; [reflexivity | exact (login_after_load_calls _ _ _ _ Hload)].
  - subst run login.
    rewrite (ensureAuthenticated_absent _ _ _ Hload).
    split; [reflexivity | exact (login_after_load_calls _ _ _ _ Hload)].
Qed.

(** A record that expires in twenty days is loaded and reused. *)
Lemma ensureAuthenticated_reuses_witness :
  let w := Sample.withFreshRecord in
  let t := Sample.record (Sample.t0 + 20 * Sample.day) in
  let run := OAuthManager.ensureAuthenticated Sample.config w in
  ((fst run = Ok "cached-token" /\ authorizeCalls (snd run) = authorizeCalls w)
   <-> expiresAt t - now w > 5 * 60 * 1000)
  /\ (expiresAt t - now w <= 5 * 60 * 1000 ->
      run = OAuthManager.authorize Sample.config
              (after (log INFO ["Token 不存在或已过期，需要登录"])
                     (after (OAuthManager.loadToken Sample.config) w))
      /\ authorizeCalls (snd run) = S (authorizeCalls w)).
Proof.
  exact (ensureAuthenticated_reuses_iff_fresh Sample.config Sample.withFreshRecord
           (Some (Sample.record (Sample.t0 + 20 * Sample.day))) _ eq_refl).
Defined.

(** ** C6: [loadToken] never fails *)

(** C6, as the specification states it, fails: a token file that cannot be
    parsed, and one that cannot be read, both make [loadToken] return
    [null] ("absent") after logging; neither error reaches the caller. *)
Lemma loadToken_swallows_failures :
  OAuthManager.loadToken Sample.config Sample.withCorruptFile
  = (Ok None,
     after (log ERROR ["加载本地 Token 失败:"; "Unexpected token a in JSON at position 2"])
           Sample.withCorruptFile)
  /\ OAuthManager.loadToken Sample.config Sample.withUnreadableFile
     = (Ok None,
        after (log ERROR ["加载本地 Token 失败:";
                          "EACCES: permission denied, open '/home/dev/.demox/token.json'"])
              Sample.withUnreadableFile).
Proof. split; reflexivity. Qed.

(** C6, amended.  [loadToken] returns the record when the file exists and
    parses; it returns "absent" when the file does not exist, and also when
    the file exists but cannot be read or cannot be parsed; it never fails
    and never changes the file. *)
Theorem loadToken_absent_on_every_failure cfg w :
  fst (OAuthManager.loadToken cfg w)
  = match tokenFile w with
    | Readable (JsonRecord t) => Ok (Some t)
    | NoFile => Ok None
    | Unreadable _ => Ok None
    | Readable (NotJson _ _) => Ok None
    end
  /\ tokenFile (after (OAuthManager.loadToken cfg) w) = tokenFile w.
Proof.
  unfold after. rewrite loadToken_eq.
  destruct (tokenFile w) as [| e | [txt e | t]] eqn:E; simpl; rewrite ?E; auto.
Qed.

(** ** C7: the record synthesized from a successful callback *)

(** C7.  A callback without [error], with an access token and with the
    expected state settles the listener's promise with a record whose
    access token is the callback's, whose refresh token is the callback's
    or, when that parameter is absent (or empty), the access token, whose
    expiry is the time of the callback plus thirty days, whose scopes are
    the four fixed ones, whose user id is the callback's or the empty
    string, and whose client id is the configured one. *)
Theorem callback_record_fields cfg st req w a :
  truthy_str (q_error req) = false ->
  q_access_token req = Some a -> a <> "" ->
  q_state req = Some st -> st <> "" ->
  exists t,
    fst (OAuthManager.onRequest cfg st req w) = Ok (Ok t)
    /\ accessToken t = a
    /\ refreshToken t
       = match q_refresh_token req with
         | Some r => if String.eqb r "" then a else r
         | None => a
         end
    /\ expiresAt t = now w + 30 * 24 * 60 * 60 * 1000
    /\ scopes t
       = ["website:deploy"; "website:list"; "website:delete"; "website:update"]
    /\ userId t = match q_user_id req with Some u => u | None => "" end
    /\ clientId t = cfg_clientId cfg.
Proof.
  intros Herr Ha Hna Hst Hnst.
  apply String.eqb_neq in Hna. apply String.eqb_neq in Hnst.
  unfold OAuthManager.onRequest.
  rewrite Herr, Ha, Hst. cbv [truthy_str str_or].
  rewrite ?Hna, ?Hnst, String.eqb_refl. cbv [negb andb].
  eexists. split; [reflexivity |]. simpl.
  repeat split.
  destruct (q_user_id req) as [u |]; [| reflexivity].
  destruct (String.eqb u "") eqn:E; [| reflexivity].
  apply String.eqb_eq in E. congruence.
Qed.

(** A callback with every parameter but [error] and [refresh_token]. *)
Lemma callback_record_fields_witness :
  exists t,
    fst (OAuthManager.onRequest Sample.config "ii"
           {| q_access_token := Some "fresh-token"; q_refresh_token := None;
              q_user_id := Some "user-1"; q_state := Some "ii"; q_error := None |}
           Sample.quiet) = Ok (Ok t)
    /\ accessToken t = "fresh-token"
    /\ refreshToken t = "fresh-token"
    /\ expiresAt t = Sample.t0 + 30 * 24 * 60 * 60 * 1000
    /\ scopes t
       = ["website:deploy"; "website:list"; "website:delete"; "website:update"]
    /\ userId t = "user-1"
    /\ clientId t = "demox-mcp-client".
Proof.
  apply (callback_record_fields Sample.config "ii"
           {| q_access_token := Some "fresh-token"; q_refresh_token := None;
              q_user_id := Some "user-1"; q_state := Some "ii"; q_error := None |}
           Sample.quiet "fresh-token").
  - reflexivity.
  - reflexivity.
  - discriminate.
  - reflexivity.
  - discriminate.
Defined.

(** ** C9: the anti-forgery state *)















(** ** The login flow, step by step *)

Lemma bind_emit {B} (e : Event) (k : unit -> M B) w :
  bind (emit e) k w = k tt (after (emit e) w).
Proof. reflexivity. Qed.

Lemma generateRandomState_run w :
  OAuthManager.generateRandomState w
  = (Ok (nextState w), set_randoms (skipn 2 (randoms w)) w).
Proof.
  unfold nextState, OAuthManager.generateRandomState, OAuthManager.Math_random,
    bind, ret.
  destruct w as [tf wf uf nw rs ls li ct dc rp ps zs us ev]. cbn [randoms].
  destruct rs as [| a [| b rs]]; cbn [randoms set_randoms skipn]; reflexivity.
Qed.

Lemma nextState_ext w1 w2 : randoms w1 = randoms w2 -> nextState w1 = nextState w2.
Proof.
  intro H.
  unfold nextState, OAuthManager.generateRandomState, OAuthManager.Math_random,
    bind, ret.
  destruct w1 as [tf wf uf nw rs ls li ct dc rp ps zs us ev].
  destruct w2 as [tf' wf' uf' nw' rs' ls' li' ct' dc' rp' ps' zs' us' ev'].
  cbn [randoms] in *. subst rs'.
  destruct rs as [| a [| b rs]]; cbn [randoms set_randoms]; reflexivity.
Qed.

Lemma next_login_run w :
  OAuthManager.next_login w = (Ok (nextLogin w), set_logins (tl (logins w)) w).
Proof.
  unfold OAuthManager.next_login, nextLogin.
  destruct w as [tf wf uf nw rs ls li ct dc rp ps zs us ev]; simpl.
  destruct ls; reflexivity.
Qed.

(** Up to its [try] statement, [authorize] only reports: it consumes two
    random numbers and the description of the login, and prints. *)
Lemma authorize_prelude cfg w :
  exists w5,
    OAuthManager.authorize cfg w
    = OAuthManager.authorize_try cfg (nextLogin w) (nextState w) w5
    /\ tokenFile w5 = tokenFile w
    /\ writeFault w5 = writeFault w
    /\ now w5 = now w
    /\ tokenWrites w5 = tokenWrites w
    /\ pagesSent w5 = pagesSent w.
Proof.
  unfold OAuthManager.authorize, log, OAuthManager.console_error.
  rewrite !bind_emit.
  rewrite (bind_ok _ _ _ _ _ (generateRandomState_run _)).
  cbv zeta. rewrite !bind_emit.
  rewrite (bind_ok _ _ _ _ _ (next_login_run _)).
  set (env := nextLogin _).
  assert (Henv : env = nextLogin w) by reflexivity.
  set (st := nextState _).
  assert (Hst : st = nextState w) by (apply nextState_ext; reflexivity).
  clearbody env st. subst env st.
  destruct (browserOpens (nextLogin w)); rewrite bind_emit;
    (eexists; split; [reflexivity |]);
    unfold tokenWrites, pagesSent, after, emit; simpl;
    rewrite !writesOf_app, !pagesOf_app; simpl; rewrite !app_nil_r;
    repeat split; reflexivity.
Qed.

(** No request before the timers are due: the timer of [startLocalServer]
    closes the listener and settles the race; the timer of [createTimeout]
    comes second and settles nothing. *)
Lemma race_timeout cfg env st w :
  match callback env with
  | Some (dt, _) => (dt <? 300000)%N = false
  | None => True
  end ->
  OAuthManager.raceServerTimeout cfg env st w
  = (Throw (NewError "登录超时（5 分钟）"),
     after (OAuthManager.server_listen 39897 ;;
            sleep (300000 + Z.of_N (timerLag env)) ;;
            OAuthManager.server_close) w).
Proof.
  intro H. unfold OAuthManager.raceServerTimeout.
  destruct (callback env) as [[dt req] |]; [rewrite H |]; reflexivity.
Qed.

(** A request before the timers are due: the handler settles the race. *)
Lemma race_request cfg env st w dt req :
  callback env = Some (dt, req) ->
  (dt <? 300000)%N = true ->
  OAuthManager.raceServerTimeout cfg env st w
  = (r <- OAuthManager.onRequest cfg st req ;; OAuthManager.await (Some r))
      (after (OAuthManager.server_listen 39897 ;; sleep (Z.of_N dt)) w).
Proof.
  intros Hc Hdt. unfold OAuthManager.raceServerTimeout. rewrite Hc, Hdt.
  unfold OAuthManager.settle, bind, after. simpl.
  destruct (OAuthManager.onRequest cfg st req _) as [[r | e] w1]; reflexivity.
Qed.

(** Whatever the request, the handler sends one page, closes the listener
    and settles the promise. *)
Lemma onRequest_shape cfg st req w :
  exists code page r,
    OAuthManager.onRequest cfg st req w
    = (Ok r, after (OAuthManager.respond code page ;; OAuthManager.server_close) w)
    /\ (truthy_str (q_error req) = true ->
        r = Throw (NewError ("OAuth 授权失败: " ++ str_or (q_error req) ""))
        /\ code = 200%N /\ page = LoginCancelledPage (str_or (q_error req) ""))
    /\ (truthy_str (q_error req) = false ->
        truthy_str (q_access_token req) && truthy_str (q_state req) = true ->
        q_state req <> Some st ->
        r = Throw (NewError "OAuth state 不匹配，可能存在安全风险")
        /\ code = 400%N /\ page = PlainText "State 不匹配")
    /\ (truthy_str (q_error req) = false ->
        truthy_str (q_access_token req) && truthy_str (q_state req) = false ->
        r = Throw (NewError "缺少必要的 OAuth 参数")
        /\ code = 400%N /\ page = PlainText "缺少必要的参数")
    /\ (forall t, r = Ok t ->
        truthy_str (q_error req) = false
        /\ q_state req = Some st
        /\ truthy_str (q_access_token req) = true
        /\ code = 200%N /\ page = LoginSucceededPage).
Proof.
  unfold OAuthManager.onRequest.
  destruct (truthy_str (q_error req)) eqn:Eerr.
  { do 3 eexists. split; [reflexivity |].
    repeat split; intros; try discriminate. }
  destruct (truthy_str (q_access_token req)) eqn:Ea;
    destruct (truthy_str (q_state req)) eqn:Es; simpl andb; cbv iota;
    try (do 3 eexists; split; [reflexivity |];
         repeat split; intros; try discriminate; fail).
  destruct (q_state req) as [s |] eqn:Eq; [| discriminate].
  unfold str_or at 1. simpl in Es.
  destruct (String.eqb s "") eqn:Ee; [discriminate |].
  destruct (String.eqb s st) eqn:Est; simpl negb; cbv iota.
  - apply String.eqb_eq in Est. subst s.
    do 3 eexists. split; [reflexivity |].
    repeat split; intros; try discriminate; try congruence.
  - apply String.eqb_neq in Est.
    do 3 eexists. split; [reflexivity |].
    repeat split; intros; try discriminate; try congruence.
Qed.

Lemma respond_close_frame code page w :
  let w' := after (OAuthManager.respond code page ;; OAuthManager.server_close) w in
  listening w' = false
  /\ tokenFile w' = tokenFile w
  /\ writeFault w' = writeFault w
  /\ now w' = now w
  /\ tokenWrites w' = tokenWrites w
  /\ pagesSent w' = (pagesSent w ++ [(code, page)])%list.
Proof.
  unfold after, OAuthManager.respond, OAuthManager.server_close, update, bind, emit,
    tokenWrites, pagesSent; simpl.
  rewrite !writesOf_app, !pagesOf_app; simpl. rewrite !app_nil_r.
  repeat split; reflexivity.
Qed.

Lemma listen_sleep_frame ms w :
  let w' := after (OAuthManager.server_listen 39897 ;; sleep ms) w in
  tokenFile w' = tokenFile w
  /\ writeFault w' = writeFault w
  /\ now w' = now w + ms
  /\ tokenWrites w' = tokenWrites w
  /\ pagesSent w' = pagesSent w.
Proof.
  unfold after, OAuthManager.server_listen, sleep, update, log, bind, emit,
    tokenWrites, pagesSent; simpl.
  rewrite !writesOf_app, !pagesOf_app; simpl. rewrite !app_nil_r.
  repeat split; reflexivity.
Qed.

Lemma log_frame l args w :
  let w' := after (log l args) w in
  tokenFile w' = tokenFile w
  /\ listening w' = listening w
  /\ now w' = now w
  /\ tokenWrites w' = tokenWrites w
  /\ pagesSent w' = pagesSent w.
Proof.
  unfold after, log, emit, tokenWrites, pagesSent; simpl.
  rewrite !writesOf_app, !pagesOf_app; simpl. rewrite !app_nil_r.
  repeat split; reflexivity.
Qed.

(** A request that the handler rejects makes [authorize] fail with the
    handler's error, after one page and without touching the store. *)
Lemma authorize_rejected cfg w env rest dt req e code page :
  logins w = env :: rest ->
  callback env = Some (dt, req) ->
  (dt <? 300000)%N = true ->
  (forall w1, OAuthManager.onRequest cfg (nextState w) req w1
              = (Ok (Throw e),
                 after (OAuthManager.respond code page ;; OAuthManager.server_close) w1)) ->
  let run := OAuthManager.authorize cfg w in
  fst run = Throw e
  /\ tokenFile (snd run) = tokenFile w
  /\ tokenWrites (snd run) = tokenWrites w
  /\ pagesSent (snd run) = (pagesSent w ++ [(code, page)])%list
  /\ listening (snd run) = false
  /\ now (snd run) = now w + Z.of_N dt.
Proof.
  intros Hl Hc Hdt Hreq run. subst run.
  destruct (authorize_prelude cfg w) as (w5 & E & Htf & _ & Hnow & Hwr & Hpg).
  rewrite E. unfold nextLogin. rewrite Hl.
  unfold OAuthManager.authorize_try.
  set (w6 := after (OAuthManager.server_listen 39897 ;; sleep (Z.of_N dt)) w5).
  assert (Hrace : OAuthManager.raceServerTimeout cfg env (nextState w) w5
                  = (Throw e, after (OAuthManager.respond code page ;;
                                     OAuthManager.server_close) w6)).
  { rewrite (race_request _ _ _ _ _ _ Hc Hdt). fold w6.
    rewrite (bind_ok _ _ _ _ _ (Hreq w6)). reflexivity. }
  rewrite (try_throw _ _ _ _ _ (bind_throw _ _ _ _ _ Hrace)).
  set (w7 := after (OAuthManager.respond code page ;; OAuthManager.server_close) w6).
  change (bind (log ERROR ["登录失败:"; message e]) (fun _ => throw e) w7)
    with (@Throw string e, after (log ERROR ["登录失败:"; message e]) w7).
  cbv [fst snd].
  destruct (log_frame ERROR ["登录失败:"; message e] w7) as (L1 & L2 & L3 & L4 & L5).
  destruct (respond_close_frame code page w6) as (R1 & R2 & _ & R3 & R4 & R5).
  destruct (listen_sleep_frame (Z.of_N dt) w5) as (S1 & _ & S2 & S3 & S4).
  fold w7 in R1, R2, R3, R4, R5. fold w6 in S1, S2, S3, S4.
  repeat split; congruence.
Qed.

(** ** C2: a callback with the wrong state *)

(** C2, as the specification states it, fails: a callback that carries an
    access token and a state different from the one generated, and an
    [error] parameter as well, is answered by the [error] branch, which
    comes first: [authorize] fails with the authorization error, not with
    the state-mismatch error. *)
Lemma forged_state_with_error_parameter :
  let w := Sample.loginWith Sample.forgedWithError Sample.quiet in
  nextState w = "ii"
  /\ q_access_token Sample.forgedWithError = Some "stolen-token"
  /\ q_state Sample.forgedWithError = Some "forged"
  /\ fst (OAuthManager.authorize Sample.config w)
     = Throw (NewError "OAuth 授权失败: access_denied")
  /\ NewError "OAuth 授权失败: access_denied"
     <> NewError "OAuth state 不匹配，可能存在安全风险"
  /\ tokenFile (after (OAuthManager.authorize Sample.config) w) = NoFile.
Proof.
  cbv zeta. repeat split; try (vm_compute; reflexivity). discriminate.
Qed.

(** C2, amended.  For every callback request that carries an access token
    and a state value different from the state generated for this
    [authorize()] attempt, the flow fails and persists no credential
    record.  When the request carries no [error] parameter the failure is
    the state-mismatch error and the single page sent to the browser is the
    fixed text of status 400, which names neither value; when it carries
    one, the failure is the authorization error of that parameter. *)
Theorem mismatched_state_is_rejected cfg w env rest dt req :
  logins w = env :: rest ->
  callback env = Some (dt, req) ->
  (dt < 300000)%N ->
  truthy_str (q_access_token req) = true ->
  truthy_str (q_state req) = true ->
  q_state req <> Some (nextState w) ->
  let run := OAuthManager.authorize cfg w in
  (exists e, fst run = Throw e)
  /\ tokenFile (snd run) = tokenFile w
  /\ tokenWrites (snd run) = tokenWrites w
  /\ (truthy_str (q_error req) = false ->
      fst run = Throw (NewError "OAuth state 不匹配，可能存在安全风险")
      /\ pagesSent (snd run) = (pagesSent w ++ [(400%N, PlainText "State 不匹配")])%list)
  /\ (truthy_str (q_error req) = true ->
      fst run = Throw (NewError ("OAuth 授权失败: " ++ str_or (q_error req) ""))).
Proof.
  intros Hl Hc Hdt Ha Hs Hne run.
  apply N.ltb_lt in Hdt.
  assert (Hreq : exists e code page,
             (forall w1, OAuthManager.onRequest cfg (nextState w) req w1
                         = (Ok (Throw e),
                            after (OAuthManager.respond code page ;;
                                   OAuthManager.server_close) w1))
             /\ (truthy_str (q_error req) = false ->
                 e = NewError "OAuth state 不匹配，可能存在安全风险"
                 /\ code = 400%N /\ page = PlainText "State 不匹配")
             /\ (truthy_str (q_error req) = true ->
                 e = NewError ("OAuth 授权失败: " ++ str_or (q_error req) ""))).
  { destruct (truthy_str (q_error req)) eqn:Eerr.
    - exists (NewError ("OAuth 授权失败: " ++ str_or (q_error req) "")),
             200%N, (LoginCancelledPage (str_or (q_error req) "")).
      split; [| split; [discriminate | reflexivity]].
      intro w1.
      destruct (onRequest_shape cfg (nextState w) req w1)
        as (c & p & r & E & Herr & _).
      destruct (Herr Eerr) as (-> & -> & ->). exact E.
    - exists (NewError "OAuth state 不匹配，可能存在安全风险"),
             400%N, (PlainText "State 不匹配").
      split; [| split; [auto | discriminate]].
      intro w1.
      destruct (onRequest_shape cfg (nextState w) req w1)
        as (c & p & r & E & _ & Hmis & _).
      assert (Hboth : truthy_str (q_access_token req) && truthy_str (q_state req) = true)
        by (rewrite Ha, Hs; reflexivity).
      destruct (Hmis Eerr Hboth Hne) as (-> & -> & ->). exact E. }
  destruct Hreq as (e & code & page & Hreq & Hno & Hyes).
  destruct (authorize_rejected cfg w env rest dt req e code page Hl Hc Hdt Hreq)
    as (R & Htf & Hwr & Hpg & _).
  fold run in R, Htf, Hwr, Hpg.
  split; [exists e; exact R |].
  split; [exact Htf |]. split; [exact Hwr |]. split.
  - intro Eerr. destruct (Hno Eerr) as (-> & -> & ->). split; assumption.
  - intro Eerr. rewrite (Hyes Eerr) in R. exact R.
Qed.

(** A forged callback without an [error] parameter. *)
Lemma mismatched_state_is_rejected_witness :
  let w := Sample.loginWith Sample.forged Sample.quiet in
  let run := OAuthManager.authorize Sample.config w in
  (exists e, fst run = Throw e)
  /\ tokenFile (snd run) = tokenFile w
  /\ tokenWrites (snd run) = tokenWrites w
  /\ (truthy_str (q_error Sample.forged) = false ->
      fst run = Throw (NewError "OAuth state 不匹配，可能存在安全风险")
      /\ pagesSent (snd run) = (pagesSent w ++ [(400%N, PlainText "State 不匹配")])%list)
  /\ (truthy_str (q_error Sample.forged) = true ->
      fst run = Throw (NewError ("OAuth 授权失败: " ++ str_or (q_error Sample.forged) ""))).
Proof.
  apply (mismatched_state_is_rejected Sample.config
           (Sample.loginWith Sample.forged Sample.quiet)
           {| browserOpens := true; callback := Some (4000%N, Sample.forged); timerLag := 0 |}
           [] 4000%N Sample.forged).
  - reflexivity.
  - reflexivity.
  - reflexivity.
  - reflexivity.
  - reflexivity.
  - vm_compute. discriminate.
Defined.

(** ** C5: the listener is closed on every exit path *)

Lemma race_closes cfg env st w :
  listening (after (OAuthManager.raceServerTimeout cfg env st) w) = false.
Proof.
  destruct (callback env) as [[dt req] |] eqn:Hc.
  - destruct (dt <? 300000)%N eqn:Hdt.
    + unfold after at 1. rewrite (race_request _ _ _ _ _ _ Hc Hdt).
      set (w1 := after (OAuthManager.server_listen 39897 ;; sleep (Z.of_N dt)) w).
      destruct (onRequest_shape cfg st req w1) as (code & page & r & E & _).
      rewrite (bind_ok _ _ _ _ _ E).
      destruct (respond_close_frame code page w1) as (Hclosed & _).
      destruct r; exact Hclosed.
    + unfold after. rewrite race_timeout by (rewrite Hc; exact Hdt). reflexivity.
  - unfold after. rewrite race_timeout by (rewrite Hc; exact I). reflexivity.
Qed.

Lemma try_bind_ok {A B} (m : M A) (k : A -> M B) (h : JsError -> M B) w a w1 :
  m w = (Ok a, w1) -> try_catch (bind m k) h w = try_catch (k a) h w1.
Proof. intro H. unfold try_catch. rewrite (bind_ok _ _ _ _ _ H). reflexivity. Qed.

Lemma keeps_listening_saveToken t : keeps listening (OAuthManager.saveToken t).
Proof.
  unfold OAuthManager.saveToken, OAuthManager.writeFile_tokenPath, update, emit.
  keeps_auto.
Qed.

Lemma authorize_try_closes cfg env st w :
  listening (after (OAuthManager.authorize_try cfg env st) w) = false.
Proof.
  unfold after, OAuthManager.authorize_try.
  pose proof (race_closes cfg env st w) as Hrace. unfold after in Hrace.
  destruct (OAuthManager.raceServerTimeout cfg env st w) as [[t | e] w1] eqn:Er;
    simpl in Hrace.
  - rewrite (try_bind_ok _ _ _ _ _ _ Er). rewrite <- Hrace.
    set (tail := try_catch _ _).
    assert (Hk : keeps listening tail).
    { subst tail. unfold OAuthManager.console_error.
      pose proof keeps_listening_saveToken.
      repeat first [ assumption | solve [auto] | keeps_step ]. }
    apply Hk.
  - rewrite (try_throw _ _ _ _ _ (bind_throw _ _ _ _ _ Er)). exact Hrace.
Qed.

(** C5.  After every run of [authorize()], whatever the way it ends (a
    successful callback, an [error] callback, a state mismatch, a malformed
    callback, the timeout, a failure to save), the listener on port 39897
    is closed.  When no callback arrives before the timers are due,
    [authorize()] fails with the timeout error of the listener, the clock
    then shows 300000 ms or more since the start, and the port is free. *)
Theorem listener_closed_on_every_exit cfg w :
  let run := OAuthManager.authorize cfg w in
  listening (snd run) = false
  /\ (match callback (nextLogin w) with
      | Some (dt, _) => (300000 <= dt)%N
      | None => True
      end ->
      fst run = Throw (NewError "登录超时（5 分钟）")
      /\ now (snd run) = now w + 300000 + Z.of_N (timerLag (nextLogin w))
      /\ now (snd run) >= now w + 300000
      /\ listening (snd run) = false).
Proof.
  intro run. subst run.
  destruct (authorize_prelude cfg w) as (w5 & E & _ & _ & Hnow & _).
  rewrite E.
  assert (Hclosed : listening (snd (OAuthManager.authorize_try cfg (nextLogin w)
                                      (nextState w) w5)) = false)
    by apply authorize_try_closes.
  split; [exact Hclosed |].
  intro Hlate.
  assert (Hcond : match callback (nextLogin w) with
                  | Some (dt, _) => (dt <? 300000)%N = false
                  | None => True
                  end).
  { destruct (callback (nextLogin w)) as [[dt req] |]; [| exact I].
    apply N.ltb_ge. exact Hlate. }
  assert (Hrun : OAuthManager.authorize_try cfg (nextLogin w) (nextState w) w5
                 = (Throw (NewError "登录超时（5 分钟）"),
                    after (log ERROR ["登录失败:"; "登录超时（5 分钟）"])
                          (after (OAuthManager.server_listen 39897 ;;
                                  sleep (300000 + Z.of_N (timerLag (nextLogin w))) ;;
                                  OAuthManager.server_close) w5))).
  { unfold OAuthManager.authorize_try.
    rewrite (try_throw _ _ _ _ _
               (bind_throw _ _ _ _ _ (race_timeout cfg _ (nextState w) w5 Hcond))).
    reflexivity. }
  rewrite Hrun in *. cbv [fst snd] in *.
  assert (Ht : now (after (log ERROR ["登录失败:"; "登录超时（5 分钟）"])
                          (after (OAuthManager.server_listen 39897 ;;
                                  sleep (300000 + Z.of_N (timerLag (nextLogin w))) ;;
                                  OAuthManager.server_close) w5))
               = now w5 + (300000 + Z.of_N (timerLag (nextLogin w))))
    by reflexivity.
  split; [reflexivity |].
  split; [rewrite Ht, Hnow; lia |].
  split; [rewrite Ht, Hnow; lia | exact Hclosed].
Qed.

(** A run without a callback: the timers fire on time. *)
Lemma listener_closed_witness :
  let run := OAuthManager.authorize Sample.config Sample.quiet in
  listening (snd run) = false
  /\ fst run = Throw (NewError "登录超时（5 分钟）")
  /\ now (snd run) = Sample.t0 + 300000 + 0
  /\ now (snd run) >= Sample.t0 + 300000.
Proof.
  destruct (listener_closed_on_every_exit Sample.config Sample.quiet) as [Hc Ht].
  destruct (Ht I) as (Hr & Hn & Hge & _).
  repeat split; assumption.
Defined.

(** ** The operations never log in by themselves *)

Ltac quiet_calls :=
  repeat first [ assumption | solve [auto] | keeps_step | solve [keeps_leaf] ].

Lemma keeps_calls_fetch url bearer fn data :
  keeps authorizeCalls (DemoxClient.fetch url bearer fn data).
Proof. unfold DemoxClient.fetch. quiet_calls. Qed.


Lemma keeps_calls_callFunction this name data tok :
  keeps authorizeCalls (DemoxClient.callFunction this name data tok).
Proof.
  unfold DemoxClient.callFunction, DemoxClient.response_json.
  pose proof keeps_calls_fetch.
  quiet_calls.
Qed.


Lemma keeps_calls_deleteWebsite this id tok :
  keeps authorizeCalls (DemoxClient.deleteWebsite this id tok).
Proof.
  unfold DemoxClient.deleteWebsite.
  pose proof keeps_calls_callFunction.
  quiet_calls.
Qed.







(** ** C3: one login and one retry after an authentication failure *)











(** ** C4: a failure of the retry *)


(** C4 on the code.  A [delete_website] call meets an expired session; the
    login is granted and saved; the retry fails with the backend's
    [NOT_FOUND].  The handler returns the text of a failed login, with the
    advice to log in by hand, and not the error as it hands over every
    other error of an operation. *)
Theorem failed_retry_is_reported_as_failed_login :
  let run := Server.callTool Sample.config Sample.toLocaleString
                             "delete_website" Sample.deleteSite
                             (Sample.expired Sample.notFound) in
  let e := NewError "[NOT_FOUND] website not found" in
  fst run = Ok (Server.autoLoginFailed e)
  /\ Server.autoLoginFailed e <> Server.errorResult e
  /\ List.length (tokenWrites (snd run)) = 1%nat
  /\ authorizeCalls (snd run) = 1%nat.
Proof.
  cbv zeta. repeat split; try (vm_compute; reflexivity).
  intro H. apply (f_equal text) in H. vm_compute in H. discriminate.
Qed.

(** ** C8: the input of a deploy *)

(** C8 on the code.  A directory named [dist] exists.  Given as [dist], the
    name decodes as base64 and encodes back to itself, and the deploy is
    refused as inline base64 content before the file system is looked at:
    nothing is archived, nothing is uploaded.  Given as [./dist], the same
    directory is archived and deployed. *)
Theorem directory_named_dist_is_rejected_as_base64 :
  let w := Sample.withDirectory "dist" in
  let run := DemoxClient.deployWebsite Sample.config Sample.client
               (Sample.deployOf "dist") "cached-token" w in
  let w' := Sample.withDirectory "./dist" in
  let run' := DemoxClient.deployWebsite Sample.config Sample.client
                (Sample.deployOf "./dist") "cached-token" w' in
  DemoxClient.lookup_path "dist" (paths w) = Some Sample.directory
  /\ DemoxClient.isBase64 "dist" = true
  /\ fst run = Throw (NewError "不支持直接传入 Base64 内容，请提供 ZIP 文件路径或 URL")
  /\ zips (snd run) = zips w
  /\ uploads (snd run) = uploads w
  /\ fst run'
     = Ok (JObj [("url", JStr "https://demox.site/w/site-1");
                 ("websiteId", JStr "site-1"); ("path", JStr "/w/site-1")])
  /\ zips (snd run') = [].
Proof. cbv zeta. repeat split; vm_compute; reflexivity. Qed.

(** ** C10: the list of websites *)

Lemma member_not_null v k : v <> JNull -> DemoxClient.member v k = ret (Js.get v k).
Proof. intro H. destruct v; try reflexivity. congruence. Qed.

(** C10, as stated, fails: the backend's error envelope is a response
    without a [files] field, and [listWebsites] answers it with an error;
    so it does a body that is the JSON value [null]. *)
Lemma listWebsites_fails_without_files :
  fst (DemoxClient.listWebsites Sample.client "cached-token"
         (Sample.answering (Sample.httpJson (Sample.envelope "UNAUTHORIZED" "Token expired"))))
  = Throw (NewError "[UNAUTHORIZED] Token expired")
  /\ Js.get (Sample.envelope "UNAUTHORIZED" "Token expired") "files" = None
  /\ fst (DemoxClient.listWebsites Sample.client "cached-token"
            (Sample.answering (Sample.httpJson JNull)))
     = Throw (NewError "Cannot read properties of null (reading 'files')").
Proof. repeat split; vm_compute; reflexivity. Qed.

(** C10, amended.  For every result that the backend call hands back to
    [listWebsites] (the body of an HTTP-ok response that parses and holds
    no [error]) and that is not [null]: [listWebsites] returns the [files]
    array of the result when there is one, and the empty list when the
    result has no [files] field; it does not fail. *)
Theorem listWebsites_files_or_empty this tok w result w1 :
  DemoxClient.callFunction this "deploy-website" (JObj [("action", JStr "list")]) tok
    (after (log DEBUG ["获取网站列表"]) w) = (Ok result, w1) ->
  result <> JNull ->
  (forall items, Js.get result "files" = Some (JArr items) ->
                 DemoxClient.listWebsites this tok w = (Ok (JArr items), w1))
  /\ (Js.get result "files" = None ->
      DemoxClient.listWebsites this tok w = (Ok (JArr []), w1)).
Proof.
  intros Hcall Hnn.
  assert (Hrun : DemoxClient.listWebsites this tok w
                 = (Ok (DemoxClient.or_else (Js.get result "files") (JArr [])), w1)).
  { unfold DemoxClient.listWebsites, log. rewrite bind_emit.
    rewrite (bind_ok _ _ _ _ _ Hcall), (member_not_null _ _ Hnn). reflexivity. }
  rewrite Hrun. split.
  - intros items Hf. rewrite Hf. reflexivity.
  - intro Hf. rewrite Hf. reflexivity.
Qed.

Lemma listWebsites_sample_call :
  DemoxClient.callFunction Sample.client "deploy-website"
    (JObj [("action", JStr "list")]) "cached-token"
    (after (log DEBUG ["获取网站列表"])
       (Sample.answering
          (Sample.httpJson (JObj [("files", JArr [Sample.site1]); ("count", JNum 1)]))))
  = (Ok (JObj [("files", JArr [Sample.site1]); ("count", JNum 1)]),
     snd (DemoxClient.listWebsites Sample.client "cached-token"
            (Sample.answering
               (Sample.httpJson (JObj [("files", JArr [Sample.site1]); ("count", JNum 1)]))))).
Proof. vm_compute; reflexivity. Qed.

(** A result with one site. *)
Lemma listWebsites_files_or_empty_witness :
  fst (DemoxClient.listWebsites Sample.client "cached-token"
         (Sample.answering
            (Sample.httpJson (JObj [("files", JArr [Sample.site1]); ("count", JNum 1)]))))
  = Ok (JArr [Sample.site1]).
Proof.
  destruct (listWebsites_files_or_empty Sample.client "cached-token" _ _ _
              listWebsites_sample_call) as [Hfiles _]; [discriminate |].
  rewrite (Hfiles [Sample.site1] eq_refl). reflexivity.
Defined.

(** * Further properties of the code *)

(** ** The login flow: the remaining ways a run ends *)

Lemma onRequest_accepted cfg st req w :
  truthy_str (q_error req) = false ->
  truthy_str (q_access_token req) = true ->
  q_state req = Some st -> st <> "" ->
  OAuthManager.onRequest cfg st req w
  = (Ok (Ok (grantedRecord cfg req (now w))),
     after (OAuthManager.respond 200 LoginSucceededPage ;; OAuthManager.server_close) w).
Proof.
  intros Herr Ha Hst Hne. apply String.eqb_neq in Hne.
  unfold OAuthManager.onRequest. rewrite Herr, Ha, Hst.
  cbv [truthy_str str_or]. rewrite Hne, String.eqb_refl. reflexivity.
Qed.

Lemma saveToken_ok t w :
  writeFault w = None ->
  OAuthManager.saveToken t w
  = (Ok tt,
     after (log DEBUG ["Token 已保存到本地"])
       (set_currentToken (Some t)
          (after (emit (EvWriteToken t)) (set_tokenFile (Readable (JsonRecord t)) w)))).
Proof.
  intro H. unfold OAuthManager.saveToken, OAuthManager.writeFile_tokenPath,
             try_catch, bind, update.
  rewrite H. reflexivity.
Qed.


(** A callback that the handler accepts: what [authorize] then does depends
    on the store only. *)
Lemma authorize_accepted cfg w env rest dt req :
  logins w = env :: rest ->
  callback env = Some (dt, req) ->
  (dt <? 300000)%N = true ->
  truthy_str (q_error req) = false ->
  truthy_str (q_access_token req) = true ->
  q_state req = Some (nextState w) -> nextState w <> "" ->
  exists w7,
    OAuthManager.authorize cfg w
    = try_catch
        (OAuthManager.saveToken (grantedRecord cfg req (now w + Z.of_N dt)) ;;
         log INFO ["✅ 登录成功！"] ;;
         OAuthManager.console_error ("Token 已保存到: " ++ cfg_tokenPath cfg ++ nl) ;;
         ret (accessToken (grantedRecord cfg req (now w + Z.of_N dt))))
        (fun error => log ERROR ["登录失败:"; message error] ;; throw error)
        w7
    /\ listening w7 = false
    /\ tokenFile w7 = tokenFile w
    /\ writeFault w7 = writeFault w
    /\ tokenWrites w7 = tokenWrites w
    /\ pagesSent w7 = (pagesSent w ++ [(200%N, LoginSucceededPage)])%list
    /\ now w7 = now w + Z.of_N dt.
Proof.
  intros Hl Hc Hdt Herr Ha Hst Hne.
  destruct (authorize_prelude cfg w) as (w5 & E & Htf & Hwf & Hnow & Hwr & Hpg).
  rewrite E. unfold nextLogin. rewrite Hl.
  unfold OAuthManager.authorize_try.
  set (w6 := after (OAuthManager.server_listen 39897 ;; sleep (Z.of_N dt)) w5).
  set (w7 := after (OAuthManager.respond 200 LoginSucceededPage ;;
                    OAuthManager.server_close) w6).
  destruct (listen_sleep_frame (Z.of_N dt) w5) as (S1 & S2 & S3 & S4 & S5).
  fold w6 in S1, S2, S3, S4, S5.
  destruct (respond_close_frame 200 LoginSucceededPage w6)
    as (R1 & R2 & R3 & R4 & R5 & R6).
  fold w7 in R1, R2, R3, R4, R5, R6.
  assert (Hrace : OAuthManager.raceServerTimeout cfg env (nextState w) w5
                  = (Ok (grantedRecord cfg req (now w + Z.of_N dt)), w7)).
  { rewrite (race_request _ _ _ _ _ _ Hc Hdt). fold w6.
    rewrite (bind_ok _ _ _ _ _ (onRequest_accepted cfg _ req w6 Herr Ha Hst Hne)).
    fold w7. rewrite S3, Hnow. reflexivity. }
  exists w7. split; [exact (try_bind_ok _ _ _ _ _ _ Hrace) |].
  repeat split; congruence.
Qed.

(** What a granted login leaves behind. *)
Lemma authorize_granted_facts cfg w env rest dt req :
  logins w = env :: rest ->
  callback env = Some (dt, req) ->
  (dt < 300000)%N ->
  truthy_str (q_error req) = false ->
  truthy_str (q_access_token req) = true ->
  q_state req = Some (nextState w) -> nextState w <> "" ->
  writeFault w = None ->
  let run := OAuthManager.authorize cfg w in
  let t := grantedRecord cfg req (now w + Z.of_N dt) in
  fst run = Ok (accessToken t)
  /\ tokenFile (snd run) = Readable (JsonRecord t)
  /\ currentToken (snd run) = Some t
  /\ tokenWrites (snd run) = (tokenWrites w ++ [t])%list
  /\ pagesSent (snd run) = (pagesSent w ++ [(200%N, LoginSucceededPage)])%list
  /\ listening (snd run) = false.
Proof.
  intros Hl Hc Hdt Herr Ha Hst Hne Hwf run t. subst run.
  apply N.ltb_lt in Hdt.
  destruct (authorize_accepted cfg w env rest dt req Hl Hc Hdt Herr Ha Hst Hne)
    as (w7 & E & Hli & Htf & Hw & Hwr & Hpg & Hn7).
  rewrite E. fold t.
  assert (Hw7 : writeFault w7 = None) by congruence.
  unfold try_catch. rewrite (bind_ok _ _ _ _ _ (saveToken_ok t w7 Hw7)).
  unfold tokenWrites, pagesSent in *.
  unfold OAuthManager.console_error, log, bind, emit, ret, after; simpl.
  rewrite !writesOf_app, !pagesOf_app, Hwr, Hpg; simpl. rewrite !app_nil_r.
  repeat split; try reflexivity. exact Hli.
Qed.

(** X1.  A callback without [error], with an access token and the state of
    this attempt, arriving before the timers are due, with a store that
    accepts the write: [authorize] returns the callback's access token; the
    token file then holds the synthesized record, which is also the
    manager's current token; the record was written once; the browser got
    the success page; the listener is closed. *)
Theorem authorize_granted cfg w env rest dt req :
  logins w = env :: rest ->
  callback env = Some (dt, req) ->
  (dt < 300000)%N ->
  truthy_str (q_error req) = false ->
  truthy_str (q_access_token req) = true ->
  q_state req = Some (nextState w) -> nextState w <> "" ->
  writeFault w = None ->
  let run := OAuthManager.authorize cfg w in
  let t := grantedRecord cfg req (now w + Z.of_N dt) in
  fst run = Ok (accessToken t)
  /\ tokenFile (snd run) = Readable (JsonRecord t)
  /\ currentToken (snd run) = Some t
  /\ tokenWrites (snd run) = (tokenWrites w ++ [t])%list
  /\ pagesSent (snd run) = (pagesSent w ++ [(200%N, LoginSucceededPage)])%list
  /\ listening (snd run) = false.
Proof.
  exact (authorize_granted_facts cfg w env rest dt req).
Qed.


Lemma sample_state_ii w : nextState (set_randoms Sample.halves w) = "ii".
Proof.
  rewrite (nextState_ext _ (set_randoms Sample.halves Sample.quiet)) by reflexivity.
  vm_compute. reflexivity.
Qed.

(** The granted login of the samples, on an empty store. *)
Lemma authorize_granted_witness :
  let w := Sample.loginWith Sample.granted Sample.quiet in
  let run := OAuthManager.authorize Sample.config w in
  let t := grantedRecord Sample.config Sample.granted (now w + Z.of_N 4000) in
  fst run = Ok (accessToken t)
  /\ tokenFile (snd run) = Readable (JsonRecord t)
  /\ currentToken (snd run) = Some t
  /\ tokenWrites (snd run) = (tokenWrites w ++ [t])%list
  /\ pagesSent (snd run) = (pagesSent w ++ [(200%N, LoginSucceededPage)])%list
  /\ listening (snd run) = false.
Proof.
  apply (authorize_granted Sample.config
           (Sample.loginWith Sample.granted Sample.quiet)
           Sample.grantedLogin [] 4000%N Sample.granted).
  - reflexivity.
  - reflexivity.
  - reflexivity.
  - reflexivity.
  - reflexivity.
  - unfold Sample.loginWith. rewrite (nextState_ext _ (set_randoms Sample.halves Sample.quiet))
      by reflexivity.
    rewrite sample_state_ii. reflexivity.
  - unfold Sample.loginWith. rewrite (nextState_ext _ (set_randoms Sample.halves Sample.quiet))
      by reflexivity.
    rewrite sample_state_ii. discriminate.
  - reflexivity.
Defined.


Lemma onRequest_rejects cfg st req :
  (truthy_str (q_error req) = true ->
   forall w1, OAuthManager.onRequest cfg st req w1
              = (Ok (Throw (NewError ("OAuth 授权失败: " ++ str_or (q_error req) ""))),
                 after (OAuthManager.respond 200
                          (LoginCancelledPage (str_or (q_error req) "")) ;;
                        OAuthManager.server_close) w1))
  /\ (truthy_str (q_error req) = false ->
      truthy_str (q_access_token req) && truthy_str (q_state req) = false ->
      forall w1, OAuthManager.onRequest cfg st req w1
                 = (Ok (Throw (NewError "缺少必要的 OAuth 参数")),
                    after (OAuthManager.respond 400 (PlainText "缺少必要的参数") ;;
                           OAuthManager.server_close) w1)).
Proof.
  split.
  - intros Herr w1. unfold OAuthManager.onRequest. rewrite Herr. reflexivity.
  - intros Herr Hmiss w1. unfold OAuthManager.onRequest. rewrite Herr, Hmiss.
    reflexivity.
Qed.

(** X3.  A callback with neither [error] nor both of [access_token] and
    [state] ends the login at once: [authorize] fails with the
    missing-parameters error at the time of the callback, well before the
    five minutes are over; the browser gets the 400 text; nothing is
    saved; the listener is closed. *)
Theorem authorize_missing_parameters cfg w env rest dt req :
  logins w = env :: rest ->
  callback env = Some (dt, req) ->
  (dt < 300000)%N ->
  truthy_str (q_error req) = false ->
  truthy_str (q_access_token req) && truthy_str (q_state req) = false ->
  let run := OAuthManager.authorize cfg w in
  fst run = Throw (NewError "缺少必要的 OAuth 参数")
  /\ now (snd run) = now w + Z.of_N dt
  /\ now (snd run) < now w + 300000
  /\ tokenFile (snd run) = tokenFile w
  /\ tokenWrites (snd run) = tokenWrites w
  /\ pagesSent (snd run) = (pagesSent w ++ [(400%N, PlainText "缺少必要的参数")])%list
  /\ listening (snd run) = false.
Proof.
  intros Hl Hc Hdt Herr Hmiss run.
  destruct (onRequest_rejects cfg (nextState w) req) as [_ Hrej].
  pose proof (proj2 (N.ltb_lt _ _) Hdt) as Hdt'.
  destruct (authorize_rejected cfg w env rest dt req _ _ _ Hl Hc Hdt'
              (Hrej Herr Hmiss)) as (R & Htf & Hwr & Hpg & Hli & Hnow).
  fold run in R, Htf, Hwr, Hpg, Hli, Hnow.
  repeat split; try assumption. rewrite Hnow. lia.
Qed.

(** X4.  An [error] parameter decides the callback whatever else it
    carries, a token and the right state included: [authorize] fails with
    the authorization error that quotes the parameter; the browser gets the
    page of a cancelled login with the same text; nothing is saved; the
    listener is closed. *)
Theorem authorize_error_callback cfg w env rest dt req :
  logins w = env :: rest ->
  callback env = Some (dt, req) ->
  (dt < 300000)%N ->
  truthy_str (q_error req) = true ->
  let run := OAuthManager.authorize cfg w in
  let reason := str_or (q_error req) "" in
  fst run = Throw (NewError ("OAuth 授权失败: " ++ reason))
  /\ tokenFile (snd run) = tokenFile w
  /\ tokenWrites (snd run) = tokenWrites w
  /\ pagesSent (snd run) = (pagesSent w ++ [(200%N, LoginCancelledPage reason)])%list
  /\ listening (snd run) = false.
Proof.
  intros Hl Hc Hdt Herr run reason.
  destruct (onRequest_rejects cfg (nextState w) req) as [Hrej _].
  pose proof (proj2 (N.ltb_lt _ _) Hdt) as Hdt'.
  destruct (authorize_rejected cfg w env rest dt req _ _ _ Hl Hc Hdt' (Hrej Herr))
    as (R & Htf & Hwr & Hpg & Hli & _).
  fold run in R, Htf, Hwr, Hpg, Hli.
  repeat split; assumption.
Qed.

(** A request without parameters, four seconds into the login. *)
Lemma authorize_missing_parameters_witness :
  let w := Sample.loginWith Sample.bare Sample.quiet in
  let run := OAuthManager.authorize Sample.config w in
  fst run = Throw (NewError "缺少必要的 OAuth 参数")
  /\ now (snd run) = now w + Z.of_N 4000
  /\ now (snd run) < now w + 300000
  /\ tokenFile (snd run) = tokenFile w
  /\ tokenWrites (snd run) = tokenWrites w
  /\ pagesSent (snd run) = (pagesSent w ++ [(400%N, PlainText "缺少必要的参数")])%list
  /\ listening (snd run) = false.
Proof.
  apply (authorize_missing_parameters Sample.config
           (Sample.loginWith Sample.bare Sample.quiet)
           (Sample.loginOf Sample.bare) [] 4000%N Sample.bare);
    reflexivity.
Defined.

(** A callback with a token, the right state and an [error]. *)
Lemma authorize_error_callback_witness :
  let w := Sample.loginWith Sample.grantedWithError Sample.quiet in
  let run := OAuthManager.authorize Sample.config w in
  let reason := str_or (q_error Sample.grantedWithError) "" in
  fst run = Throw (NewError ("OAuth 授权失败: " ++ reason))
  /\ tokenFile (snd run) = tokenFile w
  /\ tokenWrites (snd run) = tokenWrites w
  /\ pagesSent (snd run) = (pagesSent w ++ [(200%N, LoginCancelledPage reason)])%list
  /\ listening (snd run) = false.
Proof.
  apply (authorize_error_callback Sample.config
           (Sample.loginWith Sample.grantedWithError Sample.quiet)
           (Sample.loginOf Sample.grantedWithError) [] 4000%N Sample.grantedWithError);
    reflexivity.
Defined.

(** X5.  The timer of [createTimeout] never decides the race: whatever the
    outside does, the race does not fail with its error.  A login that runs
    out of time fails with the error of the listener's own timer. *)
Theorem createTimeout_never_wins cfg env st w :
  fst (OAuthManager.raceServerTimeout cfg env st w) <> Throw (NewError "操作超时").
Proof.
  destruct (callback env) as [[dt req] |] eqn:Hc.
  - destruct (dt <? 300000)%N eqn:Hdt.
    + rewrite (race_request _ _ _ _ _ _ Hc Hdt).
      set (w1 := after _ w).
      unfold OAuthManager.onRequest.
      destruct (truthy_str (q_error req));
        [| destruct (truthy_str (q_access_token req) && truthy_str (q_state req));
           [destruct (negb _) |]];
        unfold bind, OAuthManager.respond, OAuthManager.server_close, update, emit,
          Date_now, ret, OAuthManager.await, throw; simpl; discriminate.
    + rewrite race_timeout by (rewrite Hc; exact Hdt). simpl. discriminate.
  - rewrite race_timeout by (rewrite Hc; exact I). simpl. discriminate.
Qed.

(** ** The cached credential *)

(** X6.  When [ensureAuthenticated] reuses the stored record it makes it
    the manager's current token, and it warns that the token runs out
    exactly when fewer than four days are left ([Math.floor] of the days
    left is at most 3); the warning names the whole days left. *)
Theorem ensureAuthenticated_warns_under_four_days cfg w t w1 :
  OAuthManager.loadToken cfg w = (Ok (Some t), w1) ->
  expiresAt t - now w > 5 * 60 * 1000 ->
  let run := OAuthManager.ensureAuthenticated cfg w in
  let left := expiresAt t - now w in
  currentToken (snd run) = Some t
  /\ (left < 4 * 86400000 ->
      events (snd run)
      = (events w1
         ++ [EvLog DEBUG ["使用本地缓存的 Token"];
             EvLog WARN [("Token 将在 " ++ JsString.of_Z (left / 86400000)
                          ++ " 天后过期，建议重新登录")%string]])%list)
  /\ (left >= 4 * 86400000 ->
      events (snd run) = (events w1 ++ [EvLog DEBUG ["使用本地缓存的 Token"]])%list).
Proof.
  intros Hload Hfresh run left. subst run.
  assert (Hnow : now w1 = now w).
  { rewrite <- (after_of _ _ _ _ Hload). apply loadToken_now. }
  assert (Hcmp : (now w1 >=? expiresAt t - 5 * 60 * 1000) = false).
  { rewrite Hnow, Z.geb_leb. apply Z.leb_gt. lia. }
  unfold OAuthManager.ensureAuthenticated.
  rewrite (bind_ok _ _ _ _ _ Hload).
  rewrite (bind_ok _ _ _ _ _ (isTokenExpired_eq t w1)), Hcmp.
  cbv [negb].
  unfold bind, update, log, emit, Date_now, ret; cbn [fst snd now set_currentToken
    set_events events currentToken].
  rewrite Hnow. fold left.
  change (1000 * 60 * 60 * 24) with 86400000.
  pose proof (Z.div_mod left 86400000 ltac:(lia)) as Hdm.
  pose proof (Z.mod_pos_bound left 86400000 ltac:(lia)) as Hmb.
  destruct (left / 86400000 <=? 3) eqn:E; cbn [fst snd events set_events currentToken].
  - apply Z.leb_le in E. split; [reflexivity |]. split.
    + intros _. rewrite <- app_assoc. reflexivity.
    + intro H. exfalso. lia.
  - apply Z.leb_gt in E. split; [reflexivity |]. split.
    + intro H. exfalso. lia.
    + intros _. reflexivity.
Qed.

(** A record with two days and a second to go. *)
Lemma ensureAuthenticated_warns_witness :
  let w := Sample.withRecordOfTwoDays in
  let t := Sample.record (Sample.t0 + 2 * Sample.day + 1000) in
  let run := OAuthManager.ensureAuthenticated Sample.config w in
  let left := expiresAt t - now w in
  currentToken (snd run) = Some t
  /\ (left < 4 * 86400000 ->
      events (snd run)
      = (events (after (OAuthManager.loadToken Sample.config) w)
         ++ [EvLog DEBUG ["使用本地缓存的 Token"];
             EvLog WARN [("Token 将在 " ++ JsString.of_Z (left / 86400000)
                          ++ " 天后过期，建议重新登录")%string]])%list)
  /\ (left >= 4 * 86400000 ->
      events (snd run)
      = (events (after (OAuthManager.loadToken Sample.config) w)
         ++ [EvLog DEBUG ["使用本地缓存的 Token"]])%list).
Proof.
  apply (ensureAuthenticated_warns_under_four_days Sample.config
           Sample.withRecordOfTwoDays
           (Sample.record (Sample.t0 + 2 * Sample.day + 1000))
           (after (OAuthManager.loadToken Sample.config) Sample.withRecordOfTwoDays)).
  - reflexivity.
  - reflexivity.
Defined.

(** X7.  A granted login is good for thirty days less five minutes: once
    [authorize] has saved the record of a callback, every later
    [ensureAuthenticated] that finds the file as it was written, at a time
    less than thirty days minus five minutes after the callback, returns
    the access token of that callback and starts no login. *)
Theorem login_then_reuse cfg w env rest dt req w' :
  logins w = env :: rest ->
  callback env = Some (dt, req) ->
  (dt < 300000)%N ->
  truthy_str (q_error req) = false ->
  truthy_str (q_access_token req) = true ->
  q_state req = Some (nextState w) -> nextState w <> "" ->
  writeFault w = None ->
  tokenFile w' = tokenFile (after (OAuthManager.authorize cfg) w) ->
  now w' - (now w + Z.of_N dt) < 30 * 24 * 60 * 60 * 1000 - 5 * 60 * 1000 ->
  fst (OAuthManager.authorize cfg w) = Ok (str_or (q_access_token req) "")
  /\ fst (OAuthManager.ensureAuthenticated cfg w') = Ok (str_or (q_access_token req) "")
  /\ authorizeCalls (after (OAuthManager.ensureAuthenticated cfg) w') = authorizeCalls w'.
Proof.
  intros Hl Hc Hdt Herr Ha Hst Hne Hwf Hfile Htime.
  destruct (authorize_granted_facts cfg w env rest dt req Hl Hc Hdt Herr Ha Hst Hne Hwf)
    as (Hres & Htf & _).
  split; [exact Hres |].
  unfold after in Hfile. rewrite Htf in Hfile.
  assert (Hload : OAuthManager.loadToken cfg w'
                  = (Ok (Some (grantedRecord cfg req (now w + Z.of_N dt))),
                     after (log DEBUG ["成功加载本地 Token"]) w')).
  { rewrite loadToken_eq, Hfile. reflexivity. }
  apply (ensureAuthenticated_fresh cfg w' _ _ Hload).
  simpl expiresAt. lia.
Qed.

Lemma tokenFile_set_now v w : tokenFile (set_now v w) = tokenFile w.
Proof. reflexivity. Qed.

(** The granted login of the samples, looked at again twenty-nine days
    later. *)
Lemma login_then_reuse_witness :
  let w := Sample.loginWith Sample.granted Sample.quiet in
  let w' := set_now (Sample.t0 + 29 * Sample.day)
                    (after (OAuthManager.authorize Sample.config) w) in
  fst (OAuthManager.authorize Sample.config w) = Ok (str_or (q_access_token Sample.granted) "")
  /\ fst (OAuthManager.ensureAuthenticated Sample.config w')
     = Ok (str_or (q_access_token Sample.granted) "")
  /\ authorizeCalls (after (OAuthManager.ensureAuthenticated Sample.config) w')
     = authorizeCalls w'.
Proof.
  apply (login_then_reuse Sample.config
           (Sample.loginWith Sample.granted Sample.quiet)
           Sample.grantedLogin [] 4000%N Sample.granted
           (set_now (Sample.t0 + 29 * Sample.day)
              (after (OAuthManager.authorize Sample.config)
                     (Sample.loginWith Sample.granted Sample.quiet)))).
  - reflexivity.
  - reflexivity.
  - reflexivity.
  - reflexivity.
  - reflexivity.
  - rewrite (nextState_ext _ (set_randoms Sample.halves Sample.quiet)) by reflexivity.
    rewrite sample_state_ii. reflexivity.
  - rewrite (nextState_ext _ (set_randoms Sample.halves Sample.quiet)) by reflexivity.
    rewrite sample_state_ii. discriminate.
  - reflexivity.
  - apply tokenFile_set_now.
  - vm_compute. reflexivity.
Defined.

(** X8.  [revokeToken] by what it finds.  Without a token file it does
    nothing to the file system and succeeds, even when deletion would
    fail; with a file that can be deleted it deletes it; in both cases the
    current token is forgotten and the next [ensureAuthenticated] logs in.
    With a file that cannot be deleted it fails with the error of the
    deletion and keeps both the file and the current token. *)
Theorem revokeToken_by_cases cfg w :
  let run := OAuthManager.revokeToken w in
  match tokenFile w, unlinkFault w with
  | NoFile, _ =>
    fst run = Ok tt /\ events (snd run) = events w
    /\ tokenFile (snd run) = NoFile /\ currentToken (snd run) = None
    /\ authorizeCalls (after (OAuthManager.ensureAuthenticated cfg) (snd run))
       = S (authorizeCalls w)
  | _, None =>
    fst run = Ok tt
    /\ tokenFile (snd run) = NoFile /\ currentToken (snd run) = None
    /\ authorizeCalls (after (OAuthManager.ensureAuthenticated cfg) (snd run))
       = S (authorizeCalls w)
  | _, Some e =>
    fst run = Throw e
    /\ tokenFile (snd run) = tokenFile w /\ currentToken (snd run) = currentToken w
  end.
Proof.
  intro run.
  assert (Hlogin : forall w0, tokenFile w0 = NoFile ->
            authorizeCalls (after (OAuthManager.ensureAuthenticated cfg) w0)
            = S (authorizeCalls w0)).
  { intros w0 H0.
    assert (Hload : OAuthManager.loadToken cfg w0 = (Ok None, w0))
      by (rewrite loadToken_eq, H0; reflexivity).
    unfold after. rewrite (ensureAuthenticated_absent _ _ _ Hload).
    exact (login_after_load_calls _ _ _ _ Hload). }
  subst run.
  unfold OAuthManager.revokeToken, OAuthManager.existsSync_tokenPath,
    OAuthManager.unlink_tokenPath, try_catch, bind, update.
  destruct (tokenFile w) as [| io | c] eqn:Etf.
  - cbn [negb fst snd]. simpl.
    assert (Hw : tokenFile (set_currentToken None w) = NoFile) by exact Etf.
    repeat split; try assumption. rewrite (Hlogin _ Hw). reflexivity.
  - destruct (unlinkFault w) as [e |] eqn:Eu; simpl.
    + repeat split; assumption.
    + repeat split. rewrite Hlogin by reflexivity.
      unfold authorizeCalls; simpl. rewrite !filter_app, !length_app; simpl. lia.
  - destruct (unlinkFault w) as [e |] eqn:Eu; simpl.
    + repeat split; assumption.
    + repeat split. rewrite Hlogin by reflexivity.
      unfold authorizeCalls; simpl. rewrite !filter_app, !length_app; simpl. lia.
Qed.

(** ** The backend call *)

Lemma truthy_error_field d :
  Js.truthy (Some d) && Js.truthy (Js.get d "error") = Js.truthy (Js.get d "error").
Proof. destruct d as [| [|] | n | s | l | l]; try reflexivity; simpl.
  - destruct (n =? 0); reflexivity.
  - destruct (String.eqb s ""); reflexivity.
Qed.

(** X9.  One backend call by the reply it gets: it sends one request, with
    the access token it was given as bearer, and consumes one reply.  A
    reply that is not ok fails with [HTTP <status>: <body>]; an ok reply
    whose body does not parse fails with the parser's error; a body with a
    truthy [error] fails with [[code] message], followed by the suggestion
    when there is one; every other body is returned as it is. *)
Theorem callFunction_by_reply this name data tok w r rest :
  replies w = FetchResponds r :: rest ->
  let run := DemoxClient.callFunction this name data tok w in
  replies (snd run) = rest
  /\ In (EvFetch (cloudFunctionUrl this) (Some tok) (Some name) data) (events (snd run))
  /\ fst run
     = if negb (ok r)
       then Throw (NewError ("HTTP " ++ JsString.of_N (status r) ++ ": " ++ bodyText r))
       else match bodyJson r with
            | Throw e => Throw e
            | Ok d =>
              if Js.truthy (Js.get d "error")
              then Throw (NewError (envelopeText (Js.get d "error")))
              else Ok d
            end.
Proof.
  intros Hr run. subst run.
  unfold DemoxClient.callFunction, DemoxClient.fetch, DemoxClient.response_json,
    try_catch, bind, log, emit, ret, throw.
  cbn [fst snd replies set_events events]. rewrite Hr.
  cbn [fst snd replies set_replies set_events events].
  assert (Hin : forall tail,
             In (EvFetch (cloudFunctionUrl this) (Some tok) (Some name) data)
                ((((events w ++ [EvLog DEBUG [("调用云函数: " ++ name)%string]])
                   ++ [EvLog DEBUG [("API URL: " ++ cloudFunctionUrl this)%string]])
                  ++ [EvFetch (cloudFunctionUrl this) (Some tok) (Some name) data])
                 ++ tail)%list).
  { intro tail. rewrite !in_app_iff. simpl. tauto. }
  destruct (ok r); cbv [negb]; cbn [fst snd replies set_replies set_events events].
  - destruct (bodyJson r) as [d | e];
      cbn [fst snd replies set_replies set_events events].
    + rewrite truthy_error_field.
      destruct (Js.truthy (Js.get d "error"));
        cbn [fst snd replies set_replies set_events events].
      * split; [reflexivity |]. split; [apply Hin | reflexivity].
      * split; [reflexivity |]. split; [| reflexivity].
        rewrite <- (app_nil_r (_ ++ [EvFetch _ _ _ _])). apply Hin.
    + split; [reflexivity |]. split; [apply Hin | reflexivity].
  - split; [reflexivity |]. split; [apply Hin | reflexivity].
Qed.

(** An error envelope with a suggestion. *)
Lemma callFunction_by_reply_witness :
  let w := Sample.answering (FetchResponds Sample.quotaReply) in
  let run := DemoxClient.callFunction Sample.client "deploy-website"
               (JObj [("action", JStr "list")]) "cached-token" w in
  replies (snd run) = []
  /\ In (EvFetch "https://api.demox.site/mcp-api" (Some "cached-token")
                 (Some "deploy-website") (JObj [("action", JStr "list")]))
        (events (snd run))
  /\ fst run
     = Throw (NewError ("[QUOTA_EXCEEDED] too many websites" ++ nl
                        ++ "建议：delete one first")).
Proof.
  exact (callFunction_by_reply Sample.client "deploy-website"
           (JObj [("action", JStr "list")]) "cached-token"
           (Sample.answering (FetchResponds Sample.quotaReply))
           Sample.quotaReply [] eq_refl).
Defined.

(** ** The test for an authentication failure *)

Lemma prefix_append (m post : string) : String.prefix m (m ++ post) = true.
Proof.
  induction m as [| c m IH]; simpl; [destruct post; reflexivity |].
  destruct (ascii_dec c c) as [_ | H]; [exact IH | congruence].
Qed.

Lemma prefix_split (a s : string) :
  String.prefix a s = true -> exists post, s = a ++ post.
Proof.
  revert s. induction a as [| c a IH]; intros s H.
  - exists s. reflexivity.
  - destruct s as [| c' s]; simpl in H; [discriminate |].
    destruct (ascii_dec c c') as [-> | _]; [| discriminate].
    destruct (IH s H) as [post ->]. exists post. reflexivity.
Qed.

Lemma includes_unfold (s sub : string) :
  JsString.includes s sub
  = (String.prefix sub s
     || match s with
        | EmptyString => false
        | String _ t => JsString.includes t sub
        end).
Proof. destruct s; reflexivity. Qed.

Lemma includes_prefix (s sub : string) :
  String.prefix sub s = true -> JsString.includes s sub = true.
Proof. intro H. rewrite includes_unfold, H. reflexivity. Qed.

Lemma includes_append (pre s sub : string) :
  JsString.includes s sub = true -> JsString.includes (pre ++ s) sub = true.
Proof.
  intro H. induction pre as [| c pre IH]; [exact H |].
  rewrite includes_unfold. cbn [String.append]. rewrite IH. apply orb_true_r.
Qed.

Lemma includes_split (s sub : string) :
  JsString.includes s sub = true -> exists pre post, s = pre ++ sub ++ post.
Proof.
  induction s as [| c s IH]; rewrite includes_unfold; intro H.
  - rewrite orb_false_r in H. destruct (prefix_split _ _ H) as [post E].
    exists "", post. exact E.
  - apply orb_true_iff in H as [H | H].
    + destruct (prefix_split _ _ H) as [post E]. exists "", post. exact E.
    + destruct (IH H) as (pre & post & ->). exists (String c pre), post. reflexivity.
Qed.

Lemma includes_iff (s sub : string) :
  JsString.includes s sub = true <-> exists pre post, s = pre ++ sub ++ post.
Proof.
  split; [apply includes_split |].
  intros (pre & post & ->). apply includes_append, includes_prefix, prefix_append.
Qed.

(** X10.  The handler takes an error for an authentication failure exactly
    when its message contains one of the five markers, at any place and
    whatever surrounds it. *)
Theorem isAuthError_iff_marker_anywhere (e : JsError) :
  Server.isAuthError e = true
  <-> exists marker pre post,
        In marker ["Token"; "认证"; "登录"; "UNAUTHORIZED"; "401"]
        /\ message e = pre ++ marker ++ post.
Proof.
  unfold Server.isAuthError. rewrite !orb_true_iff, !includes_iff. split.
  - intros [[[[H | H] | H] | H] | H]; destruct H as (pre & post & E);
      eexists; exists pre, post; (split; [| exact E]); simpl; tauto.
  - intros (marker & pre & post & Hin & E). simpl in Hin.
    destruct Hin as [<- | [<- | [<- | [<- | [<- | []]]]]]; eauto 10.
Qed.

(** ** A tool call that has to log in *)







(** ** Deploy: how the input is resolved *)

Lemma bind_assoc {A B C} (m : M A) (f : A -> M B) (g : B -> M C) w :
  bind (bind m f) g w = bind m (fun x => bind (f x) g) w.
Proof. unfold bind. destruct (m w) as [[a | e] w1]; reflexivity. Qed.

Lemma after_two_logs l1 l2 a1 a2 w :
  after (log l1 a1 ;; log l2 a2) w
  = after (emit (EvLog l2 a2)) (after (emit (EvLog l1 a1)) w).
Proof. reflexivity. Qed.


(** X12.  A URL that does not end in [.zip] (in any letter case) is refused
    before anything else happens: no request is sent, nothing is read from
    the file system; the only trace is the first log line. *)
Theorem deploy_refuses_url_without_zip_suffix cfg this params tok w :
  JsString.startsWith (zipFile params) "http://"
  || JsString.startsWith (zipFile params) "https://" = true ->
  JsString.endsWith (JsString.toLowerCase (zipFile params)) ".zip" = false ->
  DemoxClient.deployWebsite cfg this params tok w
  = (Throw (NewError "只支持 ZIP 文件，URL 必须以 .zip 结尾"),
     after (log INFO ["正在部署网站: " ++ fileName params]) w).
Proof.
  intros Hurl Hzip. unfold DemoxClient.deployWebsite, log at 1.
  rewrite bind_emit, Hurl, Hzip. reflexivity.
Qed.

Lemma deploy_refuses_url_witness :
  DemoxClient.deployWebsite Sample.config Sample.client
    (Sample.deployOf "https://example.com/site.tar.gz") "cached-token" Sample.quiet
  = (Throw (NewError "只支持 ZIP 文件，URL 必须以 .zip 结尾"),
     after (log INFO ["正在部署网站: " ++ "site"]) Sample.quiet).
Proof.
  exact (deploy_refuses_url_without_zip_suffix Sample.config Sample.client
           (Sample.deployOf "https://example.com/site.tar.gz") "cached-token"
           Sample.quiet eq_refl eq_refl).
Defined.

(** X13.  A local path that does not resolve fails before any archive,
    upload or backend call, with the world changed by two log lines only:
    a path that does not exist fails with the path-not-found error, and an
    existing file that is neither a directory nor named [*.zip] fails with
    the unsupported-type error. *)
Theorem deploy_local_path_failures cfg this params tok w :
  isUrl (zipFile params) = false ->
  takenForBase64 (zipFile params) = false ->
  let run := DemoxClient.deployWebsite cfg this params tok w in
  let w' := after (log INFO ["正在部署网站: " ++ fileName params] ;;
                   log DEBUG ["检测到本地路径: " ++ zipFile params]) w in
  match DemoxClient.lookup_path (zipFile params) (paths w) with
  | None => run = (Throw (NewError ("路径不存在: " ++ zipFile params)), w')
  | Some st =>
    isDirectory st = false ->
    JsString.endsWith (JsString.toLowerCase (zipFile params)) ".zip" = false ->
    run = (Throw (NewError "不支持的文件类型，仅支持 .zip 文件或目录"), w')
  end.
Proof.
  intros Hurl Hb64 run w'. subst run w'.
  unfold isUrl, takenForBase64 in *.
  rewrite (after_two_logs INFO DEBUG).
  set (w2 := after (emit (EvLog DEBUG ["检测到本地路径: " ++ zipFile params]))
               (after (emit (EvLog INFO ["正在部署网站: " ++ fileName params])) w)).
  assert (Hp : paths w2 = paths w) by reflexivity.
  assert (Hrun : DemoxClient.deployWebsite cfg this params tok w
                 = bind (DemoxClient.getPathStat (zipFile params))
                     (fun stat =>
                        bind (if isDirectory stat then
                                log DEBUG ["检测到目录: " ++ zipFile params
                                           ++ "，正在打包..."] ;;
                                DemoxClient.zipDirectoryToFile cfg (zipFile params)
                              else if JsString.endsWith
                                        (JsString.toLowerCase (zipFile params)) ".zip"
                                   then ret (zipFile params)
                                   else throw (NewError
                                          "不支持的文件类型，仅支持 .zip 文件或目录"))
                             (deploy_resolved this params tok)) w2).
  { unfold DemoxClient.deployWebsite, log at 1.
    rewrite bind_emit, Hurl, Hb64.
    rewrite !bind_assoc. unfold log at 1. rewrite bind_emit, bind_assoc.
    reflexivity. }
  rewrite Hrun. clear Hrun.
  destruct (DemoxClient.lookup_path (zipFile params) (paths w)) as [st |] eqn:E.
  - intros Hdir Hzip.
    assert (Hs : DemoxClient.getPathStat (zipFile params) w2 = (Ok st, w2)).
    { unfold DemoxClient.getPathStat. rewrite Hp, E. reflexivity. }
    rewrite (bind_ok _ _ _ _ _ Hs), Hdir, Hzip. reflexivity.
  - assert (Hs : DemoxClient.getPathStat (zipFile params) w2
                 = (Throw (NewError ("路径不存在: " ++ zipFile params)), w2)).
    { unfold DemoxClient.getPathStat. rewrite Hp, E. reflexivity. }
    rewrite (bind_throw _ _ _ _ _ Hs). reflexivity.
Qed.

Lemma callFunction_ok this name data tok w r rest d :
  replies w = FetchResponds r :: rest -> ok r = true -> bodyJson r = Ok d ->
  Js.truthy (Js.get d "error") = false ->
  DemoxClient.callFunction this name data tok w
  = (Ok d,
     set_replies rest
       (set_events (events w ++ [EvLog DEBUG [("调用云函数: " ++ name)%string];
                                 EvLog DEBUG [("API URL: " ++ cloudFunctionUrl this)%string];
                                 EvFetch (cloudFunctionUrl this) (Some tok)
                                         (Some name) data])%list w)).
Proof.
  intros Hr Hok Hb He.
  unfold DemoxClient.callFunction, DemoxClient.fetch, DemoxClient.response_json,
    try_catch, bind, log, emit, ret, throw.
  cbn [fst snd replies set_events events]. rewrite Hr.
  cbn [fst snd replies set_replies set_events events].
  rewrite Hok. cbv [negb]. rewrite Hb, truthy_error_field, He.
  rewrite <- !app_assoc. destruct w; reflexivity.
Qed.

Lemma getFileSize_found p w st :
  DemoxClient.lookup_path p (paths w) = Some st ->
  DemoxClient.getFileSize p w = (Ok (size st), w).
Proof.
  intro H. unfold DemoxClient.getFileSize, DemoxClient.getPathStat, bind, ret.
  rewrite H. reflexivity.
Qed.

Lemma deploy_resolved_oversized this params tok p w st :
  String.eqb p "" = false ->
  DemoxClient.lookup_path p (paths w) = Some st ->
  size st > 500 * 1024 * 1024 ->
  deploy_resolved this params tok p w
  = (Throw (NewError ("文件过大 (" ++ DemoxClient.megabytes (size st)
                      ++ "MB)，当前最大支持 500MB")),
     after (log INFO ["文件大小: " ++ DemoxClient.megabytes (size st) ++ "MB"]) w).
Proof.
  intros Hne Hp Hsz. unfold deploy_resolved. rewrite Hne.
  rewrite (bind_ok _ _ _ _ _ (eq_refl : ret tt w = (Ok tt, w))).
  rewrite (bind_ok _ _ _ _ _ (getFileSize_found _ _ _ Hp)).
  unfold log at 1. rewrite bind_emit. cbv zeta.
  replace (size st >? 500 * 1024 * 1024) with true
    by (symmetry; apply Z.gtb_lt; lia).
  reflexivity.
Qed.

Lemma upload_ok p tok w id us :
  uploads w = Ok id :: us ->
  DemoxClient.uploadToCloudBaseStorage p tok w
  = (Ok id,
     set_uploads us
       (set_events
          (events w
           ++ [EvLog INFO [("正在上传文件到 CloudBase Storage: "
                            ++ ("mcp-uploads/" ++ JsString.of_Z (now w) ++ "-"
                                ++ DemoxClient.basename p))%string];
               EvUpload p ("mcp-uploads/" ++ JsString.of_Z (now w) ++ "-"
                           ++ DemoxClient.basename p);
               EvLog INFO [("文件上传成功: " ++ id)%string]])%list w)).
Proof.
  intro Hu.
  unfold DemoxClient.uploadToCloudBaseStorage, Date_now, bind, log, emit, ret.
  cbn [fst snd uploads now set_events events]. rewrite Hu.
  cbn [fst snd uploads now set_events set_uploads events].
  rewrite <- !app_assoc. destruct w; reflexivity.
Qed.

Lemma deploy_resolved_ok this params tok p w st id us r rs d :
  String.eqb p "" = false ->
  DemoxClient.lookup_path p (paths w) = Some st ->
  size st <= 500 * 1024 * 1024 ->
  uploads w = Ok id :: us ->
  replies w = FetchResponds r :: rs -> ok r = true -> bodyJson r = Ok d ->
  Js.truthy (Js.get d "error") = false -> d <> JNull ->
  deploy_resolved this params tok p w
  = (Ok d,
     set_replies rs
       (set_uploads us
          (set_events (events w ++ uploadTrace this params tok p (size st) (now w) id d)
                      w))).
Proof.
  intros Hne Hp Hsz Hu Hr Hok Hb He Hd. unfold deploy_resolved. rewrite Hne.
  rewrite (bind_ok _ _ _ _ _ (eq_refl : ret tt w = (Ok tt, w))).
  rewrite (bind_ok _ _ _ _ _ (getFileSize_found _ _ _ Hp)).
  unfold log at 1. rewrite bind_emit. cbv zeta.
  replace (size st >? 500 * 1024 * 1024) with false
    by (symmetry; rewrite Z.gtb_ltb; apply Z.ltb_ge; lia).
  set (w1 := after (emit _) w).
  rewrite (bind_ok _ _ _ _ _ (eq_refl : ret tt w1 = (Ok tt, w1))).
  unfold log at 1. rewrite bind_emit.
  set (w2 := after (emit _) w1).
  rewrite (bind_ok _ _ _ _ _ (upload_ok p tok w2 id us Hu)).
  set (w3 := set_uploads us _).
  rewrite (bind_ok _ _ _ _ _
             (callFunction_ok this "deploy-website" _ tok w3 r rs d Hr Hok Hb He)).
  rewrite (member_not_null _ _ Hd).
  set (w4 := set_replies rs _).
  rewrite (bind_ok _ _ _ _ _ (eq_refl : ret (Js.get d "url") w4 = (Ok (Js.get d "url"), w4))).
  unfold log at 1. rewrite bind_emit.
  subst w4 w3 w2 w1. unfold uploadTrace, deployRequest, ret, after, emit.
  destruct w. cbn [fst snd events now set_events set_uploads set_replies
                   paths uploads replies].
  rewrite <- !app_assoc. reflexivity.
Qed.

Lemma rooted_is_local z :
  JsString.startsWith z "/" || JsString.startsWith z "." = true ->
  isUrl z = false /\ takenForBase64 z = false.
Proof.
  intro H. unfold isUrl, takenForBase64.
  apply orb_true_iff in H as [H | H];
    destruct (prefix_split _ _ H) as [post ->]; split;
      try reflexivity; rewrite H; cbn [negb]; rewrite ?andb_false_r; reflexivity.
Qed.

Lemma path_not_empty (a b : string) c : String.eqb (a ++ String c b) "" = false.
Proof. destruct a; reflexivity. Qed.

Lemma zipDirectoryToFile_ok cfg z w sz zs :
  zips w = Ok sz :: zs ->
  let temp := cfg_tmpdir cfg ++ "/demox-deploy-" ++ JsString.of_Z (now w) ++ ".zip" in
  DemoxClient.zipDirectoryToFile cfg z w
  = (Ok temp,
     set_paths ((temp, tempFileOf sz) :: paths w)
       (set_zips zs
          (set_events (events w ++ [EvZip z temp;
                                    EvLog DEBUG [("目录打包成功: " ++ z ++ " -> " ++ temp)%string]])%list
                      w))).
Proof.
  intros Hz temp. subst temp.
  unfold DemoxClient.zipDirectoryToFile, DemoxClient.writeTemp, Date_now,
    try_catch, bind, log, emit, ret.
  rewrite Hz. cbn [fst snd zips now paths events set_zips set_events set_paths].
  rewrite <- !app_assoc. destruct w; reflexivity.
Qed.

(** A text file is not a site. *)
Lemma deploy_local_path_failures_witness :
  DemoxClient.deployWebsite Sample.config Sample.client
    (Sample.deployOf "notes.txt") "cached-token" (Sample.withFile "notes.txt" 12)
  = (Throw (NewError "不支持的文件类型，仅支持 .zip 文件或目录"),
     after (log INFO ["正在部署网站: " ++ "site"] ;;
            log DEBUG ["检测到本地路径: " ++ "notes.txt"])
       (Sample.withFile "notes.txt" 12)).
Proof.
  refine (deploy_local_path_failures Sample.config Sample.client
            (Sample.deployOf "notes.txt") "cached-token"
            (Sample.withFile "notes.txt" 12) _ _ _ _);
    vm_compute; reflexivity.
Defined.

(** X14.  A local [.zip] file of more than 500 MB (500 * 1024 * 1024 bytes)
    is refused with its size in the message, after three log lines and
    before anything is uploaded or sent to the backend. *)
Theorem deploy_refuses_oversized_zip cfg this params tok w st :
  isUrl (zipFile params) = false ->
  takenForBase64 (zipFile params) = false ->
  DemoxClient.lookup_path (zipFile params) (paths w) = Some st ->
  isDirectory st = false ->
  JsString.endsWith (JsString.toLowerCase (zipFile params)) ".zip" = true ->
  size st > 500 * 1024 * 1024 ->
  DemoxClient.deployWebsite cfg this params tok w
  = (Throw (NewError ("文件过大 (" ++ DemoxClient.megabytes (size st)
                      ++ "MB)，当前最大支持 500MB")),
     set_events (events w
                 ++ [EvLog INFO [("正在部署网站: " ++ fileName params)%string];
                     EvLog DEBUG [("检测到本地路径: " ++ zipFile params)%string];
                     EvLog INFO [("文件大小: " ++ DemoxClient.megabytes (size st)
                                  ++ "MB")%string]])%list w).
Proof.
  intros Hurl Hb64 Hp Hdir Hzip Hsz.
  unfold isUrl, takenForBase64 in *.
  set (w2 := after (emit (EvLog DEBUG ["检测到本地路径: " ++ zipFile params]))
               (after (emit (EvLog INFO ["正在部署网站: " ++ fileName params])) w)).
  assert (Hs : DemoxClient.getPathStat (zipFile params) w2 = (Ok st, w2)).
  { unfold DemoxClient.getPathStat.
    change (paths w2) with (paths w). rewrite Hp. reflexivity. }
  assert (Hne : String.eqb (zipFile params) "" = false).
  { destruct (zipFile params); [discriminate Hzip | reflexivity]. }
  assert (Hrun : DemoxClient.deployWebsite cfg this params tok w
                 = deploy_resolved this params tok (zipFile params) w2).
  { unfold DemoxClient.deployWebsite, log at 1.
    rewrite bind_emit, Hurl, Hb64.
    rewrite !bind_assoc. unfold log at 1. rewrite bind_emit, bind_assoc.
    fold w2. rewrite (bind_ok _ _ _ _ _ Hs), Hdir, Hzip. reflexivity. }
  rewrite Hrun.
  rewrite (deploy_resolved_oversized this params tok _ w2 st Hne Hp Hsz).
  subst w2. unfold after, log, emit. destruct w.
  cbn [fst snd events set_events]. rewrite <- !app_assoc. reflexivity.
Qed.

(** An archive of 600 MB. *)
Lemma deploy_refuses_oversized_zip_witness :
  DemoxClient.deployWebsite Sample.config Sample.client
    (Sample.deployOf "site.zip") "cached-token" (Sample.withFile "site.zip" 629145600)
  = (Throw (NewError "文件过大 (600.00MB)，当前最大支持 500MB"),
     set_events [EvLog INFO ["正在部署网站: site"];
                 EvLog DEBUG ["检测到本地路径: site.zip"];
                 EvLog INFO ["文件大小: 600.00MB"]]
       (Sample.withFile "site.zip" 629145600)).
Proof.
  refine (deploy_refuses_oversized_zip Sample.config Sample.client
            (Sample.deployOf "site.zip") "cached-token"
            (Sample.withFile "site.zip" 629145600)
            (tempFileOf 629145600) _ _ _ _ _ _);
    vm_compute; reflexivity.
Defined.

(** X15.  Deploying a directory named by a path that starts with [/] or
    [.]: the directory is archived into [<tmpdir>/demox-deploy-<now>.zip],
    the archive is uploaded under [mcp-uploads/<now>-<its base name>], the
    backend is asked to deploy the uploaded file, and its reply is the
    result.  The trace is exactly the one given (the clock stands still
    during a call, so both names carry the time of the call), one archive,
    one upload and one reply are consumed, and the archive stays in the
    temporary directory. *)
Theorem deploy_directory_succeeds cfg this params tok w st sz zs id us r rs d :
  JsString.startsWith (zipFile params) "/"
  || JsString.startsWith (zipFile params) "." = true ->
  DemoxClient.lookup_path (zipFile params) (paths w) = Some st ->
  isDirectory st = true ->
  zips w = Ok sz :: zs ->
  sz <= 500 * 1024 * 1024 ->
  uploads w = Ok id :: us ->
  replies w = FetchResponds r :: rs -> ok r = true -> bodyJson r = Ok d ->
  Js.truthy (Js.get d "error") = false -> d <> JNull ->
  let temp := cfg_tmpdir cfg ++ "/demox-deploy-" ++ JsString.of_Z (now w) ++ ".zip" in
  let run := DemoxClient.deployWebsite cfg this params tok w in
  fst run = Ok d
  /\ events (snd run)
     = (events w
        ++ [EvLog INFO [("正在部署网站: " ++ fileName params)%string];
            EvLog DEBUG [("检测到本地路径: " ++ zipFile params)%string];
            EvLog DEBUG [("检测到目录: " ++ zipFile params ++ "，正在打包...")%string];
            EvZip (zipFile params) temp;
            EvLog DEBUG [("目录打包成功: " ++ zipFile params ++ " -> " ++ temp)%string]]
        ++ uploadTrace this params tok temp sz (now w) id d)%list
  /\ paths (snd run) = (temp, tempFileOf sz) :: paths w
  /\ zips (snd run) = zs /\ uploads (snd run) = us /\ replies (snd run) = rs.
Proof.
  intros Hroot Hp Hdir Hz Hsz Hu Hr Hok Hb He Hd temp run. subst run.
  destruct (rooted_is_local _ Hroot) as [Hurl Hb64].
  unfold isUrl, takenForBase64 in *.
  set (w2 := after (emit (EvLog DEBUG ["检测到本地路径: " ++ zipFile params]))
               (after (emit (EvLog INFO ["正在部署网站: " ++ fileName params])) w)).
  assert (Hs : DemoxClient.getPathStat (zipFile params) w2 = (Ok st, w2)).
  { unfold DemoxClient.getPathStat.
    change (paths w2) with (paths w). rewrite Hp. reflexivity. }
  set (w3 := after (emit (EvLog DEBUG ["检测到目录: " ++ zipFile params
                                       ++ "，正在打包..."])) w2).
  pose proof (zipDirectoryToFile_ok cfg (zipFile params) w3 sz zs Hz) as Hzip.
  cbv zeta in Hzip. change (now w3) with (now w) in Hzip. fold temp in Hzip.
  match type of Hzip with _ = (_, ?x) => set (w4 := x) in * end.
  assert (Hrun : DemoxClient.deployWebsite cfg this params tok w
                 = deploy_resolved this params tok temp w4).
  { unfold DemoxClient.deployWebsite, log at 1.
    rewrite bind_emit, Hurl, Hb64.
    rewrite !bind_assoc. unfold log at 1. rewrite bind_emit, bind_assoc.
    fold w2. rewrite (bind_ok _ _ _ _ _ Hs), Hdir.
    rewrite bind_assoc. unfold log at 1. rewrite bind_emit. fold w3.
    rewrite (bind_ok _ _ _ _ _ Hzip). reflexivity. }
  rewrite Hrun.
  assert (Hp4 : DemoxClient.lookup_path temp (paths w4) = Some (tempFileOf sz)).
  { subst w4. cbn [paths set_paths DemoxClient.lookup_path].
    rewrite String.eqb_refl. reflexivity. }
  rewrite (deploy_resolved_ok this params tok temp w4 (tempFileOf sz) id us r rs d
             (path_not_empty _ _ _) Hp4 Hsz Hu Hr Hok Hb He Hd).
  subst w4 w3 w2. unfold after, emit. destruct w.
  cbn [fst snd events now paths zips uploads replies
       set_events set_paths set_zips set_uploads set_replies tempFileOf size].
  rewrite <- !app_assoc. repeat split; reflexivity.
Qed.

(** The directory [./dist] of twenty kilobytes once archived. *)
Lemma deploy_directory_succeeds_witness :
  let w := Sample.withDirectory "./dist" in
  let temp := "/tmp/demox-deploy-1700000000000.zip" in
  let run := DemoxClient.deployWebsite Sample.config Sample.client
               (Sample.deployOf "./dist") "cached-token" w in
  fst run = Ok Sample.deployedSite
  /\ events (snd run)
     = ([EvLog INFO ["正在部署网站: site"];
         EvLog DEBUG ["检测到本地路径: ./dist"];
         EvLog DEBUG ["检测到目录: ./dist，正在打包..."];
         EvZip "./dist" temp;
         EvLog DEBUG ["目录打包成功: ./dist -> /tmp/demox-deploy-1700000000000.zip"]]
        ++ uploadTrace Sample.client (Sample.deployOf "./dist") "cached-token" temp
             20480 Sample.t0 "cloud://demox/mcp-uploads/site.zip" Sample.deployedSite)%list
  /\ paths (snd run) = [(temp, tempFileOf 20480); ("./dist", Sample.directory)]
  /\ zips (snd run) = [] /\ uploads (snd run) = [] /\ replies (snd run) = [].
Proof.
  refine (deploy_directory_succeeds Sample.config Sample.client
            (Sample.deployOf "./dist") "cached-token" (Sample.withDirectory "./dist")
            Sample.directory 20480 [] "cloud://demox/mcp-uploads/site.zip" []
            (Sample.okReply Sample.deployedSite) [] Sample.deployedSite
            _ _ _ _ _ _ _ _ _ _ _);
    try (vm_compute; reflexivity); try discriminate.
Defined.

(** X16.  A download that the remote host answers with a status that is
    not ok fails with [下载失败: <status text>]: the request for the archive
    carries no bearer token, exactly one reply is consumed, the failure is
    logged, and nothing is written, uploaded or sent to the backend. *)
Theorem deploy_download_refused cfg this params tok w r rs :
  isUrl (zipFile params) = true ->
  JsString.endsWith (JsString.toLowerCase (zipFile params)) ".zip" = true ->
  replies w = FetchResponds r :: rs ->
  ok r = false ->
  DemoxClient.deployWebsite cfg this params tok w
  = (Throw (NewError ("下载失败: " ++ statusText r)),
     set_replies rs
       (set_events
          (events w
           ++ [EvLog INFO [("正在部署网站: " ++ fileName params)%string];
               EvLog DEBUG ["检测到 ZIP URL，正在下载..."];
               EvFetch (zipFile params) None None JNull;
               EvLog ERROR ["下载 ZIP 文件失败:";
                            ("下载失败: " ++ statusText r)%string]])%list w)).
Proof.
  intros Hurl Hzip Hr Hok. unfold isUrl in Hurl.
  unfold DemoxClient.deployWebsite, DemoxClient.downloadZipFileToBuffer,
    DemoxClient.fetch, try_catch, bind, log, emit, ret, throw.
  rewrite Hurl, Hzip. cbn [negb fst snd replies events set_events]. rewrite Hr.
  cbn [fst snd replies events set_events set_replies]. rewrite Hok.
  cbn [negb fst snd replies events set_events set_replies message].
  rewrite <- !app_assoc. destruct w; reflexivity.
Qed.

(** The host answers 404. *)
Lemma deploy_download_refused_witness :
  DemoxClient.deployWebsite Sample.config Sample.client
    (Sample.deployOf "https://example.com/site.zip") "cached-token"
    (Sample.answering (FetchResponds Sample.missing))
  = (Throw (NewError "下载失败: Not Found"),
     set_replies []
       (set_events
          [EvLog INFO ["正在部署网站: site"];
           EvLog DEBUG ["检测到 ZIP URL，正在下载..."];
           EvFetch "https://example.com/site.zip" None None JNull;
           EvLog ERROR ["下载 ZIP 文件失败:"; "下载失败: Not Found"]]
          (Sample.answering (FetchResponds Sample.missing)))).
Proof.
  refine (deploy_download_refused Sample.config Sample.client
            (Sample.deployOf "https://example.com/site.zip") "cached-token"
            (Sample.answering (FetchResponds Sample.missing)) Sample.missing []
            _ _ _ _); vm_compute; reflexivity.
Defined.

(** ** Deploy: what [isBase64] takes for base64 *)

Lemma sextets_none l c :
  In c l -> Base64.sextet c = None -> Base64.sextets l = None.
Proof.
  intros Hin Hc. induction l as [| a l IH]; [destruct Hin |].
  destruct Hin as [-> | Hin]; cbn [Base64.sextets].
  - rewrite Hc. reflexivity.
  - rewrite (IH Hin). destruct (Base64.sextet a); reflexivity.
Qed.

Lemma strip_padding_rev_eq r :
  Base64.strip_padding_rev r
  = match r with
    | [] => r
    | a :: t =>
      if Ascii.eqb a "=" then
        match t with
        | [] => t
        | b :: t' => if Ascii.eqb b "=" then t' else t
        end
      else r
    end.
Proof.
  destruct r as [| a t]; [reflexivity |].
  destruct a as [[] [] [] [] [] [] [] []]; try reflexivity.
  destruct t as [| b t']; [reflexivity |].
  destruct b as [[] [] [] [] [] [] [] []]; reflexivity.
Qed.

Lemma strip_padding_keeps r c :
  In c r -> c <> "="%char -> In c (Base64.strip_padding_rev r).
Proof.
  intros Hin Hc. rewrite strip_padding_rev_eq.
  destruct r as [| a t]; [exact Hin |].
  destruct (Ascii.eqb a "=") eqn:Ea; [| exact Hin].
  apply Ascii.eqb_eq in Ea. subst a.
  destruct Hin as [E | Hin]; [congruence |].
  destruct t as [| b t']; [exact Hin |].
  destruct (Ascii.eqb b "=") eqn:Eb; [| exact Hin].
  apply Ascii.eqb_eq in Eb. subst b.
  destruct Hin as [E | Hin]; [congruence | exact Hin].
Qed.

Lemma atob_rejects s c :
  In c (list_ascii_of_string s) ->
  Base64.is_whitespace c = false -> Base64.sextet c = None -> c <> "="%char ->
  Base64.atob s = None.
Proof.
  intros Hin Hws Hsx Hpad. unfold Base64.atob.
  set (data := filter _ _).
  assert (Hd : In c data).
  { apply filter_In. split; [exact Hin | rewrite Hws; reflexivity]. }
  set (data' := if (List.length data mod 4 =? 0)%nat then _ else data).
  assert (Hd' : In c data').
  { subst data'. destruct (List.length data mod 4 =? 0)%nat; [| exact Hd].
    apply in_rev. rewrite rev_involutive.
    apply strip_padding_keeps; [| exact Hpad]. apply in_rev in Hd. exact Hd. }
  destruct (List.length data' mod 4 =? 1)%nat; [reflexivity |].
  rewrite (sextets_none _ _ Hd' Hsx). reflexivity.
Qed.

(** X17.  A string that holds a character which is neither a base64 digit,
    nor ASCII white space, nor [=] (a dot, a hyphen, an underscore, a
    colon, a backslash, any byte outside ASCII) is taken for base64 by the
    fallback alone: when it has no slash, no backslash and more than 100
    UTF-16 units. *)
Theorem isBase64_with_foreign_character s c :
  In c (list_ascii_of_string s) ->
  Base64.is_whitespace c = false -> Base64.sextet c = None -> c <> "="%char ->
  DemoxClient.isBase64 s
  = negb (JsString.includes s "/") && negb (JsString.includes s "\")
    && (100 <? JsString.length s)%nat.
Proof.
  intros Hin Hws Hsx Hpad. unfold DemoxClient.isBase64.
  rewrite (atob_rejects s c Hin Hws Hsx Hpad). reflexivity.
Qed.

(** The dot of [site.zip]. *)
Lemma isBase64_with_foreign_character_witness :
  DemoxClient.isBase64 "site.zip"
  = negb (JsString.includes "site.zip" "/") && negb (JsString.includes "site.zip" "\")
    && (100 <? JsString.length "site.zip")%nat.
Proof.
  refine (isBase64_with_foreign_character "site.zip" "."%char _ _ _ _);
    [ simpl; tauto | reflexivity | reflexivity | discriminate ].
Defined.

(** ** The command line tool *)

Lemma status_of_record cfg w t :
  tokenFile w = Readable (JsonRecord t) ->
  Cli.status cfg w
  = (Ok 0%N, set_events (events w ++ statusReport cfg t (now w)) w).
Proof.
  intro Hf.
  unfold Cli.status, OAuthManager.existsSync_tokenPath,
    OAuthManager.readFile_tokenPath, OAuthManager.JSON_parse, Date_now,
    try_catch, bind, log, emit, ret.
  rewrite Hf. cbn [negb fst snd tokenFile now events set_events].
  rewrite Hf. cbn [negb fst snd tokenFile now events set_events].
  unfold statusReport, validity.
  destruct (_ >? 0); [| destruct (_ =? 0)];
    cbn [negb fst snd tokenFile now events set_events];
    rewrite <- !app_assoc; destruct w; reflexivity.
Qed.

Lemma days_floor x :
  let d := x / (1000 * 60 * 60 * 24) in
  d * (1000 * 60 * 60 * 24) <= x /\ x < (d + 1) * (1000 * 60 * 60 * 24).
Proof.
  cbv zeta. change (1000 * 60 * 60 * 24) with 86400000.
  pose proof (Z.div_mod x 86400000 ltac:(lia)).
  pose proof (Z.mod_pos_bound x 86400000 ltac:(lia)). lia.
Qed.

(** X18.  [status] and the tool calls agree on a stored record.  With a
    record on file, [status] exits with 0, changes nothing but the log, and
    prints the days left, rounded down.  When it prints a positive number
    [d] of days, every [ensureAuthenticated] that finds the same file less
    than [d] days minus five minutes later returns the stored access token
    and starts no login; when it prints that the token has expired, every
    later [ensureAuthenticated] that finds the same file starts a login. *)
Theorem status_agrees_with_ensureAuthenticated cfg w t w' :
  tokenFile w = Readable (JsonRecord t) ->
  tokenFile w' = tokenFile w ->
  now w <= now w' ->
  let d := (expiresAt t - now w) / (1000 * 60 * 60 * 24) in
  Cli.status cfg w = (Ok 0%N, set_events (events w ++ statusReport cfg t (now w)) w)
  /\ (0 < d ->
      now w' - now w < d * (1000 * 60 * 60 * 24) - 5 * 60 * 1000 ->
      validity d = EvLog INFO ["Token 有效期: " ++ JsString.of_Z d ++ " 天"]
      /\ fst (OAuthManager.ensureAuthenticated cfg w') = Ok (accessToken t)
      /\ authorizeCalls (after (OAuthManager.ensureAuthenticated cfg) w')
         = authorizeCalls w')
  /\ (d < 0 ->
      validity d = EvLog WARN ["⚠️  Token 已过期，请重新登录"]
      /\ authorizeCalls (after (OAuthManager.ensureAuthenticated cfg) w')
         = S (authorizeCalls w')).
Proof.
  intros Hf Hf' Hlater d. split; [exact (status_of_record cfg w t Hf) |].
  rewrite Hf in Hf'.
  assert (Hload : OAuthManager.loadToken cfg w'
                  = (Ok (Some t), after (log DEBUG ["成功加载本地 Token"]) w')).
  { rewrite loadToken_eq, Hf'. reflexivity. }
  pose proof (days_floor (expiresAt t - now w)) as [Hlo Hhi]. fold d in Hlo, Hhi.
  split.
  - intros Hd Hsoon. split.
    { unfold validity. replace (d >? 0) with true; [reflexivity |].
      symmetry. apply Z.gtb_lt. lia. }
    apply (ensureAuthenticated_fresh cfg w' t _ Hload). lia.
  - intro Hd. split.
    { unfold validity. replace (d >? 0) with false.
      - replace (d =? 0) with false; [reflexivity |]. symmetry. apply Z.eqb_neq. lia.
      - symmetry. rewrite Z.gtb_ltb. apply Z.ltb_ge. lia. }
    unfold after at 1.
    rewrite (ensureAuthenticated_stale cfg w' t _ Hload).
    + apply (login_after_load_calls cfg w' (Some t) _ Hload).
    + lia.
Qed.

(** Twenty days are left; ten days later the record is still good. *)
Lemma status_agrees_with_ensureAuthenticated_witness :
  let w := Sample.withFreshRecord in
  let w' := set_now (Sample.t0 + 10 * Sample.day) Sample.withFreshRecord in
  fst (Cli.status Sample.config w) = Ok 0%N
  /\ fst (OAuthManager.ensureAuthenticated Sample.config w') = Ok "cached-token"
  /\ authorizeCalls (after (OAuthManager.ensureAuthenticated Sample.config) w')
     = authorizeCalls w'.
Proof.
  destruct (status_agrees_with_ensureAuthenticated Sample.config Sample.withFreshRecord
              (Sample.record (Sample.t0 + 20 * Sample.day))
              (set_now (Sample.t0 + 10 * Sample.day) Sample.withFreshRecord)
              eq_refl eq_refl ltac:(vm_compute; discriminate))
    as (Hs & Hpos & _).
  destruct (Hpos ltac:(vm_compute; reflexivity) ltac:(vm_compute; reflexivity))
    as (_ & H1 & H2).
  split; [rewrite Hs; reflexivity |]. split; [exact H1 | exact H2].
Defined.

Lemma status_without_file cfg w :
  tokenFile w = NoFile ->
  Cli.status cfg w
  = (Ok 0%N, set_events (events w ++ [EvLog INFO ["未登录"];
                                      EvLog INFO ["请运行: demox-mcp login"]])%list w).
Proof.
  intro Hf.
  unfold Cli.status, OAuthManager.existsSync_tokenPath, bind, log, emit, ret.
  rewrite Hf. cbn [negb fst snd events set_events].
  rewrite <- !app_assoc. destruct w; reflexivity.
Qed.

(** X19.  [logout] exits with 0 or 1.  When it exits with 0 the token path
    holds no file: [status] then reports that nobody is logged in, and the
    next [ensureAuthenticated] starts a login.  It exits with 1 only when a
    file was there and could not be removed, and then the file is as it
    was. *)
Theorem logout_by_exit_code cfg w :
  let run := Cli.logout cfg w in
  (fst run = Ok 0%N \/ fst run = Ok 1%N)
  /\ (fst run = Ok 0%N ->
      tokenFile (snd run) = NoFile
      /\ fst (Cli.status cfg (snd run)) = Ok 0%N
      /\ In (EvLog INFO ["未登录"]) (events (after (Cli.status cfg) (snd run)))
      /\ authorizeCalls (after (OAuthManager.ensureAuthenticated cfg) (snd run))
         = S (authorizeCalls w))
  /\ (fst run = Ok 1%N ->
      tokenFile (snd run) = tokenFile w
      /\ tokenFile w <> NoFile /\ unlinkFault w <> None).
Proof.
  intro run.
  assert (Hgone : forall w1, tokenFile w1 = NoFile -> authorizeCalls w1 = authorizeCalls w ->
            tokenFile w1 = NoFile
            /\ fst (Cli.status cfg w1) = Ok 0%N
            /\ In (EvLog INFO ["未登录"]) (events (after (Cli.status cfg) w1))
            /\ authorizeCalls (after (OAuthManager.ensureAuthenticated cfg) w1)
               = S (authorizeCalls w)).
  { intros w1 Hf Hc. split; [exact Hf |].
    unfold after at 1. rewrite (status_without_file cfg w1 Hf). cbn [fst snd].
    split; [reflexivity |]. split.
    - cbn [events set_events]. apply in_or_app. right. left. reflexivity.
    - assert (Hload : OAuthManager.loadToken cfg w1 = (Ok None, w1))
        by (rewrite loadToken_eq, Hf; reflexivity).
      unfold after. rewrite (ensureAuthenticated_absent cfg w1 w1 Hload).
      rewrite <- Hc. apply (login_after_load_calls cfg w1 None w1 Hload). }
  subst run.
  unfold Cli.logout, OAuthManager.existsSync_tokenPath, OAuthManager.unlink_tokenPath,
    try_catch, bind, log, emit, ret.
  destruct (tokenFile w) as [| e | c] eqn:Ef; cbn [negb fst snd].
  - split; [left; reflexivity |]. split; [| discriminate].
    intros _. apply Hgone; [exact Ef |].
    apply (keeps_calls_log INFO ["未找到本地 Token"] w).
  - destruct (unlinkFault w) as [e' |] eqn:Eu; cbn [fst snd].
    + split; [right; reflexivity |]. split; [discriminate |].
      intros _. split; [exact Ef |]. split; congruence.
    + split; [left; reflexivity |]. split; [| discriminate].
      intros _. apply Hgone; [reflexivity |].
      unfold authorizeCalls. cbn [events set_events set_tokenFile].
      rewrite <- !app_assoc, filter_app. cbn [filter isAuthorizeEvent].
      rewrite app_nil_r. reflexivity.
  - destruct (unlinkFault w) as [e' |] eqn:Eu; cbn [fst snd].
    + split; [right; reflexivity |]. split; [discriminate |].
      intros _. split; [exact Ef |]. split; congruence.
    + split; [left; reflexivity |]. split; [| discriminate].
      intros _. apply Hgone; [reflexivity |].
      unfold authorizeCalls. cbn [events set_events set_tokenFile].
      rewrite <- !app_assoc, filter_app. cbn [filter isAuthorizeEvent].
      rewrite app_nil_r. reflexivity.
Qed.

(** X20.  [clean] exits with 0 whatever happens.  A file that cannot be
    removed stays as it was: the failure is logged, and so is the line
    saying that there was nothing to clean. *)
Theorem clean_always_exits_zero all w :
  let run := Cli.clean all w in
  fst run = Ok 0%N
  /\ tokenFile (snd run)
     = match unlinkFault w with
       | Some _ => tokenFile w
       | None => NoFile
       end
  /\ forall e, tokenFile w <> NoFile -> unlinkFault w = Some e ->
       In (EvLog ERROR ["❌ 删除 Token 失败:"; message e]) (events (snd run))
       /\ In (EvLog INFO ["没有需要清理的内容"]) (events (snd run)).
Proof.
  intro run. subst run.
  unfold Cli.clean, OAuthManager.existsSync_tokenPath, OAuthManager.unlink_tokenPath,
    try_catch, bind, log, emit, ret.
  destruct (tokenFile w) as [| e0 | c] eqn:Ef; cbn [negb fst snd];
    destruct (unlinkFault w) as [e' |] eqn:Eu; cbn [negb fst snd];
      destruct all; cbn [negb fst snd events set_events set_tokenFile tokenFile];
        (split; [reflexivity |]); (split; [try reflexivity; try exact Ef |]);
          intros e Hne He; try congruence;
            injection He as <-; rewrite !in_app_iff; simpl; tauto.
Qed.

(** X21.  The command line [delete] never logs in a second time.  Whatever
    error the deletion fails with, an authentication failure included, the
    command logs it and exits with 1: no login is started and nothing is
    retried.  (The tool handler of the server logs in and retries.) *)
Theorem cli_delete_does_not_retry cfg id w tok w1 e w2 :
  OAuthManager.ensureAuthenticated cfg w = (Ok tok, w1) ->
  DemoxClient.deleteWebsite (DemoxClient.construct cfg tok) id tok
    (after (log INFO ["正在删除网站: " ++ id]) w1) = (Throw e, w2) ->
  Cli.delete cfg id w = (Ok 1%N, after (log ERROR ["❌ 删除失败:"; message e]) w2)
  /\ authorizeCalls (after (Cli.delete cfg id) w) = authorizeCalls w1
  /\ replies (after (Cli.delete cfg id) w) = replies w2.
Proof.
  intros Hens Hdel.
  assert (Hrun : Cli.delete cfg id w
                 = (Ok 1%N, after (log ERROR ["❌ 删除失败:"; message e]) w2)).
  { unfold Cli.delete.
    rewrite (try_bind_ok _ _ _ _ _ _ Hens). cbv zeta.
    unfold log at 1.
    assert (Hbody : bind (emit (EvLog INFO ["正在删除网站: " ++ id]))
                      (fun _ =>
                         DemoxClient.deleteWebsite (DemoxClient.construct cfg tok) id tok ;;
                         log INFO ["✅ 网站已删除"] ;; ret 0%N) w1
                    = (Throw e, w2)).
    { rewrite bind_emit. apply bind_throw. exact Hdel. }
    rewrite (try_throw _ _ _ _ _ Hbody). reflexivity. }
  split; [exact Hrun |].
  unfold after at 1 2. rewrite Hrun. cbn [snd].
  split; [| reflexivity].
  rewrite keeps_calls_log.
  rewrite <- (after_of _ _ _ _ Hdel).
  rewrite keeps_calls_deleteWebsite. apply keeps_calls_log.
Qed.

(** The backend answers 401 to a record that is still good for twenty
    days. *)
Lemma cli_delete_does_not_retry_witness :
  Cli.delete Sample.config "site-1" (Sample.expired Sample.deleted)
  = (Ok 1%N,
     after (log ERROR ["❌ 删除失败:"; "HTTP 401: Unauthorized"]) Sample.afterCliDelete)
  /\ authorizeCalls (after (Cli.delete Sample.config "site-1")
                           (Sample.expired Sample.deleted))
     = authorizeCalls (Sample.afterEnsure Sample.deleted)
  /\ replies (after (Cli.delete Sample.config "site-1") (Sample.expired Sample.deleted))
     = replies Sample.afterCliDelete.
Proof.
  refine (cli_delete_does_not_retry Sample.config "site-1"
            (Sample.expired Sample.deleted) "cached-token"
            (Sample.afterEnsure Sample.deleted)
            (NewError "HTTP 401: Unauthorized") Sample.afterCliDelete _ _);
    vm_compute; reflexivity.
Defined.

(** X22.  [login], then [status]: when the login is granted and the record
    is saved, [login] exits with 0, and a [status] run that finds the file
    as [login] left it exits with 0 and reports the record of the callback.
    It reports thirty days only at the very instant of the callback; from
    then on, for the first day, it reports twenty-nine. *)
Theorem login_then_status cfg w env rest dt req w' :
  logins w = env :: rest ->
  callback env = Some (dt, req) ->
  (dt < 300000)%N ->
  truthy_str (q_error req) = false ->
  truthy_str (q_access_token req) = true ->
  q_state req = Some (nextState w) -> nextState w <> "" ->
  writeFault w = None ->
  tokenFile w' = tokenFile (after (Cli.login cfg) w) ->
  let t := grantedRecord cfg req (now w + Z.of_N dt) in
  let elapsed := now w' - (now w + Z.of_N dt) in
  0 <= elapsed <= 1000 * 60 * 60 * 24 ->
  fst (Cli.login cfg w) = Ok 0%N
  /\ Cli.status cfg w'
     = (Ok 0%N, set_events (events w' ++ statusReport cfg t (now w')) w')
  /\ validity ((expiresAt t - now w') / (1000 * 60 * 60 * 24))
     = EvLog INFO [if elapsed =? 0 then "Token 有效期: 30 天" else "Token 有效期: 29 天"].
Proof.
  intros Hl Hc Hdt Herr Ha Hst Hne Hwf Hfile t elapsed Hel.
  set (w0 := after (log INFO ["正在启动登录流程..."]) w).
  assert (Hs0 : nextState w0 = nextState w) by (apply nextState_ext; reflexivity).
  rewrite <- Hs0 in Hst, Hne.
  assert (Hn0 : now w0 = now w) by reflexivity.
  destruct (authorize_granted_facts cfg w0 env rest dt req Hl Hc Hdt Herr Ha Hst Hne Hwf)
    as (Hres & Htf & _).
  cbv zeta in Hres, Htf. rewrite Hn0 in Hres, Htf. fold t in Hres, Htf.
  set (w8 := snd (OAuthManager.authorize cfg w0)) in *.
  assert (Hauth : OAuthManager.authorize cfg w0 = (Ok (accessToken t), w8)).
  { rewrite (surjective_pairing (OAuthManager.authorize cfg w0)), Hres. reflexivity. }
  assert (Hrun : Cli.login cfg w
                 = (Ok 0%N,
                    after (log INFO ["✅ 登录成功！"] ;;
                           log INFO ["Token 已保存到: " ++ cfg_tokenPath cfg]) w8)).
  { unfold Cli.login, log at 1. rewrite bind_emit. fold w0.
    rewrite (try_bind_ok _ _ _ _ _ _ Hauth). reflexivity. }
  assert (Hf' : tokenFile w' = Readable (JsonRecord t)).
  { rewrite Hfile. unfold after at 1. rewrite Hrun. exact Htf. }
  split; [rewrite Hrun; reflexivity |].
  split; [exact (status_of_record cfg w' t Hf') |].
  subst t. cbn [expiresAt grantedRecord].
  replace (now w + Z.of_N dt + 30 * 24 * 60 * 60 * 1000 - now w')
    with (30 * (1000 * 60 * 60 * 24) - elapsed) by (subst elapsed; lia).
  destruct (Z.eqb_spec elapsed 0) as [-> | Hpos].
  - vm_compute. reflexivity.
  - replace ((30 * (1000 * 60 * 60 * 24) - elapsed) / (1000 * 60 * 60 * 24)) with 29.
    + vm_compute. reflexivity.
    + apply Z.div_unique with (r := 1000 * 60 * 60 * 24 - elapsed); lia.
Qed.

(** The login of the samples, granted after four seconds; [status] runs a
    minute later. *)
Lemma login_then_status_witness :
  let w := Sample.loginWith Sample.granted Sample.quiet in
  let t := grantedRecord Sample.config Sample.granted (Sample.t0 + 4000) in
  let w' := set_now (Sample.t0 + 64000) (after (Cli.login Sample.config) w) in
  fst (Cli.login Sample.config w) = Ok 0%N
  /\ Cli.status Sample.config w'
     = (Ok 0%N, set_events (events w' ++ statusReport Sample.config t (now w')) w')
  /\ validity ((expiresAt t - now w') / (1000 * 60 * 60 * 24))
     = EvLog INFO ["Token 有效期: 29 天"].
Proof.
  refine (login_then_status Sample.config (Sample.loginWith Sample.granted Sample.quiet)
            Sample.grantedLogin [] 4000%N Sample.granted
            (set_now (Sample.t0 + 64000)
               (after (Cli.login Sample.config)
                      (Sample.loginWith Sample.granted Sample.quiet)))
            _ _ _ _ _ _ _ _ _ _);
    try (vm_compute; reflexivity).
  - vm_compute. discriminate.
  - vm_compute. split; discriminate.
Defined.

(** ** The tool handler: calls that cannot be served *)







(** ** The remaining calls of the client *)

(** X25.  [verifyToken] never fails.  It answers [true] exactly when the
    backend call returns, and [false], with the failure logged, when the
    call fails in any way; the token goes to the backend both as bearer and
    in the request; no login is started. *)
Theorem verifyToken_never_fails this tok w :
  let call := DemoxClient.callFunction this "oauth-token-manager"
                (JObj [("action", JStr "verify_token"); ("accessToken", JStr tok)])
                tok w in
  DemoxClient.verifyToken this tok w
  = match fst call with
    | Ok _ => (Ok true, snd call)
    | Throw e => (Ok false, after (log ERROR ["Token 验证失败:"; message e]) (snd call))
    end
  /\ authorizeCalls (after (DemoxClient.verifyToken this tok) w) = authorizeCalls w.
Proof.
  intro call. subst call. split.
  - unfold DemoxClient.verifyToken, try_catch, bind at 1.
    destruct (DemoxClient.callFunction _ _ _ _ w) as [[d | e] w1]; reflexivity.
  - assert (Hk : keeps authorizeCalls (DemoxClient.verifyToken this tok)).
    { unfold DemoxClient.verifyToken. pose proof keeps_calls_callFunction.
      quiet_calls. }
    apply Hk.
Qed.





Lemma nth_error_combine_seq {A} (l : list A) : forall first i x,
  nth_error l i = Some x ->
  nth_error (combine (seq first (List.length l)) l) i = Some ((first + i)%nat, x).
Proof.
  induction l as [| a l IH]; intros first i x Hi; [destruct i; discriminate |].
  destruct i as [| i]; cbn [List.length seq combine nth_error] in *.
  - injection Hi as ->. rewrite Nat.add_0_r. reflexivity.
  - rewrite (IH (S first) i x Hi). rewrite Nat.add_succ_r. reflexivity.
Qed.

Lemma listEntries_run fmt sites : forall first w,
  Forall (fun site => site <> JNull) sites ->
  Server.listEntries fmt first sites w = (Ok (entryTexts fmt first sites), w).
Proof.
  induction sites as [| site rest IH]; intros first w Hall; [reflexivity |].
  inversion Hall as [| ? ? Hsite Hrest]; subst.
  cbn [Server.listEntries].
  assert (He : Server.listEntry fmt first site w = (Ok (entryText fmt first site), w)).
  { unfold Server.listEntry. rewrite (member_not_null _ _ Hsite). reflexivity. }
  rewrite (bind_ok _ _ _ _ _ He), (bind_ok _ _ _ _ _ (IH (S first) w Hrest)).
  reflexivity.
Qed.

(** X27.  [list_websites] lists every site once, in the order of the
    backend, numbered from 1, under a heading with their number: for a
    reply whose [files] is a list of sites that is not empty and holds no
    [null], the text is the heading followed by the entries of the sites,
    one for each position. *)
Theorem handleList_lists_every_site fmt tok w c r rs d sites :
  demoxClient w = Some c ->
  replies w = FetchResponds r :: rs -> ok r = true -> bodyJson r = Ok d ->
  Js.truthy (Js.get d "error") = false ->
  Js.get d "files" = Some (JArr sites) ->
  sites <> [] -> Forall (fun site => site <> JNull) sites ->
  fst (Server.handleList fmt tok w)
  = Ok (Server.textResult
          ("📋 您的网站列表（共 " ++ JsString.of_N (N.of_nat (List.length sites))
           ++ " 个）" ++ nl ++ nl ++ JsString.join nl (entryTexts fmt 0 sites)))
  /\ List.length (entryTexts fmt 0 sites) = List.length sites
  /\ forall i site, nth_error sites i = Some site ->
       nth_error (entryTexts fmt 0 sites) i = Some (entryText fmt i site).
Proof.
  intros Hc Hr Hok Hb He Hfiles Hne Hall.
  assert (Hd : d <> JNull) by (intros ->; discriminate Hfiles).
  split; [| split].
  - unfold Server.handleList, log at 1. rewrite bind_emit.
    set (w1 := after (emit _) w).
    assert (Hcl : Server.theClient w1 = (Ok c, w1)).
    { unfold Server.theClient. change (demoxClient w1) with (demoxClient w).
      rewrite Hc. reflexivity. }
    rewrite (bind_ok _ _ _ _ _ Hcl).
    unfold DemoxClient.listWebsites, log at 1. rewrite bind_assoc, bind_emit.
    set (w2 := after (emit _) w1).
    rewrite bind_assoc.
    rewrite (bind_ok _ _ _ _ _
               (callFunction_ok c "deploy-website" _ tok w2 r rs d Hr Hok Hb He)).
    rewrite (member_not_null _ _ Hd), Hfiles.
    unfold ret at 1, bind at 1. unfold ret at 1, bind at 1.
    cbn [DemoxClient.or_else Js.truthy].
    destruct sites as [| s0 rest]; [congruence |].
    rewrite (bind_ok _ _ _ _ _ (listEntries_run fmt _ 0 _ Hall)). reflexivity.
  - unfold entryTexts. rewrite length_map, length_combine, length_seq. lia.
  - intros i site Hi. unfold entryTexts.
    rewrite nth_error_map, (nth_error_combine_seq sites 0 i site Hi). reflexivity.
Qed.

(** Two sites. *)
Lemma handleList_lists_every_site_witness :
  fst (Server.handleList Sample.toLocaleString "cached-token"
         (Sample.asked (Sample.httpJson Sample.twoSites)))
  = Ok (Server.textResult
          ("📋 您的网站列表（共 2 个）" ++ nl ++ nl
           ++ JsString.join nl
                [entryText Sample.toLocaleString 0 Sample.site1;
                 entryText Sample.toLocaleString 1 Sample.site2])).
Proof.
  refine (proj1 (handleList_lists_every_site Sample.toLocaleString "cached-token"
                   (Sample.asked (Sample.httpJson Sample.twoSites)) Sample.client
                   (Sample.okReply Sample.twoSites) [] Sample.twoSites
                   [Sample.site1; Sample.site2] _ _ _ _ _ _ _ _));
    try (vm_compute; reflexivity); try discriminate.
  repeat constructor; discriminate.
Defined.
